(** * ORPHE INSOLE packet decoding and session state

    A shallow embedding of [orphe_insole.py]: the binary field readers, the
    step-analysis decoder with its step-count deduplication, the three
    sensor-stream decoders, the device-information codec and the two
    notification handlers of class [Orphe].

    Conventions of the embedding:
    - a [bytes]/[bytearray] value is a [list byte];
    - a Python [int] is a [Z];
    - a Python exception is a value [Raise e] of [Outcome];
    - a user callback is an observer: calling it appends one [Event] to the
      trace, and a callback slot is the boolean "the attribute exists and is
      truthy" that the code tests before every call; where the moment of a
      call matters (the loss callback of the sensor-values handler) the
      callback is arbitrary code run on the session, and the observer is
      one instance of it;
    - sensor readings are Python floats obtained as [k / 32768] and
      [k / 32768 * amp] with [|k| <= 32768] and [amp <= 2000]; all such
      values are dyadic rationals with fewer than 53 significant bits, so
      binary64 arithmetic is exact on them and they are modelled as
      rationals in lowest terms;
    - [struct.unpack] results keep their IEEE encoding (the bit pattern). *)

From Stdlib Require Import ZArith List Lia Bool QArith.
From Stdlib Require Import Strings.Byte.
From Stdlib Require Import Sorting.Sorted.
Import ListNotations.

Open Scope Z_scope.

(** ** Python values and primitives *)

Module Py.

Inductive exn : Type :=
| IndexError
| ValueError
| StructError
| AttributeError.

Inductive Outcome (A : Type) : Type :=
| Ok (a : A)
| Raise (e : exn).
Arguments Ok {A} a.
Arguments Raise {A} e.

Definition b2z (b : byte) : Z := Z.of_N (Byte.to_N b).

(** [data[i]] for a non-negative constant index. *)
Definition getitem (data : list byte) (i : nat) : Outcome Z :=
  match nth_error data i with
  | Some b => Ok (b2z b)
  | None => Raise IndexError
  end.

(** [data[lo:hi]] for constants [0 <= lo <= hi]: slicing never raises. *)
Definition slice (data : list byte) (lo hi : nat) : list byte :=
  firstn (hi - lo) (skipn lo data).

(** [int.from_bytes(bs, byteorder='big', signed=False)]. *)
Definition from_bytes_unsigned (bs : list byte) : Z :=
  fold_left (fun acc b => acc * 256 + b2z b) bs 0.

(** [int.from_bytes(bs, byteorder='big', signed=True)]. *)
Definition from_bytes_signed (bs : list byte) : Z :=
  let u := from_bytes_unsigned bs in
  let bits := 8 * Z.of_nat (length bs) in
  if (0 <? bits) && (2 ^ (bits - 1) <=? u) then u - 2 ^ bits else u.

(** [l[i]] on a list literal, with Python's negative indices. *)
Definition list_index (l : list Z) (i : Z) : Outcome Z :=
  let n := Z.of_nat (length l) in
  let j := if i <? 0 then i + n else i in
  if (0 <=? j) && (j <? n)
  then match nth_error l (Z.to_nat j) with
       | Some v => Ok v
       | None => Raise IndexError
       end
  else Raise IndexError.

(** A float produced by [a / b] or [x * k]: the exact value, in lowest terms. *)
Definition truediv (a : Z) (b : positive) : Q := Qred (a # b).
Definition fmul (x : Q) (k : Z) : Q := Qred (x * inject_Z k)%Q.

(** The 1-tuple returned by [struct.unpack('>e', bs)] / [struct.unpack('>f', bs)],
    kept as the big-endian bit pattern of the IEEE value. *)
Inductive packed : Type :=
| Half (bits : Z)
| Single (bits : Z).

Definition unpack_e (bs : list byte) : Outcome packed :=
  if Nat.eqb (length bs) 2 then Ok (Half (from_bytes_unsigned bs))
  else Raise StructError.

Definition unpack_f (bs : list byte) : Outcome packed :=
  if Nat.eqb (length bs) 4 then Ok (Single (from_bytes_unsigned bs))
  else Raise StructError.

(** [bytearray([v0, v1, ...])]: every item must be in [range(256)]. *)
Fixpoint bytearray (vs : list Z) : Outcome (list byte) :=
  match vs with
  | [] => Ok []
  | v :: rest =>
      if (0 <=? v) && (v <? 256)
      then match Byte.of_N (Z.to_N v), bytearray rest with
           | Some b, Ok bs => Ok (b :: bs)
           | None, _ => Raise ValueError
           | _, Raise e => Raise e
           end
      else Raise ValueError
  end.

(** Sequencing of code that can only raise (the data-class constructors). *)
Definition obind {A B} (r : Outcome A) (f : A -> Outcome B) : Outcome B :=
  match r with
  | Ok a => f a
  | Raise e => Raise e
  end.

End Py.
Export Py.

Declare Scope py_scope.
Delimit Scope py_scope with py.
Notation "x <~ r ;; k" := (obind r (fun x => k))
  (at level 61, r at next level, right associativity) : py_scope.
Open Scope py_scope.

(** ** Data classes *)

Module AccData.
Record t : Type := mk
  { x : Q; y : Q; z : Q;
    timestamp : Z; serial_number : Z; packet_number : Z }.
End AccData.

Module GyroData.
Record t : Type := mk
  { x : Q; y : Q; z : Q;
    timestamp : Z; serial_number : Z; packet_number : Z }.
End GyroData.

Module QuatData.
Record t : Type := mk
  { w : Q; x : Q; y : Q; z : Q;
    timestamp : Z; serial_number : Z; packet_number : Z }.
End QuatData.

Module PressureData.
Record t : Type := mk
  { values : list Z;
    timestamp : Z; serial_number : Z; packet_number : Z }.
End PressureData.

Module Range.
Record t : Type := mk { acc : Z; gyro : Z }.
End Range.

Module GaitData.
Record t : Type := mk
  { step_count : Z; gait_type : Z; direction : Z;
    calorie : packed; distance : packed;
    standing_phase_duration : packed; swing_phase_duration : packed }.

(** [GaitData.__init__].  In [data[4] & 0b11000000 >> 6] the shift binds
    tighter than [&], so the mask that is applied is [0b11000000 >> 6]. *)
Definition init (data : list byte) : Outcome t :=
  let step_count := from_bytes_unsigned (slice data 2 4) in
  b <~ getitem data 4 ;;
  let gait_type := Z.land b (Z.shiftr 0xC0 6) in
  b' <~ getitem data 4 ;;
  let direction := Z.shiftr (Z.land b' 0x38) 3 in
  calorie <~ unpack_e (slice data 6 8) ;;
  distance <~ unpack_f (slice data 8 12) ;;
  standing_phase_duration <~ unpack_f (slice data 12 16) ;;
  swing_phase_duration <~ unpack_f (slice data 16 20) ;;
  Ok (mk step_count gait_type direction calorie distance
         standing_phase_duration swing_phase_duration).
End GaitData.

Module StrideData.
Record t : Type := mk
  { step_count : Z; foot_angle : packed;
    x : packed; y : packed; z : packed }.

(** [StrideData.__init__] *)
Definition init (data : list byte) : Outcome t :=
  let step_count := from_bytes_unsigned (slice data 2 4) in
  foot_angle <~ unpack_f (slice data 4 8) ;;
  x <~ unpack_f (slice data 8 12) ;;
  y <~ unpack_f (slice data 12 16) ;;
  z <~ unpack_f (slice data 16 20) ;;
  Ok (mk step_count foot_angle x y z).
End StrideData.

Module PronationData.
Record t : Type := mk
  { step_count : Z; landing_impact : packed;
    x : packed; y : packed; z : packed }.

(** [PronationData.__init__] *)
Definition init (data : list byte) : Outcome t :=
  let step_count := from_bytes_unsigned (slice data 2 4) in
  landing_impact <~ unpack_f (slice data 4 8) ;;
  x <~ unpack_f (slice data 8 12) ;;
  y <~ unpack_f (slice data 12 16) ;;
  z <~ unpack_f (slice data 16 20) ;;
  Ok (mk step_count landing_impact x y z).
End PronationData.

Module QuatDistanceData.
Record t : Type := mk
  { step_count : Z; phase : Z; period : Z; event : Z;
    w : packed; x : packed; y : packed; z : packed;
    x_distance : packed; y_distance : packed; z_distance : packed }.

(** [QuatDistanceData.__init__] *)
Definition init (data : list byte) : Outcome t :=
  let step_count := from_bytes_unsigned (slice data 2 4) in
  b <~ getitem data 4 ;;
  let phase := Z.land b 0x01 in
  b' <~ getitem data 4 ;;
  let period := Z.shiftr (Z.land b' 0x1E) 1 in
  b'' <~ getitem data 4 ;;
  let event := Z.shiftr (Z.land b'' 0xE0) 5 in
  w <~ unpack_e (slice data 6 8) ;;
  x <~ unpack_e (slice data 8 10) ;;
  y <~ unpack_e (slice data 10 12) ;;
  z <~ unpack_e (slice data 12 14) ;;
  x_distance <~ unpack_e (slice data 14 16) ;;
  y_distance <~ unpack_e (slice data 16 18) ;;
  z_distance <~ unpack_e (slice data 18 20) ;;
  Ok (mk step_count phase period event w x y z
         x_distance y_distance z_distance).
End QuatDistanceData.

Module DeviceInformation.
Record t : Type := mk
  { data : list byte; battery : Z; mount_position : Z;
    range : Range.t; version : Z }.

(** [DeviceInformation.__init__]: every field is read through a slice, so a
    short payload yields 0 for the fields it does not reach. *)
Definition init (data : list byte) : t :=
  mk data
     (from_bytes_unsigned (slice data 0 1))
     (from_bytes_unsigned (slice data 1 2))
     (Range.mk (from_bytes_unsigned (slice data 8 9))
               (from_bytes_unsigned (slice data 9 10)))
     (from_bytes_unsigned (slice data 18 19)).
End DeviceInformation.

Module StepCount.
Record t : Type := mk { gait : Z; stride : Z; pronation : Z; quat : Z }.
(** [StepCount.__init__] *)
Definition init : t := mk 0 0 0 0.
End StepCount.

(** ** Events, callback slots and the session object *)

(** One constructor per callback of class [Orphe]; the argument is the object
    handed to the callback. *)
Inductive Event : Type :=
| got_acc (a : AccData.t)
| got_converted_acc (a : AccData.t)
| got_gyro (g : GyroData.t)
| got_converted_gyro (g : GyroData.t)
| got_quat (q : QuatData.t)
| got_pressure (p : PressureData.t)
| got_gait (g : GaitData.t)
| got_stride (s : StrideData.t)
| got_pronation (p : PronationData.t)
| got_quat_distance (q : QuatDistanceData.t)
| lost_data (prev cur : Z).

(** [hasattr(owner, 'c') and owner.c] for each callback attribute [c]. *)
Record Callbacks : Type := mkCallbacks
  { got_acc_callback : bool;
    got_converted_acc_callback : bool;
    got_gyro_callback : bool;
    got_converted_gyro_callback : bool;
    got_quat_callback : bool;
    got_pressure_callback : bool;
    got_gait_callback : bool;
    got_stride_callback : bool;
    got_pronation_callback : bool;
    got_quat_distance_callback : bool;
    lost_data_callback : bool }.

(** The [Orphe] object.  [client] is [None] before [connect]; afterwards it
    holds the current value of [BleakClient.is_connected].
    [device_information] is [None] until [read_device_information] has
    stored one (reading the attribute then raises [AttributeError]). *)
Record Orphe : Type := mkOrphe
  { serial_number_prev : Z;
    client : option bool;
    step_count : StepCount.t;
    device_information : option DeviceInformation.t;
    callbacks : Callbacks }.

Definition set_serial_number_prev (v : Z) (o : Orphe) : Orphe :=
  mkOrphe v (client o) (step_count o) (device_information o) (callbacks o).

Definition set_step_count (s : StepCount.t) (o : Orphe) : Orphe :=
  mkOrphe (serial_number_prev o) (client o) s (device_information o) (callbacks o).

Definition set_device_information (d : DeviceInformation.t) (o : Orphe) : Orphe :=
  mkOrphe (serial_number_prev o) (client o) (step_count o) (Some d) (callbacks o).

(** [Orphe.is_connected] *)
Definition is_connected (o : Orphe) : bool :=
  match client o with
  | None => false
  | Some c => c
  end.

(** ** Computations: session state, emitted events, exceptions

    A computation runs on the session object and yields the events emitted
    so far (oldest first), the session object as mutated so far, and either
    a result or the exception that stopped it. *)

Definition M (A : Type) : Type := Orphe -> list Event * Orphe * Outcome A.

Definition ret {A} (a : A) : M A := fun o => ([], o, Ok a).

Definition raise {A} (e : exn) : M A := fun o => ([], o, Raise e).

Definition bind {A B} (m : M A) (f : A -> M B) : M B :=
  fun o =>
    match m o with
    | (es, o', Ok a) =>
        match f a o' with
        | (es', o'', r) => (es ++ es', o'', r)
        end
    | (es, o', Raise e) => (es, o', Raise e)
    end.

Definition lift {A} (r : Outcome A) : M A := fun o => ([], o, r).

Definition owner : M Orphe := fun o => ([], o, Ok o).

Definition modify (f : Orphe -> Orphe) : M unit := fun o => ([], f o, Ok tt).

(** [if hasattr(owner, 'c') and owner.c: owner.c(arg)] *)
Definition call (slot : Callbacks -> bool) (ev : Event) : M unit :=
  fun o => (if slot (callbacks o) then [ev] else [], o, Ok tt).

(** A user callback as code: it runs on the session as it is at the moment
    of the call, may change it, may call back and may raise.  [record ev] is
    the callback that does nothing but let its call be observed. *)
Definition record (ev : Event) : M unit := fun o => ([ev], o, Ok tt).

(** [if hasattr(owner, 'c') and owner.c: owner.c(...)], the function stored
    in the attribute being [body]. *)
Definition call_user (slot : Callbacks -> bool) (body : M unit) : M unit :=
  fun o => if slot (callbacks o) then body o else ([], o, Ok tt).

Notation "x <- m ;; k" := (bind m (fun x => k))
  (at level 61, m at next level, right associativity) : py_scope.
Notation "m ;;; k" := (bind m (fun _ => k))
  (at level 61, right associativity) : py_scope.

Open Scope py_scope.

(** [for i in idxs: body] with the loop-carried variables in [acc]. *)
Fixpoint for_each {A S} (idxs : list A) (body : A -> S -> M S) (acc : S) : M S :=
  match idxs with
  | [] => ret acc
  | i :: rest => bind (body i acc) (for_each rest body)
  end.

(** [owner.step_count.<category>] read and assignment. *)
Definition last_step_count (category : StepCount.t -> Z) : M Z :=
  fun o => ([], o, Ok (category (step_count o))).

Definition store_step_count (assign : Z -> StepCount.t -> StepCount.t) (v : Z)
  : M unit :=
  modify (fun o => set_step_count (assign v (step_count o)) o).

Definition assign_gait (v : Z) (s : StepCount.t) : StepCount.t :=
  StepCount.mk v (StepCount.stride s) (StepCount.pronation s) (StepCount.quat s).
Definition assign_stride (v : Z) (s : StepCount.t) : StepCount.t :=
  StepCount.mk (StepCount.gait s) v (StepCount.pronation s) (StepCount.quat s).
Definition assign_pronation (v : Z) (s : StepCount.t) : StepCount.t :=
  StepCount.mk (StepCount.gait s) (StepCount.stride s) v (StepCount.quat s).
Definition assign_quat (v : Z) (s : StepCount.t) : StepCount.t :=
  StepCount.mk (StepCount.gait s) (StepCount.stride s) (StepCount.pronation s) v.

(** ** Step-analysis decoder *)

Module StepAnalysisData.

(** The attributes the constructor sets; [None] is an attribute left unset. *)
Record t : Type := mk
  { data : list byte;
    step_count : option Z;
    gait : option GaitData.t;
    stride : option StrideData.t;
    pronation : option PronationData.t;
    quat_distance : option QuatDistanceData.t }.

(** [StepAnalysisData.__init__(self, owner, data)] *)
Definition init (data : list byte) : M t :=
  sub <- lift (getitem data 1) ;;
  if sub =? 0 then
    let count := from_bytes_unsigned (slice data 2 4) in
    last <- last_step_count StepCount.gait ;;
    g <- (if last <? count
          then g <- lift (GaitData.init data) ;;
               call got_gait_callback (got_gait g) ;;;
               ret (Some g)
          else ret None) ;;
    store_step_count assign_gait count ;;;
    ret (mk data (Some count) g None None None)
  else if sub =? 1 then
    let count := from_bytes_unsigned (slice data 2 4) in
    last <- last_step_count StepCount.stride ;;
    s <- (if last <? count
          then s <- lift (StrideData.init data) ;;
               call got_stride_callback (got_stride s) ;;;
               ret (Some s)
          else ret None) ;;
    store_step_count assign_stride count ;;;
    ret (mk data (Some count) None s None None)
  else if sub =? 2 then
    let count := from_bytes_unsigned (slice data 2 4) in
    last <- last_step_count StepCount.pronation ;;
    p <- (if last <? count
          then p <- lift (PronationData.init data) ;;
               call got_pronation_callback (got_pronation p) ;;;
               ret (Some p)
          else ret None) ;;
    store_step_count assign_pronation count ;;;
    ret (mk data (Some count) None None p None)
  else if sub =? 4 then
    let count := from_bytes_unsigned (slice data 2 4) in
    q <- lift (QuatDistanceData.init data) ;;
    call got_quat_distance_callback (got_quat_distance q) ;;;
    store_step_count assign_quat count ;;;
    ret (mk data (Some count) None None None (Some q))
  else ret (mk data None None None None None).

End StepAnalysisData.

(** ** Sensor-stream decoder *)

(** What [to_timestamp] takes from [datetime.now()]: for the host's current
    date and time zone, the map from a time of day (hour, minute, second,
    microsecond) to [int(dt.timestamp()*1000)]. *)
Record datetime : Type := mkDatetime
  { epoch_ms : Z -> Z -> Z -> Z -> Z }.

(** [to_timestamp]; [now.replace] raises [ValueError] on a field outside its
    range. *)
Definition to_timestamp (now : datetime) (hours minutes seconds ms_high ms_low : Z)
  : Outcome Z :=
  let milliseconds := Z.lor (Z.shiftl ms_high 8) ms_low in
  let microsecond := milliseconds * 1000 in
  if (0 <=? hours) && (hours <? 24) && (0 <=? minutes) && (minutes <? 60)
     && (0 <=? seconds) && (seconds <? 60)
     && (0 <=? microsecond) && (microsecond <? 1000000)
  then Ok (epoch_ms now hours minutes seconds microsecond)
  else Raise ValueError.

(** [int.from_bytes(data[lo:hi], byteorder='big', signed=True) / 32768] *)
Definition normalized (data : list byte) (lo hi : nat) : Q :=
  truediv (from_bytes_signed (slice data lo hi)) 32768.

(** The six appends of [for j in range(6)] starting at byte [lo]. *)
Definition pressure_values (data : list byte) (lo : nat) : list Z :=
  map (fun j => from_bytes_unsigned (slice data (lo + 2 * j) (lo + 2 + 2 * j)))
      (seq 0 6).

Module SensorValuesData.

(** The attributes the constructor sets; [None] is an attribute left unset.
    The sample attributes hold the objects of the last loop iteration. *)
Record t : Type := mk
  { data : option (list byte);
    type : option Z;
    serial_number : option Z;
    timestamp : option Z;
    acc : option AccData.t;
    converted_acc : option AccData.t;
    gyro : option GyroData.t;
    converted_gyro : option GyroData.t;
    quat : option QuatData.t;
    pressure : option PressureData.t }.

Definition blank : t := mk None None None None None None None None None None.

(** Assignment of the sample attributes at the end of one loop iteration. *)
Definition set_samples (self : t) (a ca : option AccData.t)
    (g cg : option GyroData.t) (q : option QuatData.t)
    (p : option PressureData.t) : t :=
  mk (data self) (type self) (serial_number self) (timestamp self)
     a ca g cg q p.

(** The header shared by the three branches: [self.type],
    [self.serial_number] and [self.timestamp]. *)
Definition header (now : datetime) (data : list byte) : M (Z * Z * Z) :=
  let type := from_bytes_unsigned (slice data 0 1) in
  let serial_number := from_bytes_unsigned (slice data 1 3) in
  h <- lift (getitem data 3) ;;
  m <- lift (getitem data 4) ;;
  s <- lift (getitem data 5) ;;
  ms_high <- lift (getitem data 6) ;;
  ms_low <- lift (getitem data 7) ;;
  timestamp <- lift (to_timestamp now h m s ms_high ms_low) ;;
  ret (type, serial_number, timestamp).

(** One iteration of the loop of the [data[0] == 50] branch. *)
Definition slot50 (data : list byte) (sensor_range : Range.t) (serial : Z)
    (i : nat) (st : Z * t) : M (Z * t) :=
  let '(each_timestamp, self) := st in
  let step := (21 * i)%nat in
  let ax := normalized data (22 + step) (24 + step) in
  let ay := normalized data (24 + step) (26 + step) in
  let az := normalized data (26 + step) (28 + step) in
  amp_acc <- lift (list_index [2; 4; 8; 16] (Range.acc sensor_range)) ;;
  let cax := fmul ax amp_acc in
  let cay := fmul ay amp_acc in
  let caz := fmul az amp_acc in
  let gx := normalized data (16 + step) (18 + step) in
  let gy := normalized data (18 + step) (20 + step) in
  let gz := normalized data (20 + step) (22 + step) in
  amp_gyro <- lift (list_index [250; 500; 1000; 2000] (Range.gyro sensor_range)) ;;
  let cgx := fmul gx amp_gyro in
  let cgy := fmul gy amp_gyro in
  let cgz := fmul gz amp_gyro in
  let qw := normalized data (8 + step) (10 + step) in
  let qx := normalized data (10 + step) (12 + step) in
  let qy := normalized data (12 + step) (14 + step) in
  let qz := normalized data (14 + step) (16 + step) in
  let number := 3 - Z.of_nat i in
  each_timestamp <- (if Nat.eqb i 3 then ret each_timestamp
                     else delta <- lift (getitem data (28 + step)) ;;
                          ret (each_timestamp + delta)) ;;
  let acc := AccData.mk ax ay az each_timestamp serial number in
  let converted_acc := AccData.mk cax cay caz each_timestamp serial number in
  let gyro := GyroData.mk gx gy gz each_timestamp serial number in
  let converted_gyro := GyroData.mk cgx cgy cgz each_timestamp serial number in
  let quat := QuatData.mk qw qx qy qz each_timestamp serial number in
  call got_acc_callback (got_acc acc) ;;;
  call got_converted_acc_callback (got_converted_acc converted_acc) ;;;
  call got_gyro_callback (got_gyro gyro) ;;;
  call got_converted_gyro_callback (got_converted_gyro converted_gyro) ;;;
  call got_quat_callback (got_quat quat) ;;;
  ret (each_timestamp,
       set_samples self
          (Some acc) (Some converted_acc) (Some gyro) (Some converted_gyro)
          (Some quat) (pressure self)).

(** One iteration of the loop of the [data[0] == 55] branch. *)
Definition slot55 (data : list byte) (sensor_range : Range.t) (serial : Z)
    (i : nat) (st : Z * t) : M (Z * t) :=
  let '(each_timestamp, self) := st in
  let step := (24 * i)%nat in
  let ax := normalized data (14 + step) (16 + step) in
  let ay := normalized data (16 + step) (18 + step) in
  let az := normalized data (18 + step) (20 + step) in
  amp_acc <- lift (list_index [2; 4; 8; 16] (Range.acc sensor_range)) ;;
  let cax := fmul ax amp_acc in
  let cay := fmul ay amp_acc in
  let caz := fmul az amp_acc in
  let gx := normalized data (8 + step) (10 + step) in
  let gy := normalized data (10 + step) (12 + step) in
  let gz := normalized data (12 + step) (14 + step) in
  amp_gyro <- lift (list_index [250; 500; 1000; 2000] (Range.gyro sensor_range)) ;;
  let cgx := fmul gx amp_gyro in
  let cgy := fmul gy amp_gyro in
  let cgz := fmul gz amp_gyro in
  let values := pressure_values data (20 + step) in
  let number := 3 - Z.of_nat i in
  each_timestamp <- (if Nat.eqb i 3 then ret each_timestamp
                     else delta <- lift (getitem data (28 + step)) ;;
                          ret (each_timestamp + delta)) ;;
  let acc := AccData.mk ax ay az each_timestamp serial number in
  let converted_acc := AccData.mk cax cay caz each_timestamp serial number in
  let gyro := GyroData.mk gx gy gz each_timestamp serial number in
  let converted_gyro := GyroData.mk cgx cgy cgz each_timestamp serial number in
  let pressure := PressureData.mk values each_timestamp serial number in
  call got_acc_callback (got_acc acc) ;;;
  call got_converted_acc_callback (got_converted_acc converted_acc) ;;;
  call got_gyro_callback (got_gyro gyro) ;;;
  call got_converted_gyro_callback (got_converted_gyro converted_gyro) ;;;
  call got_pressure_callback (got_pressure pressure) ;;;
  ret (each_timestamp,
       set_samples self
          (Some acc) (Some converted_acc) (Some gyro) (Some converted_gyro)
          (quat self) (Some pressure)).

(** One iteration of the loop of the [data[0] == 56] branch: every sample
    object takes [each_timestamp], which the loop never changes. *)
Definition slot56 (data : list byte) (sensor_range : Range.t) (serial : Z)
    (i : nat) (st : Z * t) : M (Z * t) :=
  let '(each_timestamp, self) := st in
  let step := (32 * i)%nat in
  let ax := normalized data (22 + step) (24 + step) in
  let ay := normalized data (24 + step) (26 + step) in
  let az := normalized data (26 + step) (28 + step) in
  amp_acc <- lift (list_index [2; 4; 8; 16] (Range.acc sensor_range)) ;;
  let cax := fmul ax amp_acc in
  let cay := fmul ay amp_acc in
  let caz := fmul az amp_acc in
  let gx := normalized data (16 + step) (18 + step) in
  let gy := normalized data (18 + step) (20 + step) in
  let gz := normalized data (20 + step) (22 + step) in
  amp_gyro <- lift (list_index [250; 500; 1000; 2000] (Range.gyro sensor_range)) ;;
  let cgx := fmul gx amp_gyro in
  let cgy := fmul gy amp_gyro in
  let cgz := fmul gz amp_gyro in
  let qw := normalized data (8 + step) (10 + step) in
  let qx := normalized data (10 + step) (12 + step) in
  let qy := normalized data (12 + step) (14 + step) in
  let qz := normalized data (14 + step) (16 + step) in
  let values := pressure_values data (28 + step) in
  let number := 1 - Z.of_nat i in
  let acc := AccData.mk ax ay az each_timestamp serial number in
  let converted_acc := AccData.mk cax cay caz each_timestamp serial number in
  let gyro := GyroData.mk gx gy gz each_timestamp serial number in
  let converted_gyro := GyroData.mk cgx cgy cgz each_timestamp serial number in
  let quat := QuatData.mk qw qx qy qz each_timestamp serial number in
  let pressure := PressureData.mk values each_timestamp serial number in
  call got_acc_callback (got_acc acc) ;;;
  call got_converted_acc_callback (got_converted_acc converted_acc) ;;;
  call got_gyro_callback (got_gyro gyro) ;;;
  call got_converted_gyro_callback (got_converted_gyro converted_gyro) ;;;
  call got_pressure_callback (got_pressure pressure) ;;;
  call got_quat_callback (got_quat quat) ;;;
  ret (each_timestamp,
       set_samples self
          (Some acc) (Some converted_acc) (Some gyro) (Some converted_gyro)
          (Some quat) (Some pressure)).

(** [SensorValuesData.__init__(self, owner, data, sensor_range)]: three
    branches, on [data[0]] equal to 50, 55 and 56, and no [else]. *)
Definition init (now : datetime) (data : list byte) (sensor_range : Range.t)
  : M t :=
  tag <- lift (getitem data 0) ;;
  if tag =? 50 then
    hd <- header now data ;;
    let '(type, serial, timestamp) := hd in
    let self := mk (Some data) (Some type) (Some serial) (Some timestamp)
                   None None None None None None in
    st <- for_each [3; 2; 1; 0]%nat (slot50 data sensor_range serial)
                   (timestamp, self) ;;
    ret (snd st)
  else if tag =? 55 then
    hd <- header now data ;;
    let '(type, serial, timestamp) := hd in
    let self := mk (Some data) (Some type) (Some serial) (Some timestamp)
                   None None None None None None in
    st <- for_each [3; 2; 1; 0]%nat (slot55 data sensor_range serial)
                   (timestamp, self) ;;
    ret (snd st)
  else if tag =? 56 then
    hd <- header now data ;;
    let '(type, serial, timestamp) := hd in
    let self := mk (Some data) (Some type) (Some serial) (Some timestamp)
                   None None None None None None in
    st <- for_each [1; 0]%nat (slot56 data sensor_range serial)
                   (timestamp, self) ;;
    ret (snd st)
  else ret blank.

End SensorValuesData.

(** ** Device-information write payload *)

(** [Orphe.getChecksum] *)
Definition getChecksum (data : list byte) : Outcome Z :=
  checksum <~ fold_left
                (fun acc i => checksum <~ acc ;; b <~ getitem data i ;;
                              Ok (checksum + b))
                (seq 0 19) (Ok 0) ;;
  Ok (Z.land checksum 0xFF).

(** The buffer [ba_write] that [Orphe.write_device_information] hands to
    [write_gatt_char]: the 19-byte template and the checksum byte. *)
Definition ba_write (di : DeviceInformation.t) : Outcome (list byte) :=
  template <~ bytearray
    [ 0x09;
      DeviceInformation.mount_position di;
      0x00;
      0x00;
      0x01;
      0x00;
      0x3C;
      Range.acc (DeviceInformation.range di);
      Range.gyro (DeviceInformation.range di);
      0x00;
      0x00;
      0x00;
      0xFF;
      0x00;
      0x00;
      0x00;
      0x00;
      0x00;
      DeviceInformation.version di ] ;;
  checksum <~ getChecksum template ;;
  last <~ bytearray [checksum] ;;
  Ok (template ++ last).

(** ** Notification handlers *)

(** [self.device_information.range] *)
Definition device_information_range : M Range.t :=
  o <- owner ;;
  match device_information o with
  | Some di => ret (DeviceInformation.range di)
  | None => raise AttributeError
  end.

(** [sensor_values.serial_number] *)
Definition attr {A} (a : option A) : M A :=
  match a with
  | Some v => ret v
  | None => raise AttributeError
  end.

(** [Orphe.sensor_values_notification_handler], the function stored in
    [self.lost_data_callback] being [lost_data_body]. *)
Definition sensor_values_notification_handler_with
    (lost_data_body : Z -> Z -> M unit) (now : datetime) (data : list byte)
  : M unit :=
  o <- owner ;;
  if negb (is_connected o) then ret tt
  else
    tag <- lift (getitem data 0) ;;
    if (tag =? 50) || (tag =? 55) || (tag =? 56) then
      range <- device_information_range ;;
      sensor_values <- SensorValuesData.init now data range ;;
      serial <- attr (SensorValuesData.serial_number sensor_values) ;;
      o <- owner ;;
      (if 1 <? serial - serial_number_prev o
       then call_user lost_data_callback
                      (lost_data_body (serial_number_prev o) serial)
       else ret tt) ;;;
      modify (set_serial_number_prev serial)
    else if tag =? 40 then
      range <- device_information_range ;;
      sensor_values <- SensorValuesData.init now data range ;;
      ret tt
    else ret tt.

(** The handler with a loss callback that only lets its call be observed. *)
Definition sensor_values_notification_handler (now : datetime) (data : list byte)
  : M unit :=
  sensor_values_notification_handler_with
    (fun prev cur => record (lost_data prev cur)) now data.

(** [Orphe.step_analysis_notification_handler] *)
Definition step_analysis_notification_handler (data : list byte) : M unit :=
  step_analysis <- StepAnalysisData.init data ;;
  ret tt.

(** [Orphe.__init__]; no callback has been set yet. *)
Definition no_callbacks : Callbacks :=
  mkCallbacks false false false false false false false false false false false.

Definition Orphe_init : Orphe :=
  mkOrphe 0 None StepCount.init None no_callbacks.

(** ** Test vectors *)

Definition byte_of_Z (v : Z) : byte :=
  match Byte.of_N (Z.to_N v) with
  | Some b => b
  | None => x00
  end.

Definition bytes (vs : list Z) : list byte := map byte_of_Z vs.

Definition all_callbacks : Callbacks :=
  mkCallbacks true true true true true true true true true true true.

(** Rounding of a positive rational to the nearest binary64 value, ties to
    even (the values met here are far from the subnormal and overflow
    ranges): the result of one float operation on exact operands. *)
Definition round_half_even (n d : Z) : Z :=
  let q := n / d in
  let r := n mod d in
  if 2 * r <? d then q
  else if d <? 2 * r then q + 1
  else if Z.even q then q else q + 1.

Definition binary64 (q : Q) : Q :=
  let n := Qnum q in
  let d := Zpos (Qden q) in
  if n <=? 0 then 0%Q
  else
    let e0 := Z.log2 n - Z.log2 d - 52 in
    let scaled e := if 0 <=? e then (n, d * 2 ^ e) else (n * 2 ^ (- e), d) in
    let e := if fst (scaled e0) / snd (scaled e0) <? 2 ^ 52
             then e0 - 1 else e0 in
    let m := round_half_even (fst (scaled e)) (snd (scaled e)) in
    Qred (if 0 <=? e then inject_Z (m * 2 ^ e)
          else Qmake m (Z.to_pos (2 ^ (- e)))).

(** A host on 1970-01-01, UTC: [dt.timestamp()] is the float
    [seconds + microsecond / 1e6], and [int(dt.timestamp() * 1000)] truncates
    the float product, so that 00:00:01.001 gives 1000 and not 1001. *)
Definition epoch_day : datetime :=
  mkDatetime (fun h m s us =>
    let seconds := inject_Z ((h * 60 + m) * 60 + s) in
    let fraction := binary64 (Qmake us 1000000) in
    let timestamp := binary64 (seconds + fraction) in
    let product := binary64 (timestamp * 1000) in
    Qnum product / Zpos (Qden product)).

(** Observations on the result of a run. *)
Definition emitted {A} (r : list Event * Orphe * Outcome A) : list Event :=
  fst (fst r).
Definition final {A} (r : list Event * Orphe * Outcome A) : Orphe :=
  snd (fst r).
Definition outcome {A} (r : list Event * Orphe * Outcome A) : Outcome A :=
  snd r.

(** A quat-distance payload (sub-type 4), step count 9, byte 4 all ones,
    and the record it decodes to. *)
Definition quat_distance_payload : list byte :=
  bytes [0; 4; 0; 9; 0xFF; 0; 0x3C; 0; 0; 0; 0; 0; 0; 0; 0; 0; 0; 0; 0; 0].

Definition quat_distance_decoded : QuatDistanceData.t :=
  QuatDistanceData.mk 9 1 15 7 (Half 0x3C00) (Half 0) (Half 0) (Half 0)
                      (Half 0) (Half 0) (Half 0).

(** A gait-overview payload (sub-type 0), step count 1, whose byte 4 is
    0b01000000: gait type "walk" in the two most significant bits. *)
Definition gait_walk_payload : list byte :=
  bytes [0; 0; 0; 1; 0x40; 0; 0; 0; 0; 0; 0; 0; 0; 0; 0; 0; 0; 0; 0; 0].

Definition gait_walk_decoded : GaitData.t :=
  GaitData.mk 1 0 0 (Half 0) (Single 0) (Single 0) (Single 0).

(** The quaternion, gyroscope and accelerometer fields of one sample slot:
    quat w = 0x4000, gyro x = 0x2000, acc x = 0x4000, acc z = 0xC000. *)
Definition imu_fields : list Z :=
  [0x40; 0; 0; 0; 0; 0; 0; 0;
   0x20; 0; 0; 0; 0; 0;
   0x40; 0; 0; 0; 0xC0; 0].

(** The gyroscope and accelerometer fields of one tag-55 sample slot. *)
Definition gyro_acc_fields : list Z :=
  [0x20; 0; 0; 0; 0; 0;
   0x40; 0; 0; 0; 0xC0; 0].

(** Six pressure channels: 0x0110, 0x0120, 0x0130, 0x0140, 0x0150, 0x0160. *)
Definition pressure_fields : list Z :=
  [1; 0x10; 1; 0x20; 1; 0x30; 1; 0x40; 1; 0x50; 1; 0x60].

(** Header after the tag: serial number 7, time of day 01:02:03.009. *)
Definition header_fields : list Z := [0; 7; 1; 2; 3; 0; 9].

(** A 92-byte tag-50 packet: four 21-byte slots, the last byte of each being
    its delta (5, 6, 7 and 0 for slots 0 to 3). *)
Definition packet50_body : list Z :=
  header_fields ++ imu_fields ++ [5] ++ imu_fields ++ [6]
                ++ imu_fields ++ [7] ++ imu_fields ++ [0].
Definition packet50 : list byte := bytes (50 :: packet50_body).

(** The same bytes behind the legacy tag 40. *)
Definition packet40 : list byte := bytes (40 :: packet50_body).

(** A 104-byte tag-55 packet: four 24-byte slots. *)
Definition packet55 : list byte :=
  bytes (55 :: header_fields
            ++ gyro_acc_fields ++ pressure_fields
            ++ gyro_acc_fields ++ pressure_fields
            ++ gyro_acc_fields ++ pressure_fields
            ++ gyro_acc_fields ++ pressure_fields).

(** A 72-byte tag-56 packet: two 32-byte slots. *)
Definition packet56 : list byte :=
  bytes (56 :: header_fields
            ++ imu_fields ++ pressure_fields
            ++ imu_fields ++ pressure_fields).

(** Tag-56 and tag-50 packets cut short. *)
Definition packet56_header_only : list byte := bytes (56 :: header_fields).
Definition packet50_one_slot : list byte :=
  bytes (50 :: header_fields ++ imu_fields).
Definition packet56_short_header : list byte := bytes [56; 0; 7; 1; 2].

(** Device information as read from the device: battery 80, mount position
    1, accelerometer range index 0, gyroscope range index 3, version 2. *)
Definition device_information_read : DeviceInformation.t :=
  DeviceInformation.init
    (bytes [80; 1; 0; 0; 0; 0; 0; 0; 0; 3; 0; 0; 0; 0; 0; 0; 0; 0; 2]).

(** A session that is connected, has read the device information and has
    every callback set; and the same session after the transport has
    reported disconnection. *)
Definition connected_session : Orphe :=
  mkOrphe 0 (Some true) StepCount.init (Some device_information_read)
          all_callbacks.
Definition disconnected_session : Orphe :=
  mkOrphe 0 (Some false) StepCount.init (Some device_information_read)
          all_callbacks.

(** ** Observations on traces *)

(** Packet position and timestamp carried by a sample event. *)
Definition stamp (e : Event) : option (Z * Z) :=
  match e with
  | got_acc a | got_converted_acc a =>
      Some (AccData.packet_number a, AccData.timestamp a)
  | got_gyro g | got_converted_gyro g =>
      Some (GyroData.packet_number g, GyroData.timestamp g)
  | got_quat q => Some (QuatData.packet_number q, QuatData.timestamp q)
  | got_pressure p =>
      Some (PressureData.packet_number p, PressureData.timestamp p)
  | _ => None
  end.

Fixpoint stamps (evs : list Event) : list (Z * Z) :=
  match evs with
  | [] => []
  | e :: rest =>
      match stamp e with
      | Some s => s :: stamps rest
      | None => stamps rest
      end
  end.

(** The calls of [lost_data_callback] in a trace. *)
Fixpoint losses (evs : list Event) : list (Z * Z) :=
  match evs with
  | [] => []
  | lost_data prev cur :: rest => (prev, cur) :: losses rest
  | _ :: rest => losses rest
  end.

(** How many of the given callback slots are set. *)
Definition count_set (slots : list (Callbacks -> bool)) (c : Callbacks) : nat :=
  length (filter (fun slot => slot c) slots).

(** The callbacks each sensor-stream branch calls, in call order. *)
Definition callbacks50 : list (Callbacks -> bool) :=
  [got_acc_callback; got_converted_acc_callback; got_gyro_callback;
   got_converted_gyro_callback; got_quat_callback].
Definition callbacks55 : list (Callbacks -> bool) :=
  [got_acc_callback; got_converted_acc_callback; got_gyro_callback;
   got_converted_gyro_callback; got_pressure_callback].
Definition callbacks56 : list (Callbacks -> bool) :=
  [got_acc_callback; got_converted_acc_callback; got_gyro_callback;
   got_converted_gyro_callback; got_pressure_callback; got_quat_callback].

(** Processing the same step-analysis payload twice in a row. *)
Definition twice (data : list byte) : M StepAnalysisData.t :=
  StepAnalysisData.init data ;;; StepAnalysisData.init data.

(** The session after an earlier gait payload with step count 1. *)
Definition session_after_first_step : Orphe :=
  set_step_count (StepCount.mk 1 0 0 0) connected_session.

(** A device configuration with distinct range indices: mount position 1,
    accelerometer range index 1, gyroscope range index 2, version 7. *)
Definition device_information_sample : DeviceInformation.t :=
  DeviceInformation.mk [] 80 1 (Range.mk 1 2) 7.

(** The 20 bytes [write_device_information] builds from it. *)
Definition ba_write_sample : list byte :=
  bytes [0x09; 1; 0; 0; 0x01; 0; 0x3C; 1; 2; 0; 0; 0; 0xFF; 0; 0; 0; 0; 0; 7;
         0x50].

(** The timestamp step of one iteration of the tag-50 and tag-55 loops, on
    its own: [each_timestamp] after slot [i] of the given stride. *)
Definition next_timestamp (data : list byte) (stride i : nat) (ts : Z)
  : Outcome Z :=
  if Nat.eqb i 3 then Ok ts
  else delta <~ getitem data (28 + stride * i) ;; Ok (ts + delta).

(** The timestamps handed to [got_acc_callback], in call order. *)
Fixpoint acc_timestamps (evs : list Event) : list Z :=
  match evs with
  | [] => []
  | got_acc a :: rest => AccData.timestamp a :: acc_timestamps rest
  | _ :: rest => acc_timestamps rest
  end.

(** The timestamp rule in the words of the specification: the newest slot
    takes the base timestamp, and each older slot [i], in iteration order,
    takes the previous slot's timestamp plus the byte that follows the
    [fixed] bytes of its fields, the slot starting at [8 + stride * i]. *)
Fixpoint spec_older_timestamps (data : list byte) (stride fixed : nat)
    (older : list nat) (previous : Z) : list Z :=
  match older with
  | [] => []
  | i :: rest =>
      let ts := previous + b2z (nth (8 + stride * i + fixed) data x00) in
      ts :: spec_older_timestamps data stride fixed rest ts
  end.

Definition spec_timestamps (data : list byte) (stride fixed : nat)
    (older : list nat) (base : Z) : list Z :=
  base :: spec_older_timestamps data stride fixed older base.

(** The base timestamp of a packet header on its own: bytes 3 to 7 through
    [to_timestamp]. *)
Definition base_timestamp (now : datetime) (data : list byte) : Outcome Z :=
  h <~ getitem data 3 ;;
  m <~ getitem data 4 ;;
  s <~ getitem data 5 ;;
  ms_high <~ getitem data 6 ;;
  ms_low <~ getitem data 7 ;;
  to_timestamp now h m s ms_high ms_low.

(** The documented packet length of each format tag. *)
Definition documented_length (tag : Z) : nat :=
  if tag =? 50 then 92 else if tag =? 55 then 104 else 72.

(** A sensor-stream packet of one of the three formats that has its
    documented length and carries a valid time of day. *)
Definition well_formed (now : datetime) (data : list byte) : Prop :=
  (exists tag, getitem data 0 = Ok tag /\ (tag = 50 \/ tag = 55 \/ tag = 56) /\
               (documented_length tag <= length data)%nat) /\
  (exists base, base_timestamp now data = Ok base).

(** [int.from_bytes(data[1:3], byteorder='big', signed=False)] *)
Definition serial_of (data : list byte) : Z :=
  from_bytes_unsigned (slice data 1 3).

(** Tag-56 packets with serial numbers 5, 6, 7, 65535 and 0. *)
Definition packet_with_serial (high low : Z) : list byte :=
  bytes (56 :: [high; low; 1; 2; 3; 0; 9]
            ++ imu_fields ++ pressure_fields
            ++ imu_fields ++ pressure_fields).



(** ** Further observations *)

(** The sub-type a step-analysis event belongs to. *)
Definition event_category (e : Event) : option Z :=
  match e with
  | got_gait _ => Some 0
  | got_stride _ => Some 1
  | got_pronation _ => Some 2
  | got_quat_distance _ => Some 4
  | _ => None
  end.

(** The stored step count of the category a sub-type byte selects. *)
Definition stored_count (sub : Z) (s : StepCount.t) : Z :=
  if sub =? 0 then StepCount.gait s
  else if sub =? 1 then StepCount.stride s
  else if sub =? 2 then StepCount.pronation s
  else StepCount.quat s.

(** The serial number carried by a sample event. *)
Definition event_serial (e : Event) : option Z :=
  match e with
  | got_acc a | got_converted_acc a => Some (AccData.serial_number a)
  | got_gyro g | got_converted_gyro g => Some (GyroData.serial_number g)
  | got_quat q => Some (QuatData.serial_number q)
  | got_pressure p => Some (PressureData.serial_number p)
  | _ => None
  end.

(** Value ranges of the samples: raw components in [-1, 1), converted
    components within the largest full scale, six 16-bit pressure values. *)
Definition within (amp : Z) (q : Q) : Prop :=
  (- inject_Z amp <= q)%Q /\ (q < inject_Z amp)%Q.

Definition sample_in_range (e : Event) : Prop :=
  match e with
  | got_acc a =>
      within 1 (AccData.x a) /\ within 1 (AccData.y a) /\ within 1 (AccData.z a)
  | got_converted_acc a =>
      within 16 (AccData.x a) /\ within 16 (AccData.y a)
      /\ within 16 (AccData.z a)
  | got_gyro g =>
      within 1 (GyroData.x g) /\ within 1 (GyroData.y g)
      /\ within 1 (GyroData.z g)
  | got_converted_gyro g =>
      within 2000 (GyroData.x g) /\ within 2000 (GyroData.y g)
      /\ within 2000 (GyroData.z g)
  | got_quat q =>
      within 1 (QuatData.w q) /\ within 1 (QuatData.x q)
      /\ within 1 (QuatData.y q) /\ within 1 (QuatData.z q)
  | got_pressure p =>
      length (PressureData.values p) = 6%nat /\
      Forall (fun v => 0 <= v <= 65535) (PressureData.values p)
  | _ => False
  end.

(** A computation that leaves the session as it is and emits only events
    that satisfy [P]. *)
Definition emits_only (P : Event -> Prop) {A} (m : M A) : Prop :=
  forall o, final (m o) = o /\ Forall P (emitted (m o)).

(** The fields of the session other than the stored serial number and the
    step counts. *)
Definition same_connection (o o' : Orphe) : Prop :=
  client o' = client o /\
  device_information o' = device_information o /\
  callbacks o' = callbacks o.

(** A gait-overview payload cut after byte 4: sub-type 0, step count 1. *)
Definition gait_payload_5_bytes : list byte := bytes [0; 0; 0; 1; 0x40].

(** A gait-overview payload with step count 0. *)
Definition gait_payload_count0 : list byte :=
  bytes [0; 0; 0; 0; 0x40; 0; 0; 0; 0; 0; 0; 0; 0; 0; 0; 0; 0; 0; 0; 0].

(** A sample event of the packet with the given serial number whose values
    are in range. *)
Definition sound_sample (serial : Z) (e : Event) : Prop :=
  event_serial e = Some serial /\ sample_in_range e.

(** A computation whose result, when it returns one, satisfies [Q]. *)
Definition returns {A} (Q : A -> Prop) (m : M A) : Prop :=
  forall o a, outcome (m o) = Ok a -> Q a.

(** The header attributes of a decoder object, as the three branches set
    them. *)
Definition header_attributes (data : list byte) (self : SensorValuesData.t)
  : Prop :=
  SensorValuesData.data self = Some data /\
  SensorValuesData.type self = Some (from_bytes_unsigned (slice data 0 1)) /\
  SensorValuesData.serial_number self = Some (serial_of data).

(** A session that is connected but has not read the device information. *)
Definition unconfigured_session : Orphe :=
  mkOrphe 0 (Some true) StepCount.init None all_callbacks.

(** The tag-50 packet with the millisecond field set to 0x03E8 = 1000. *)
Definition packet50_bad_milliseconds : list byte :=
  bytes (50 :: [0; 7; 1; 2; 3; 0x03; 0xE8] ++ skipn 7 packet50_body).

(** The callbacks and the number of sample slots of each format tag. *)
Definition callbacks_of (tag : Z) : list (Callbacks -> bool) :=
  if tag =? 50 then callbacks50
  else if tag =? 55 then callbacks55 else callbacks56.

Definition slots_of (tag : Z) : nat := if tag =? 56 then 2 else 4.

(** The byte at an offset of a payload as an integer, 0 past the end. *)
Definition byte_at (data : list byte) (i : nat) : Z :=
  match nth_error data i with
  | Some b => b2z b
  | None => 0
  end.

(** Sum of the integer values of a byte string. *)
Definition byte_sum (bs : list byte) : Z := fold_right Z.add 0 (map b2z bs).

(** The device information with bytes taken from a payload of nineteen
    0xFF bytes. *)
Definition device_information_all_ones : DeviceInformation.t :=
  DeviceInformation.init (repeat xff 19).

(** A device information whose mount position is not a byte. *)
Definition device_information_out_of_range : DeviceInformation.t :=
  DeviceInformation.mk [] 80 256 (Range.mk 0 0) 0.

(** ** Commands over the BLE client

    The methods of [Orphe] that talk to the device through
    [self.client].  Their effect on the client is a trace of calls; what the
    BLE library does with a call is a parameter: the bytes it hands back for
    a read, and whether it raises.  [print] calls are left out. *)

Inductive Characteristic : Type :=
| SENSOR_VALUES
| STEP_ANALYSIS
| DEVICE_INFORMATION.

(** Calls on the client, and [asyncio.sleep(WRITE_WAIT_INTERVAL_SEC)]. *)
Inductive Action : Type :=
| read_gatt_char (c : Characteristic)
| write_gatt_char (c : Characteristic) (ba : list byte)
| start_notify (c : Characteristic)
| stop_notify (c : Characteristic)
| client_disconnect
| sleep_write_wait.

(** The BLE library and the device behind it: the payload a read of the
    device-information characteristic returns, and the calls on which the
    library raises. *)
Record Bleak : Type := mkBleak
  { answer : list byte;
    refuses : Action -> bool }.

(** How a command ends: normally, with a Python exception of this file's
    own code, or with an exception raised inside the BLE library. *)
Inductive Failure : Type :=
| python (e : exn)
| bleak_error.

Inductive Result (A : Type) : Type :=
| Done (a : A)
| Failed (f : Failure).
Arguments Done {A} a.
Arguments Failed {A} f.

Definition Cmd (A : Type) : Type := Orphe -> list Action * Orphe * Result A.

Definition cret {A} (a : A) : Cmd A := fun o => ([], o, Done a).

Definition cbind {A B} (m : Cmd A) (f : A -> Cmd B) : Cmd B :=
  fun o =>
    match m o with
    | (t, o', Done a) =>
        match f a o' with
        | (t', o'', r) => (t ++ t', o'', r)
        end
    | (t, o', Failed e) => (t, o', Failed e)
    end.

Definition clift {A} (r : Outcome A) : Cmd A :=
  fun o => ([], o, match r with
                   | Ok a => Done a
                   | Raise e => Failed (python e)
                   end).

Definition cmodify (f : Orphe -> Orphe) : Cmd unit :=
  fun o => ([], f o, Done tt).

(** [await self.client.<call>(...)]: [self.client] is [None] before
    [connect], and then the attribute access raises [AttributeError]. *)
Definition perform (b : Bleak) (a : Action) : Cmd unit :=
  fun o =>
    match client o with
    | None => ([], o, Failed (python AttributeError))
    | Some _ =>
        if refuses b a then ([a], o, Failed bleak_error)
        else ([a], o, Done tt)
    end.

(** [await asyncio.sleep(WRITE_WAIT_INTERVAL_SEC)] *)
Definition sleep : Cmd unit := fun o => ([sleep_write_wait], o, Done tt).

Notation "x <== m ;; k" := (cbind m (fun x => k))
  (at level 61, m at next level, right associativity) : py_scope.
Notation "m ;;= k" := (cbind m (fun _ => k))
  (at level 61, right associativity) : py_scope.

(** [Orphe.read_device_information] *)
Definition read_device_information (b : Bleak) : Cmd DeviceInformation.t :=
  perform b (read_gatt_char DEVICE_INFORMATION) ;;=
  let di := DeviceInformation.init (answer b) in
  cmodify (set_device_information di) ;;=
  cret di.

(** [Orphe.write_device_information]; reading [self.device_information]
    raises [AttributeError] while no device information has been stored. *)
Definition write_device_information (b : Bleak) : Cmd unit :=
  fun o =>
    match device_information o with
    | None => ([], o, Failed (python AttributeError))
    | Some di =>
        (ba <== clift (ba_write di) ;;
         perform b (write_gatt_char DEVICE_INFORMATION ba) ;;=
         sleep) o
    end.

(** Assignments to the object that [read_device_information] returned,
    which is the one stored in [self.device_information]. *)
Definition assign_mount_position (v : Z) (di : DeviceInformation.t)
  : DeviceInformation.t :=
  DeviceInformation.mk (DeviceInformation.data di)
    (DeviceInformation.battery di) v
    (DeviceInformation.range di) (DeviceInformation.version di).

Definition assign_range_acc (v : Z) (di : DeviceInformation.t)
  : DeviceInformation.t :=
  DeviceInformation.mk (DeviceInformation.data di)
    (DeviceInformation.battery di) (DeviceInformation.mount_position di)
    (Range.mk v (Range.gyro (DeviceInformation.range di)))
    (DeviceInformation.version di).

Definition assign_range_gyro (v : Z) (di : DeviceInformation.t)
  : DeviceInformation.t :=
  DeviceInformation.mk (DeviceInformation.data di)
    (DeviceInformation.battery di) (DeviceInformation.mount_position di)
    (Range.mk (Range.acc (DeviceInformation.range di)) v)
    (DeviceInformation.version di).

(** [Orphe.set_mount_position] *)
Definition set_mount_position (b : Bleak) (mount_position : Z) : Cmd unit :=
  if (mount_position <? 0) || (3 <? mount_position) then cret tt
  else
    di <== read_device_information b ;;
    cmodify (set_device_information
               (assign_mount_position mount_position di)) ;;=
    write_device_information b.

(** [l.index(v)]: the position of the first item equal to [v]. *)
Fixpoint index_of (l : list Z) (v : Z) : Outcome Z :=
  match l with
  | [] => Raise ValueError
  | x :: rest =>
      if x =? v then Ok 0
      else match index_of rest v with
           | Ok i => Ok (i + 1)
           | Raise e => Raise e
           end
  end.

(** [Orphe.set_acc_range] *)
Definition set_acc_range (b : Bleak) (acc_range : Z) : Cmd unit :=
  if negb (acc_range =? 2) && negb (acc_range =? 4)
     && negb (acc_range =? 8) && negb (acc_range =? 16)
  then cret tt
  else
    acc_range <== clift (index_of [2; 4; 8; 16] acc_range) ;;
    di <== read_device_information b ;;
    cmodify (set_device_information (assign_range_acc acc_range di)) ;;=
    write_device_information b.

(** [Orphe.set_gyro_range] *)
Definition set_gyro_range (b : Bleak) (gyro_range : Z) : Cmd unit :=
  if negb (gyro_range =? 250) && negb (gyro_range =? 500)
     && negb (gyro_range =? 1000) && negb (gyro_range =? 2000)
  then cret tt
  else
    gyro_range <== clift (index_of [250; 500; 1000; 2000] gyro_range) ;;
    di <== read_device_information b ;;
    cmodify (set_device_information (assign_range_gyro gyro_range di)) ;;=
    write_device_information b.

(** [Orphe.set_data_streaming_mode] *)
Definition set_data_streaming_mode (b : Bleak) (mode : Z) : Cmd unit :=
  if negb (mode =? 1) && negb (mode =? 3) && negb (mode =? 4) then cret tt
  else
    ba <== clift (bytearray [0x0D; mode]) ;;
    perform b (write_gatt_char DEVICE_INFORMATION ba) ;;=
    sleep.

(** [Orphe.start_sensor_values_notification] *)
Definition start_sensor_values_notification (b : Bleak) : Cmd unit :=
  di <== read_device_information b ;;
  perform b (start_notify SENSOR_VALUES).

(** [Orphe.start_step_analysis_notification] *)
Definition start_step_analysis_notification (b : Bleak) : Cmd unit :=
  perform b (start_notify STEP_ANALYSIS).

(** [Orphe.stop_sensor_values_notification] *)
Definition stop_sensor_values_notification (b : Bleak) : Cmd unit :=
  perform b (stop_notify SENSOR_VALUES).

(** [Orphe.stop_step_analysis_notification] *)
Definition stop_step_analysis_notification (b : Bleak) : Cmd unit :=
  perform b (stop_notify STEP_ANALYSIS).

(** [Orphe.disconnect] *)
Definition disconnect (b : Bleak) : Cmd unit := perform b client_disconnect.

(** Observations on the result of a command. *)
Definition trace {A} (r : list Action * Orphe * Result A) : list Action :=
  fst (fst r).
Definition session {A} (r : list Action * Orphe * Result A) : Orphe :=
  snd (fst r).
Definition result {A} (r : list Action * Orphe * Result A) : Result A :=
  snd r.

(** A library that accepts every call and answers a read with the payload
    of [device_information_read]. *)
Definition willing_device : Bleak :=
  mkBleak (bytes [80; 1; 0; 0; 0; 0; 0; 0; 0; 3; 0; 0; 0; 0; 0; 0; 0; 0; 2])
          (fun _ => false).

(** The three steps every configuration change goes through, for the
    assignment [assign] it makes in between. *)
Definition read_modify_write (b : Bleak)
    (assign : DeviceInformation.t -> DeviceInformation.t) : Cmd unit :=
  di <== read_device_information b ;;
  cmodify (set_device_information (assign di)) ;;=
  write_device_information b.

(** The run of [read_modify_write], spelled out. *)
Definition read_modify_write_run (b : Bleak)
    (assign : DeviceInformation.t -> DeviceInformation.t) (o : Orphe)
  : list Action * Orphe * Result unit :=
  let read := read_gatt_char DEVICE_INFORMATION in
  match client o with
  | None => ([], o, Failed (python AttributeError))
  | Some _ =>
      if refuses b read then ([read], o, Failed bleak_error)
      else
        let di := assign (DeviceInformation.init (answer b)) in
        let o' := set_device_information di o in
        match ba_write di with
        | Raise e => ([read], o', Failed (python e))
        | Ok ba =>
            let write := write_gatt_char DEVICE_INFORMATION ba in
            if refuses b write
            then ([read; write], o', Failed bleak_error)
            else ([read; write; sleep_write_wait], o', Done tt)
        end
  end.

(** A library that raises on every write. *)
Definition read_only_device : Bleak :=
  mkBleak (answer willing_device)
          (fun a => match a with
                    | write_gatt_char _ _ => true
                    | _ => false
                    end).

(** The order of calls every configuration change keeps: nothing, or a read,
    then at most one write of a frame, then the settle sleep; a completed
    command stopped before the read or went through all three; and nothing
    of the session but the stored device information is touched. *)
Definition follows_protocol (o : Orphe)
    (r : list Action * Orphe * Result unit) : Prop :=
  let read := read_gatt_char DEVICE_INFORMATION in
  (trace r = [] \/ trace r = [read] \/
   exists frame,
     trace r = [read; write_gatt_char DEVICE_INFORMATION frame] \/
     trace r = [read; write_gatt_char DEVICE_INFORMATION frame;
                sleep_write_wait]) /\
  (result r = Done tt ->
   trace r = [] \/
   exists frame,
     trace r = [read; write_gatt_char DEVICE_INFORMATION frame;
                sleep_write_wait]) /\
  (trace r = [] -> session r = o) /\
  serial_number_prev (session r) = serial_number_prev o /\
  client (session r) = client o /\
  step_count (session r) = step_count o /\
  callbacks (session r) = callbacks o.

(** A computation whose exceptions, when it raises, satisfy [E]. *)
Definition raises_only (E : exn -> Prop) {A} (m : M A) : Prop :=
  forall o e, outcome (m o) = Raise e -> E e.

(** The two exceptions of the sensor-stream decoder. *)
Definition decode_error (e : exn) : Prop := e = IndexError \/ e = ValueError.

(** ** The plot buffers of [plot_pressure_values.py] *)

Definition plot_buffer_size : nat := 512.

(** The most recent [n] items of a sequence. *)
Definition keep_last {A} (n : nat) (l : list A) : list A :=
  skipn (length l - n) l.

(** [d.append(x)] on a [deque(maxlen=maxlen)]: what exceeds [maxlen] is
    discarded from the left. *)
Definition deque_append (maxlen : nat) (d : list Z) (x : Z) : list Z :=
  keep_last maxlen (d ++ [x]).

(** [sensors = [deque(maxlen=plot_buffer_size) for _ in range(6)]] *)
Definition sensors_init : list (list Z) := repeat [] 6.

(** [l[i] = x] for an index in range. *)
Fixpoint set_nth {A} (i : nat) (x : A) (l : list A) : list A :=
  match l, i with
  | [], _ => []
  | _ :: rest, O => x :: rest
  | y :: rest, S j => y :: set_nth j x rest
  end.

(** [for i, p in enumerate(pressure.values): sensors[i].append(p)], from
    index [i] on; an index past the last deque raises [IndexError] with the
    appends made so far kept. *)
Fixpoint got_pressure_from (i : nat) (values : list Z)
    (sensors : list (list Z)) : list (list Z) * Outcome unit :=
  match values with
  | [] => (sensors, Ok tt)
  | p :: rest =>
      match nth_error sensors i with
      | Some d =>
          got_pressure_from (S i) rest
            (set_nth i (deque_append plot_buffer_size d p) sensors)
      | None => (sensors, Raise IndexError)
      end
  end.

(** The callback [got_pressure] of the script. *)
Definition plot_got_pressure (pressure : PressureData.t)
    (sensors : list (list Z)) : list (list Z) * Outcome unit :=
  got_pressure_from 0 (PressureData.values pressure) sensors.

(** The script's callbacks over a trace: [got_pressure] fills the buffers,
    [lost_data] only prints, and no other callback is set. *)
Fixpoint plot_trace (evs : list Event) (sensors : list (list Z))
  : list (list Z) * Outcome unit :=
  match evs with
  | [] => (sensors, Ok tt)
  | got_pressure p :: rest =>
      match plot_got_pressure p sensors with
      | (sensors', Ok _) => plot_trace rest sensors'
      | (sensors', Raise e) => (sensors', Raise e)
      end
  | _ :: rest => plot_trace rest sensors
  end.

(** The values of pressure channel [j] in a trace, in call order. *)
Definition channel (j : nat) (evs : list Event) : list Z :=
  flat_map (fun e => match e with
                     | got_pressure p => [nth j (PressureData.values p) 0]
                     | _ => []
                     end) evs.

(** Every pressure event of a trace carries six values. *)
Definition six_channels (e : Event) : Prop :=
  match e with
  | got_pressure p => length (PressureData.values p) = 6%nat
  | _ => True
  end.

(** The highest offset a branch of the decoder reads by indexing (slices do
    not raise): the last header byte for tag 56, and the delta byte of loop
    iteration [i = 2], at [28 + 21*2] and [28 + 24*2], for tags 50 and 55. *)
Definition last_byte_read (tag : Z) : nat :=
  if tag =? 50 then 70 else if tag =? 55 then 76 else 7.

(** The tag-50 packet cut after byte 70, the last delta byte the loop reads
    first: 71 of the documented 92 bytes. *)
Definition packet50_71_bytes : list byte := firstn 71 packet50.

(** ** Observations on range scaling *)







(** ** Observations on the calls of the sample callbacks *)

(** The six sample callbacks, the slot of each, and the callback and packet
    position of a sample event. *)
Inductive sample_callback : Type :=
| to_acc | to_converted_acc | to_gyro | to_converted_gyro | to_quat
| to_pressure.

Definition is_set (c : sample_callback) (cs : Callbacks) : bool :=
  match c with
  | to_acc => got_acc_callback cs
  | to_converted_acc => got_converted_acc_callback cs
  | to_gyro => got_gyro_callback cs
  | to_converted_gyro => got_converted_gyro_callback cs
  | to_quat => got_quat_callback cs
  | to_pressure => got_pressure_callback cs
  end.

Definition call_of (e : Event) : option (sample_callback * Z) :=
  match e with
  | got_acc a => Some (to_acc, AccData.packet_number a)
  | got_converted_acc a => Some (to_converted_acc, AccData.packet_number a)
  | got_gyro g => Some (to_gyro, GyroData.packet_number g)
  | got_converted_gyro g => Some (to_converted_gyro, GyroData.packet_number g)
  | got_quat q => Some (to_quat, QuatData.packet_number q)
  | got_pressure p => Some (to_pressure, PressureData.packet_number p)
  | _ => None
  end.

(** The callbacks each branch calls in one loop iteration, in call order. *)
Definition call_order (tag : Z) : list sample_callback :=
  if tag =? 50
  then [to_acc; to_converted_acc; to_gyro; to_converted_gyro; to_quat]
  else if tag =? 55
  then [to_acc; to_converted_acc; to_gyro; to_converted_gyro; to_pressure]
  else [to_acc; to_converted_acc; to_gyro; to_converted_gyro; to_pressure;
        to_quat].

(** The calls of a completely decoded packet: for each packet position in
    turn, the callbacks of the branch that are set, in call order. *)
Definition calls_of_packet (tag : Z) (cs : Callbacks)
  : list (option (sample_callback * Z)) :=
  flat_map (fun k => map (fun c => Some (c, Z.of_nat k))
                         (filter (fun c => is_set c cs) (call_order tag)))
           (seq 0 (slots_of tag)).

(** ** Basic facts about the primitives *)

Lemma b2z_range (b : byte) : 0 <= b2z b < 256.
Proof.
  unfold b2z. pose proof (Byte.to_N_bounded b) as H. lia.
Qed.

Lemma getitem_lt (data : list byte) (i : nat) :
  (i < length data)%nat -> exists v, getitem data i = Ok v /\ 0 <= v < 256.
Proof.
  intros H. unfold getitem.
  destruct (nth_error data i) as [b|] eqn:E.
  - exists (b2z b). split; [reflexivity | apply b2z_range].
  - apply nth_error_None in E. lia.
Qed.

Lemma getitem_ge (data : list byte) (i : nat) :
  (length data <= i)%nat -> getitem data i = Raise IndexError.
Proof.
  intros H. unfold getitem.
  apply nth_error_None in H. now rewrite H.
Qed.

Lemma getitem_Ok_lt (data : list byte) (i : nat) (v : Z) :
  getitem data i = Ok v -> (i < length data)%nat /\ 0 <= v < 256.
Proof.
  unfold getitem. destruct (nth_error data i) as [b|] eqn:E; [|discriminate].
  intros [= <-]. split; [|apply b2z_range].
  apply nth_error_Some. congruence.
Qed.

Lemma slice_length (data : list byte) (lo hi : nat) :
  (hi <= length data)%nat -> length (slice data lo hi) = (hi - lo)%nat.
Proof.
  intros H. unfold slice. rewrite length_firstn, length_skipn. lia.
Qed.

Lemma unpack_e_total (data : list byte) (lo : nat) :
  (lo + 2 <= length data)%nat ->
  exists p, unpack_e (slice data lo (lo + 2)) = Ok p.
Proof.
  intros H. unfold unpack_e. rewrite slice_length by lia.
  replace (lo + 2 - lo)%nat with 2%nat by lia. simpl. eauto.
Qed.

Lemma unpack_f_total (data : list byte) (lo : nat) :
  (lo + 4 <= length data)%nat ->
  exists p, unpack_f (slice data lo (lo + 4)) = Ok p.
Proof.
  intros H. unfold unpack_f. rewrite slice_length by lia.
  replace (lo + 4 - lo)%nat with 4%nat by lia. simpl. eauto.
Qed.

(** The data-class constructors succeed on a payload of 20 bytes or more. *)

Ltac unpack_at lem data lo :=
  let p := fresh "p" in
  let E := fresh "E" in
  destruct (lem data lo) as [p E]; [simpl; lia | simpl in E; rewrite E; simpl].

Lemma GaitData_init_total (data : list byte) :
  (20 <= length data)%nat -> exists g, GaitData.init data = Ok g.
Proof.
  intros H. unfold GaitData.init.
  destruct (getitem_lt data 4) as [b [Eb _]]; [lia|]. rewrite Eb. simpl.
  unpack_at unpack_e_total data 6%nat.
  unpack_at unpack_f_total data 8%nat.
  unpack_at unpack_f_total data 12%nat.
  unpack_at unpack_f_total data 16%nat.
  eauto.
Qed.

Lemma StrideData_init_total (data : list byte) :
  (20 <= length data)%nat -> exists s, StrideData.init data = Ok s.
Proof.
  intros H. unfold StrideData.init.
  unpack_at unpack_f_total data 4%nat.
  unpack_at unpack_f_total data 8%nat.
  unpack_at unpack_f_total data 12%nat.
  unpack_at unpack_f_total data 16%nat.
  eauto.
Qed.

Lemma PronationData_init_total (data : list byte) :
  (20 <= length data)%nat -> exists p, PronationData.init data = Ok p.
Proof.
  intros H. unfold PronationData.init.
  unpack_at unpack_f_total data 4%nat.
  unpack_at unpack_f_total data 8%nat.
  unpack_at unpack_f_total data 12%nat.
  unpack_at unpack_f_total data 16%nat.
  eauto.
Qed.

Lemma QuatDistanceData_init_total (data : list byte) :
  (20 <= length data)%nat -> exists q, QuatDistanceData.init data = Ok q.
Proof.
  intros H. unfold QuatDistanceData.init.
  destruct (getitem_lt data 4) as [b [Eb _]]; [lia|]. rewrite Eb. simpl.
  unpack_at unpack_e_total data 6%nat.
  unpack_at unpack_e_total data 8%nat.
  unpack_at unpack_e_total data 10%nat.
  unpack_at unpack_e_total data 12%nat.
  unpack_at unpack_e_total data 14%nat.
  unpack_at unpack_e_total data 16%nat.
  unpack_at unpack_e_total data 18%nat.
  eauto.
Qed.

(** ** Bit-fields of the step-analysis records *)

Ltac ok_inv H :=
  repeat match type of H with
         | context [obind ?r _] =>
             let E := fresh "E" in
             destruct r eqn:E; simpl in H; [|discriminate H]
         end;
  try (injection H as H).

Lemma land_1_cases (b : Z) : Z.land b 1 = 0 \/ Z.land b 1 = 1.
Proof.
  change 1 with (Z.ones 1) at 1 2. rewrite Z.land_ones by lia.
  change (2 ^ 1) with 2.
  pose proof (Z.mod_pos_bound b 2 ltac:(lia)). lia.
Qed.

(** C10: for every quat-distance payload (sub-type 4) the decoded phase is
    byte 4 AND 0b00000001; it is 0 or 1 and never 2. *)
Theorem C10_phase_is_low_bit (data : list byte) (q : QuatDistanceData.t) :
  QuatDistanceData.init data = Ok q ->
  exists b, getitem data 4 = Ok b /\
    QuatDistanceData.phase q = Z.land b 0x01 /\
    (QuatDistanceData.phase q = 0 \/ QuatDistanceData.phase q = 1) /\
    QuatDistanceData.phase q <> 2.
Proof.
  intros H. unfold QuatDistanceData.init in H.
  destruct (getitem data 4) as [b|] eqn:Eb; simpl in H; [|discriminate H].
  ok_inv H. subst q. simpl.
  exists b. split; [reflexivity|]. split; [reflexivity|].
  destruct (land_1_cases b) as [Hb|Hb]; rewrite Hb; split; auto; lia.
Qed.

Lemma C10_phase_is_low_bit_witness :
  QuatDistanceData.init quat_distance_payload = Ok quat_distance_decoded /\
  exists b, getitem quat_distance_payload 4 = Ok b /\
    QuatDistanceData.phase quat_distance_decoded = Z.land b 0x01 /\
    (QuatDistanceData.phase quat_distance_decoded = 0 \/
     QuatDistanceData.phase quat_distance_decoded = 1) /\
    QuatDistanceData.phase quat_distance_decoded <> 2.
Proof.
  split; [reflexivity|].
  apply (C10_phase_is_low_bit quat_distance_payload quat_distance_decoded).
  reflexivity.
Defined.

(** What [GaitData.__init__] computes from byte 4: the gait type is the two
    least significant bits, the direction is bits 5..3. *)
Lemma GaitData_bit_fields (data : list byte) (g : GaitData.t) :
  GaitData.init data = Ok g ->
  exists b, getitem data 4 = Ok b /\
    GaitData.gait_type g = Z.land b 0x03 /\
    GaitData.direction g = Z.land (Z.shiftr b 3) 0x07.
Proof.
  intros H. unfold GaitData.init in H.
  destruct (getitem data 4) as [b|] eqn:Eb; simpl in H; [|discriminate H].
  ok_inv H. subst g. simpl.
  exists b. split; [reflexivity|]. split; [reflexivity|].
  rewrite Z.shiftr_land. reflexivity.
Qed.

(** C5 (the code departs from the claim): on the gait-overview payload whose
    byte 4 is 0b01000000 the two most significant bits are 01, but the
    decoded gait type is 0; the decoded direction does equal
    (byte4 >> 3) & 0b111. *)
Theorem C5_gait_type_at_walk_payload :
  getitem gait_walk_payload 4 = Ok 0x40 /\
  Z.land (Z.shiftr 0x40 6) 0x03 = 1 /\
  Z.land (Z.shiftr 0x40 3) 0x07 = 0 /\
  GaitData.init gait_walk_payload = Ok gait_walk_decoded /\
  GaitData.gait_type gait_walk_decoded = 0 /\
  GaitData.direction gait_walk_decoded = 0.
Proof. repeat split. Qed.

(** ** Notifications outside the connected state *)

(** The sensor-values handler returns at its [is_connected()] test. *)
Lemma sensor_values_dropped_when_not_connected
    (now : datetime) (data : list byte) (o : Orphe) :
  is_connected o = false ->
  sensor_values_notification_handler now data o = ([], o, Ok tt).
Proof.
  intros H. unfold sensor_values_notification_handler,
    sensor_values_notification_handler_with, bind, owner.
  rewrite H. reflexivity.
Qed.

(** C7 (the code departs from the claim): the step-analysis handler has no
    [is_connected()] test.  On a session whose client reports disconnection
    a gait payload with step count 1 still calls the gait callback and
    stores the step count. *)
Theorem C7_step_analysis_while_disconnected :
  is_connected disconnected_session = false /\
  step_analysis_notification_handler gait_walk_payload disconnected_session
  = ([got_gait gait_walk_decoded],
     set_step_count (StepCount.mk 1 0 0 0) disconnected_session,
     Ok tt).
Proof. split; reflexivity. Qed.

(** ** The legacy tag 40 *)

Lemma SensorValuesData_init_tag40
    (now : datetime) (data : list byte) (range : Range.t) (o : Orphe) :
  getitem data 0 = Ok 40 ->
  SensorValuesData.init now data range o = ([], o, Ok SensorValuesData.blank).
Proof.
  intros H. unfold SensorValuesData.init, bind, lift. rewrite H. reflexivity.
Qed.

(** C8 (as amended): a payload whose first byte is 40 reaches the decoder,
    which has no branch for it: no attribute is set, no callback is called
    and the session is left as it was, whatever the other bytes are. *)
Theorem C8_tag40_decodes_nothing
    (now : datetime) (data : list byte) (range : Range.t) (o : Orphe) :
  getitem data 0 = Ok 40 ->
  SensorValuesData.init now data range o = ([], o, Ok SensorValuesData.blank)
  /\ emitted (sensor_values_notification_handler now data o) = []
  /\ final (sensor_values_notification_handler now data o) = o.
Proof.
  intros H. split; [now apply SensorValuesData_init_tag40|].
  unfold sensor_values_notification_handler,
    sensor_values_notification_handler_with, bind, owner, lift.
  destruct (is_connected o); simpl; [|split; reflexivity].
  rewrite H. simpl.
  unfold device_information_range, bind, owner.
  destruct (device_information o) as [di|]; simpl; [|split; reflexivity].
  fold (@bind SensorValuesData.t unit).
  unfold bind. rewrite SensorValuesData_init_tag40 by exact H.
  split; reflexivity.
Qed.

Lemma C8_tag40_decodes_nothing_witness :
  SensorValuesData.init epoch_day packet40 (Range.mk 0 3) connected_session
  = ([], connected_session, Ok SensorValuesData.blank)
  /\ emitted (sensor_values_notification_handler epoch_day packet40
                connected_session) = []
  /\ final (sensor_values_notification_handler epoch_day packet40
              connected_session) = connected_session.
Proof.
  apply (C8_tag40_decodes_nothing epoch_day packet40 (Range.mk 0 3)
           connected_session).
  reflexivity.
Defined.

(** C8 as stated fails: the same bytes decode to twenty sample events behind
    tag 50 and to none behind tag 40. *)
Lemma C8_counterexample :
  tl packet40 = tl packet50 /\
  getitem packet40 0 = Ok 40 /\
  getitem packet50 0 = Ok 50 /\
  emitted (SensorValuesData.init epoch_day packet40 (Range.mk 0 3)
             connected_session) = [] /\
  length (emitted (SensorValuesData.init epoch_day packet50 (Range.mk 0 3)
                     connected_session)) = 20%nat /\
  outcome (SensorValuesData.init epoch_day packet40 (Range.mk 0 3)
             connected_session)
  <> outcome (SensorValuesData.init epoch_day packet50 (Range.mk 0 3)
                connected_session).
Proof.
  repeat split; try reflexivity.
  vm_compute. discriminate.
Qed.

(** ** Step-count deduplication *)

Section OneCall.

Variable data : list byte.
Variable o : Orphe.
Let count := from_bytes_unsigned (slice data 2 4).

Lemma init_gait (g : GaitData.t) :
  getitem data 1 = Ok 0 -> GaitData.init data = Ok g ->
  StepAnalysisData.init data o
  = (if (StepCount.gait (step_count o) <? count)
        && got_gait_callback (callbacks o)
     then [got_gait g] else [],
     set_step_count (assign_gait count (step_count o)) o,
     Ok (StepAnalysisData.mk data (Some count)
           (if StepCount.gait (step_count o) <? count then Some g else None)
           None None None)).
Proof.
  intros Hsub Hg. unfold StepAnalysisData.init, bind, lift, last_step_count.
  rewrite Hsub. simpl. fold count.
  destruct (StepCount.gait (step_count o) <? count); simpl; [|reflexivity].
  rewrite Hg. simpl. unfold call.
  destruct (got_gait_callback (callbacks o)); reflexivity.
Qed.

Lemma init_stride (s : StrideData.t) :
  getitem data 1 = Ok 1 -> StrideData.init data = Ok s ->
  StepAnalysisData.init data o
  = (if (StepCount.stride (step_count o) <? count)
        && got_stride_callback (callbacks o)
     then [got_stride s] else [],
     set_step_count (assign_stride count (step_count o)) o,
     Ok (StepAnalysisData.mk data (Some count) None
           (if StepCount.stride (step_count o) <? count then Some s else None)
           None None)).
Proof.
  intros Hsub Hs. unfold StepAnalysisData.init, bind, lift, last_step_count.
  rewrite Hsub. simpl. fold count.
  destruct (StepCount.stride (step_count o) <? count); simpl; [|reflexivity].
  rewrite Hs. simpl. unfold call.
  destruct (got_stride_callback (callbacks o)); reflexivity.
Qed.

Lemma init_pronation (p : PronationData.t) :
  getitem data 1 = Ok 2 -> PronationData.init data = Ok p ->
  StepAnalysisData.init data o
  = (if (StepCount.pronation (step_count o) <? count)
        && got_pronation_callback (callbacks o)
     then [got_pronation p] else [],
     set_step_count (assign_pronation count (step_count o)) o,
     Ok (StepAnalysisData.mk data (Some count) None None
           (if StepCount.pronation (step_count o) <? count then Some p else None)
           None)).
Proof.
  intros Hsub Hp. unfold StepAnalysisData.init, bind, lift, last_step_count.
  rewrite Hsub. simpl. fold count.
  destruct (StepCount.pronation (step_count o) <? count); simpl; [|reflexivity].
  rewrite Hp. simpl. unfold call.
  destruct (got_pronation_callback (callbacks o)); reflexivity.
Qed.

Lemma init_quat_distance (q : QuatDistanceData.t) :
  getitem data 1 = Ok 4 -> QuatDistanceData.init data = Ok q ->
  StepAnalysisData.init data o
  = (if got_quat_distance_callback (callbacks o)
     then [got_quat_distance q] else [],
     set_step_count (assign_quat count (step_count o)) o,
     Ok (StepAnalysisData.mk data (Some count) None None None (Some q))).
Proof.
  intros Hsub Hq. unfold StepAnalysisData.init, bind, lift.
  rewrite Hsub. simpl. fold count.
  rewrite Hq. simpl. unfold call.
  destruct (got_quat_distance_callback (callbacks o)); reflexivity.
Qed.

End OneCall.

(** C1 (as amended): for a step-analysis payload of at least 20 bytes with
    sub-type 0, 1 or 2, processing it twice in a row emits the event of that
    category once in total when the payload's step count is strictly greater
    than the stored count of the category and the callback is set, and not at
    all otherwise; the stored count is the payload's step count after the
    first call and after the second.  A sub-type-4 payload emits its event on
    each of the two calls when its callback is set. *)
Theorem C1_dedup_by_advance (data : list byte) (o : Orphe) :
  (20 <= length data)%nat ->
  let count := from_bytes_unsigned (slice data 2 4) in
  (getitem data 1 = Ok 0 ->
   exists g, GaitData.init data = Ok g /\
     emitted (twice data o)
     = (if (StepCount.gait (step_count o) <? count)
           && got_gait_callback (callbacks o)
        then [got_gait g] else []) /\
     step_count (final (StepAnalysisData.init data o))
     = assign_gait count (step_count o) /\
     step_count (final (twice data o)) = assign_gait count (step_count o))
  /\
  (getitem data 1 = Ok 1 ->
   exists s, StrideData.init data = Ok s /\
     emitted (twice data o)
     = (if (StepCount.stride (step_count o) <? count)
           && got_stride_callback (callbacks o)
        then [got_stride s] else []) /\
     step_count (final (StepAnalysisData.init data o))
     = assign_stride count (step_count o) /\
     step_count (final (twice data o)) = assign_stride count (step_count o))
  /\
  (getitem data 1 = Ok 2 ->
   exists p, PronationData.init data = Ok p /\
     emitted (twice data o)
     = (if (StepCount.pronation (step_count o) <? count)
           && got_pronation_callback (callbacks o)
        then [got_pronation p] else []) /\
     step_count (final (StepAnalysisData.init data o))
     = assign_pronation count (step_count o) /\
     step_count (final (twice data o)) = assign_pronation count (step_count o))
  /\
  (getitem data 1 = Ok 4 ->
   exists q, QuatDistanceData.init data = Ok q /\
     emitted (twice data o)
     = (if got_quat_distance_callback (callbacks o)
        then [got_quat_distance q; got_quat_distance q] else []) /\
     step_count (final (StepAnalysisData.init data o))
     = assign_quat count (step_count o) /\
     step_count (final (twice data o)) = assign_quat count (step_count o)).
Proof.
  intros Hlen count. repeat split.
  - intros Hsub. destruct (GaitData_init_total data Hlen) as [g Hg].
    exists g. split; [exact Hg|].
    unfold twice, bind.
    rewrite (init_gait data o g Hsub Hg).
    rewrite (init_gait data _ g Hsub Hg). fold count. simpl.
    rewrite Z.ltb_irrefl. simpl. rewrite app_nil_r. auto.
  - intros Hsub. destruct (StrideData_init_total data Hlen) as [s Hs].
    exists s. split; [exact Hs|].
    unfold twice, bind.
    rewrite (init_stride data o s Hsub Hs).
    rewrite (init_stride data _ s Hsub Hs). fold count. simpl.
    rewrite Z.ltb_irrefl. simpl. rewrite app_nil_r. auto.
  - intros Hsub. destruct (PronationData_init_total data Hlen) as [p Hp].
    exists p. split; [exact Hp|].
    unfold twice, bind.
    rewrite (init_pronation data o p Hsub Hp).
    rewrite (init_pronation data _ p Hsub Hp). fold count. simpl.
    rewrite Z.ltb_irrefl. simpl. rewrite app_nil_r. auto.
  - intros Hsub. destruct (QuatDistanceData_init_total data Hlen) as [q Hq].
    exists q. split; [exact Hq|].
    unfold twice, bind.
    rewrite (init_quat_distance data o q Hsub Hq).
    rewrite (init_quat_distance data _ q Hsub Hq). fold count. simpl.
    destruct (got_quat_distance_callback (callbacks o)); auto.
Qed.

Lemma C1_dedup_by_advance_witness :
  emitted (twice gait_walk_payload connected_session)
  = [got_gait gait_walk_decoded]
  /\ emitted (twice quat_distance_payload connected_session)
     = [got_quat_distance quat_distance_decoded;
        got_quat_distance quat_distance_decoded].
Proof.
  split.
  - destruct (C1_dedup_by_advance gait_walk_payload connected_session)
      as [H _]; [simpl; lia|].
    destruct (H eq_refl) as [g [Hg [He _]]].
    rewrite He. vm_compute in Hg. injection Hg as <-. reflexivity.
  - destruct (C1_dedup_by_advance quat_distance_payload connected_session)
      as [_ [_ [_ H]]]; [simpl; lia|].
    destruct (H eq_refl) as [q [Hq [He _]]].
    rewrite He. vm_compute in Hq. injection Hq as <-. reflexivity.
Defined.

(** C1 as stated fails: on a session whose stored gait count already equals
    the payload's step count, the two calls emit no event at all. *)
Lemma C1_counterexample :
  getitem gait_walk_payload 1 = Ok 0 /\
  from_bytes_unsigned (slice gait_walk_payload 2 4) = 1 /\
  StepCount.gait (step_count session_after_first_step) = 1 /\
  got_gait_callback (callbacks session_after_first_step) = true /\
  emitted (twice gait_walk_payload session_after_first_step) = [].
Proof. repeat split. Qed.

(** ** Device-information write payload against the read decoder *)

Lemma obind_Ok {A B} (a : A) (f : A -> Outcome B) : obind (Ok a) f = f a.
Proof. reflexivity. Qed.

Lemma byte_of_range (v : Z) :
  0 <= v < 256 -> exists b, b2z b = v.
Proof.
  intros H. destruct (Byte.of_N (Z.to_N v)) as [b|] eqn:E.
  - exists b. unfold b2z. apply Byte.to_of_N in E. rewrite E. lia.
  - apply Byte.of_N_None_iff in E. lia.
Qed.

Lemma bytearray_b2z (bs : list byte) : bytearray (map b2z bs) = Ok bs.
Proof.
  induction bs as [|b bs IH]; [reflexivity|].
  simpl. pose proof (b2z_range b) as Hb.
  replace ((0 <=? b2z b) && (b2z b <? 256)) with true
    by (symmetry; apply andb_true_iff; split;
        [apply Z.leb_le | apply Z.ltb_lt]; lia).
  unfold b2z at 1. rewrite N2Z.id, Byte.of_to_N, IH. reflexivity.
Qed.

Lemma land_0xFF_range (v : Z) : 0 <= Z.land v 0xFF < 256.
Proof.
  change 0xFF with (Z.ones 8). rewrite Z.land_ones by lia.
  apply Z.mod_pos_bound. reflexivity.
Qed.

Lemma checksum_loop (data : list byte) (idxs : list nat) (start : Z) :
  (forall i, In i idxs -> (i < length data)%nat) ->
  exists total,
    fold_left (fun acc i => checksum <~ acc ;; b <~ getitem data i ;;
                            Ok (checksum + b))
              idxs (Ok start) = Ok total.
Proof.
  revert start. induction idxs as [|i idxs IH]; intros start H.
  - exists start. reflexivity.
  - destruct (getitem_lt data i) as [v [Ev _]]; [apply H; now left|].
    simpl. rewrite Ev. simpl. apply IH.
    intros j Hj. apply H. now right.
Qed.

Lemma getChecksum_total (data : list byte) :
  (19 <= length data)%nat ->
  exists c, getChecksum data = Ok c /\ 0 <= c < 256.
Proof.
  intros H. unfold getChecksum.
  destruct (checksum_loop data (seq 0 19) 0) as [total E].
  - intros i Hi. apply in_seq in Hi. lia.
  - rewrite E, obind_Ok. eexists. split; [reflexivity|].
    apply land_0xFF_range.
Qed.

(** C2 (as amended): for a device configuration whose fields are in range,
    the 20-byte write buffer decodes, under the device-information decoder,
    to the original mount position and version; the decoded accelerometer
    range index is the original gyroscope range index (the write layout puts
    the ranges at offsets 7 and 8, the decoder reads offsets 8 and 9) and the
    decoded gyroscope range index is 0. *)
Theorem C2_write_then_decode (di : DeviceInformation.t) :
  0 <= DeviceInformation.mount_position di <= 3 ->
  0 <= Range.acc (DeviceInformation.range di) <= 3 ->
  0 <= Range.gyro (DeviceInformation.range di) <= 3 ->
  0 <= DeviceInformation.version di < 256 ->
  exists buffer, ba_write di = Ok buffer /\ length buffer = 20%nat /\
    let decoded := DeviceInformation.init buffer in
    DeviceInformation.mount_position decoded
    = DeviceInformation.mount_position di /\
    DeviceInformation.version decoded = DeviceInformation.version di /\
    Range.acc (DeviceInformation.range decoded)
    = Range.gyro (DeviceInformation.range di) /\
    Range.gyro (DeviceInformation.range decoded) = 0.
Proof.
  destruct di as [raw battery mount [acc gyro] version]. simpl.
  intros Hm Ha Hg Hv.
  destruct (byte_of_range mount) as [bm <-]; [lia|].
  destruct (byte_of_range acc) as [ba <-]; [lia|].
  destruct (byte_of_range gyro) as [bg <-]; [lia|].
  destruct (byte_of_range version) as [bv <-]; [lia|].
  unfold ba_write. simpl DeviceInformation.mount_position.
  simpl DeviceInformation.range. simpl DeviceInformation.version.
  simpl Range.acc. simpl Range.gyro.
  change [9; b2z bm; 0; 0; 1; 0; 60; b2z ba; b2z bg; 0; 0; 0; 255;
          0; 0; 0; 0; 0; b2z bv]
    with (map b2z [x09; bm; x00; x00; x01; x00; x3c; ba; bg; x00; x00; x00;
                   xff; x00; x00; x00; x00; x00; bv]).
  rewrite bytearray_b2z, obind_Ok.
  match goal with
  | |- context [getChecksum ?t] =>
      destruct (getChecksum_total t) as [c [Hc Hr]]; [simpl; lia|]
  end.
  rewrite Hc, obind_Ok.
  destruct (byte_of_range c Hr) as [bc <-].
  change [b2z bc] with (map b2z [bc]). rewrite bytearray_b2z, obind_Ok.
  eexists. split; [reflexivity|].
  split; [reflexivity|].
  unfold DeviceInformation.init, slice, from_bytes_unsigned. simpl.
  repeat split; reflexivity.
Qed.

Lemma C2_write_then_decode_witness :
  ba_write device_information_sample = Ok ba_write_sample /\
  DeviceInformation.mount_position (DeviceInformation.init ba_write_sample) = 1 /\
  DeviceInformation.version (DeviceInformation.init ba_write_sample) = 7 /\
  Range.acc (DeviceInformation.range (DeviceInformation.init ba_write_sample))
  = 2 /\
  Range.gyro (DeviceInformation.range (DeviceInformation.init ba_write_sample))
  = 0.
Proof.
  destruct (C2_write_then_decode device_information_sample)
    as [buffer [Hb [_ H]]]; try (simpl; lia).
  vm_compute in Hb. injection Hb as <-.
  split; [reflexivity|]. exact H.
Defined.

(** C2 as stated fails: accelerometer range index 1 and gyroscope range
    index 2 are written, 2 and 0 are read back. *)
Lemma C2_counterexample :
  ba_write device_information_sample = Ok ba_write_sample /\
  Range.acc (DeviceInformation.range device_information_sample) = 1 /\
  Range.gyro (DeviceInformation.range device_information_sample) = 2 /\
  Range.acc (DeviceInformation.range (DeviceInformation.init ba_write_sample))
  = 2 /\
  Range.gyro (DeviceInformation.range (DeviceInformation.init ba_write_sample))
  = 0.
Proof. repeat split. Qed.

(** ** Running the sensor-stream decoder *)

Arguments normalized : simpl never.
Arguments pressure_values : simpl never.
Arguments fmul : simpl never.
Arguments from_bytes_unsigned : simpl never.
Arguments slice : simpl never.
Arguments list_index : simpl never.
Arguments getitem : simpl never.
Arguments to_timestamp : simpl never.

Lemma stamps_app (xs ys : list Event) : stamps (xs ++ ys) = stamps xs ++ stamps ys.
Proof.
  induction xs as [|e xs IH]; [reflexivity|].
  simpl. destruct (stamp e); simpl; now rewrite IH.
Qed.

Lemma losses_app (xs ys : list Event) : losses (xs ++ ys) = losses xs ++ losses ys.
Proof.
  induction xs as [|e xs IH]; [reflexivity|].
  destruct e; simpl; now rewrite IH.
Qed.

Ltac split_callbacks o :=
  destruct (callbacks o) as [c1 c2 c3 c4 c5 c6 c7 c8 c9 c10 c11];
  unfold count_set; simpl;
  destruct c1, c2, c3, c4, c5, c6; simpl;
  eexists; eexists; (split; [reflexivity|]); repeat split; reflexivity.

Lemma slot50_run (data : list byte) (range : Range.t) (serial : Z) (i : nat)
    (ts : Z) (self : SensorValuesData.t) (o : Orphe) (amp_a amp_g ts' : Z) :
  list_index [2; 4; 8; 16] (Range.acc range) = Ok amp_a ->
  list_index [250; 500; 1000; 2000] (Range.gyro range) = Ok amp_g ->
  next_timestamp data 21 i ts = Ok ts' ->
  exists evs self',
    SensorValuesData.slot50 data range serial i (ts, self) o
    = (evs, o, Ok (ts', self')) /\
    stamps evs
    = repeat (3 - Z.of_nat i, ts') (count_set callbacks50 (callbacks o)) /\
    losses evs = [] /\
    SensorValuesData.serial_number self' = SensorValuesData.serial_number self.
Proof.
  intros Ha Hg Ht. unfold SensorValuesData.slot50, bind, lift, call, ret.
  rewrite Ha, Hg. unfold next_timestamp in Ht.
  destruct (Nat.eqb i 3).
  - injection Ht as <-. split_callbacks o.
  - destruct (getitem data (28 + 21 * i)) as [delta|]; [|discriminate Ht].
    injection Ht as <-. split_callbacks o.
Qed.

Lemma slot55_run (data : list byte) (range : Range.t) (serial : Z) (i : nat)
    (ts : Z) (self : SensorValuesData.t) (o : Orphe) (amp_a amp_g ts' : Z) :
  list_index [2; 4; 8; 16] (Range.acc range) = Ok amp_a ->
  list_index [250; 500; 1000; 2000] (Range.gyro range) = Ok amp_g ->
  next_timestamp data 24 i ts = Ok ts' ->
  exists evs self',
    SensorValuesData.slot55 data range serial i (ts, self) o
    = (evs, o, Ok (ts', self')) /\
    stamps evs
    = repeat (3 - Z.of_nat i, ts') (count_set callbacks55 (callbacks o)) /\
    losses evs = [] /\
    SensorValuesData.serial_number self' = SensorValuesData.serial_number self.
Proof.
  intros Ha Hg Ht. unfold SensorValuesData.slot55, bind, lift, call, ret.
  rewrite Ha, Hg. unfold next_timestamp in Ht.
  destruct (Nat.eqb i 3).
  - injection Ht as <-. split_callbacks o.
  - destruct (getitem data (28 + 24 * i)) as [delta|]; [|discriminate Ht].
    injection Ht as <-. split_callbacks o.
Qed.

Lemma slot56_run (data : list byte) (range : Range.t) (serial : Z) (i : nat)
    (ts : Z) (self : SensorValuesData.t) (o : Orphe) (amp_a amp_g : Z) :
  list_index [2; 4; 8; 16] (Range.acc range) = Ok amp_a ->
  list_index [250; 500; 1000; 2000] (Range.gyro range) = Ok amp_g ->
  exists evs self',
    SensorValuesData.slot56 data range serial i (ts, self) o
    = (evs, o, Ok (ts, self')) /\
    stamps evs
    = repeat (1 - Z.of_nat i, ts) (count_set callbacks56 (callbacks o)) /\
    losses evs = [] /\
    SensorValuesData.serial_number self' = SensorValuesData.serial_number self.
Proof.
  intros Ha Hg. unfold SensorValuesData.slot56, bind, lift, call, ret.
  rewrite Ha, Hg. split_callbacks o.
Qed.

Lemma list_index_in_range (l : list Z) (i : Z) :
  0 <= i < Z.of_nat (length l) -> exists v, list_index l i = Ok v.
Proof.
  intros H. unfold list_index.
  replace (i <? 0) with false by (symmetry; apply Z.ltb_ge; lia).
  replace ((0 <=? i) && (i <? Z.of_nat (length l))) with true
    by (symmetry; apply andb_true_iff; split;
        [apply Z.leb_le | apply Z.ltb_lt]; lia).
  destruct (nth_error l (Z.to_nat i)) as [v|] eqn:E; [eauto|].
  apply nth_error_None in E. lia.
Qed.

(** Running a computation whose first step is known. *)
Lemma bind_run {A B} (m : M A) (f : A -> M B) (o o1 : Orphe)
    (e1 : list Event) (a : A) :
  m o = (e1, o1, Ok a) ->
  bind m f o = (e1 ++ emitted (f a o1), final (f a o1), outcome (f a o1)).
Proof.
  intros H. unfold bind, emitted, final, outcome. rewrite H.
  destruct (f a o1) as [[e2 o2] r]. reflexivity.
Qed.

Lemma bind_raise {A B} (m : M A) (f : A -> M B) (o o1 : Orphe)
    (e1 : list Event) (e : exn) :
  m o = (e1, o1, Raise e) -> bind m f o = (e1, o1, Raise e).
Proof. intros H. unfold bind. now rewrite H. Qed.

Lemma for_each_cons {A S} (i : A) (rest : list A) (body : A -> S -> M S)
    (acc : S) :
  for_each (i :: rest) body acc = bind (body i acc) (for_each rest body).
Proof. reflexivity. Qed.

Ltac next_slot lemma i ts' :=
  match goal with
  | Ha : list_index _ _ = Ok ?amp_a, Hg : list_index _ _ = Ok ?amp_g
    |- context [for_each (i :: ?rest) (?slot ?data ?range ?serial) (?ts, ?self) ?o] =>
      let e := fresh "e" in
      let s := fresh "s" in
      let E := fresh "E" in
      let St := fresh "St" in
      let L := fresh "L" in
      let Sn := fresh "Sn" in
      destruct (lemma data range serial i ts self o amp_a amp_g ts' Ha Hg)
        as (e & s & E & St & L & Sn);
      [unfold next_timestamp; simpl Nat.eqb; simpl Nat.add;
       repeat match goal with
              | H : getitem _ _ = Ok _ |- _ => rewrite H
              end; reflexivity
      | rewrite for_each_cons, (bind_run _ _ _ _ _ _ E);
        unfold emitted, final, outcome; cbn [fst snd] ]
  end.

Lemma loop50_run (data : list byte) (range : Range.t) (serial base : Z)
    (self : SensorValuesData.t) (o : Orphe) (amp_a amp_g d2 d1 d0 : Z) :
  list_index [2; 4; 8; 16] (Range.acc range) = Ok amp_a ->
  list_index [250; 500; 1000; 2000] (Range.gyro range) = Ok amp_g ->
  getitem data 70 = Ok d2 -> getitem data 49 = Ok d1 ->
  getitem data 28 = Ok d0 ->
  exists evs ts self',
    for_each [3; 2; 1; 0]%nat (SensorValuesData.slot50 data range serial)
             (base, self) o
    = (evs, o, Ok (ts, self')) /\
    (let n := count_set callbacks50 (callbacks o) in
     stamps evs
     = repeat (0, base) n ++ repeat (1, base + d2) n
       ++ repeat (2, base + d2 + d1) n
       ++ repeat (3, base + d2 + d1 + d0) n) /\
    losses evs = [] /\
    SensorValuesData.serial_number self' = SensorValuesData.serial_number self.
Proof.
  intros Ha Hg H2 H1 H0.
  next_slot slot50_run 3%nat base.
  next_slot slot50_run 2%nat (base + d2).
  next_slot slot50_run 1%nat (base + d2 + d1).
  next_slot slot50_run 0%nat (base + d2 + d1 + d0).
  simpl for_each. unfold ret. cbn [fst snd].
  do 3 eexists. split; [reflexivity|].
  repeat rewrite stamps_app. repeat rewrite losses_app.
  rewrite St, St0, St1, St2, L, L0, L1, L2. simpl.
  repeat split; [now rewrite app_nil_r | congruence].
Qed.

Lemma loop55_run (data : list byte) (range : Range.t) (serial base : Z)
    (self : SensorValuesData.t) (o : Orphe) (amp_a amp_g d2 d1 d0 : Z) :
  list_index [2; 4; 8; 16] (Range.acc range) = Ok amp_a ->
  list_index [250; 500; 1000; 2000] (Range.gyro range) = Ok amp_g ->
  getitem data 76 = Ok d2 -> getitem data 52 = Ok d1 ->
  getitem data 28 = Ok d0 ->
  exists evs ts self',
    for_each [3; 2; 1; 0]%nat (SensorValuesData.slot55 data range serial)
             (base, self) o
    = (evs, o, Ok (ts, self')) /\
    (let n := count_set callbacks55 (callbacks o) in
     stamps evs
     = repeat (0, base) n ++ repeat (1, base + d2) n
       ++ repeat (2, base + d2 + d1) n
       ++ repeat (3, base + d2 + d1 + d0) n) /\
    losses evs = [] /\
    SensorValuesData.serial_number self' = SensorValuesData.serial_number self.
Proof.
  intros Ha Hg H2 H1 H0.
  next_slot slot55_run 3%nat base.
  next_slot slot55_run 2%nat (base + d2).
  next_slot slot55_run 1%nat (base + d2 + d1).
  next_slot slot55_run 0%nat (base + d2 + d1 + d0).
  simpl for_each. unfold ret. cbn [fst snd].
  do 3 eexists. split; [reflexivity|].
  repeat rewrite stamps_app. repeat rewrite losses_app.
  rewrite St, St0, St1, St2, L, L0, L1, L2. simpl.
  repeat split; [now rewrite app_nil_r | congruence].
Qed.

Lemma loop56_run (data : list byte) (range : Range.t) (serial base : Z)
    (self : SensorValuesData.t) (o : Orphe) (amp_a amp_g : Z) :
  list_index [2; 4; 8; 16] (Range.acc range) = Ok amp_a ->
  list_index [250; 500; 1000; 2000] (Range.gyro range) = Ok amp_g ->
  exists evs ts self',
    for_each [1; 0]%nat (SensorValuesData.slot56 data range serial)
             (base, self) o
    = (evs, o, Ok (ts, self')) /\
    (let n := count_set callbacks56 (callbacks o) in
     stamps evs = repeat (0, base) n ++ repeat (1, base) n) /\
    losses evs = [] /\
    SensorValuesData.serial_number self' = SensorValuesData.serial_number self.
Proof.
  intros Ha Hg.
  destruct (slot56_run data range serial 1 base self o amp_a amp_g Ha Hg)
    as (e1 & s1 & E1 & St1 & L1 & Sn1).
  destruct (slot56_run data range serial 0 base s1 o amp_a amp_g Ha Hg)
    as (e0 & s0 & E0 & St0 & L0 & Sn0).
  rewrite for_each_cons, (bind_run _ _ _ _ _ _ E1).
  rewrite for_each_cons, (bind_run _ _ _ _ _ _ E0).
  simpl for_each. unfold ret, emitted, final, outcome. cbn [fst snd].
  do 3 eexists. split; [reflexivity|].
  repeat rewrite stamps_app. repeat rewrite losses_app.
  rewrite St1, St0, L1, L0. simpl.
  repeat split; [now rewrite app_nil_r | congruence].
Qed.

Lemma lift_Ok {A} (r : Outcome A) (a : A) (o : Orphe) :
  r = Ok a -> lift r o = ([], o, Ok a).
Proof. now intros ->. Qed.

(** Evaluates the comparisons of a known tag byte with the format tags. *)
Ltac decide_tags :=
  repeat match goal with
         | |- context [Z.eqb ?a ?b] =>
             let v := eval vm_compute in (Z.eqb a b) in
             change (Z.eqb a b) with v
         end;
  cbv iota.

(** What a run of the decoder on a packet of a known tag amounts to: the
    events of the loop, the session untouched, the header attributes set. *)
Section DecoderRuns.

Variables (now : datetime) (data : list byte) (range : Range.t) (o : Orphe).
Variables (type serial base amp_a amp_g : Z).
Hypothesis Hheader :
  SensorValuesData.header now data o = ([], o, Ok (type, serial, base)).
Hypothesis Hacc : list_index [2; 4; 8; 16] (Range.acc range) = Ok amp_a.
Hypothesis Hgyro : list_index [250; 500; 1000; 2000] (Range.gyro range) = Ok amp_g.

Ltac enter_branch Htag :=
  unfold SensorValuesData.init;
  rewrite (bind_run _ _ _ _ _ _ (lift_Ok _ _ o Htag));
  cbv beta; decide_tags;
  rewrite (bind_run _ _ _ _ _ _ Hheader);
  unfold emitted, final, outcome; cbv beta iota; cbn [fst snd app].

Lemma init50_run (d2 d1 d0 : Z) :
  getitem data 0 = Ok 50 ->
  getitem data 70 = Ok d2 -> getitem data 49 = Ok d1 ->
  getitem data 28 = Ok d0 ->
  exists evs sv,
    SensorValuesData.init now data range o = (evs, o, Ok sv) /\
    (let n := count_set callbacks50 (callbacks o) in
     stamps evs
     = repeat (0, base) n ++ repeat (1, base + d2) n
       ++ repeat (2, base + d2 + d1) n
       ++ repeat (3, base + d2 + d1 + d0) n) /\
    losses evs = [] /\
    SensorValuesData.serial_number sv = Some serial.
Proof.
  intros Htag H2 H1 H0. enter_branch Htag.
  match goal with
  | |- context [for_each _ _ (_, ?self)] =>
      destruct (loop50_run data range serial base self o amp_a amp_g d2 d1 d0
                  Hacc Hgyro H2 H1 H0)
        as (evs & ts & self' & E & St & L & Sn)
  end.
  rewrite (bind_run _ _ _ _ _ _ E).
  unfold ret, emitted, final, outcome. cbn [fst snd].
  rewrite app_nil_r. exists evs, self'. auto.
Qed.

Lemma init55_run (d2 d1 d0 : Z) :
  getitem data 0 = Ok 55 ->
  getitem data 76 = Ok d2 -> getitem data 52 = Ok d1 ->
  getitem data 28 = Ok d0 ->
  exists evs sv,
    SensorValuesData.init now data range o = (evs, o, Ok sv) /\
    (let n := count_set callbacks55 (callbacks o) in
     stamps evs
     = repeat (0, base) n ++ repeat (1, base + d2) n
       ++ repeat (2, base + d2 + d1) n
       ++ repeat (3, base + d2 + d1 + d0) n) /\
    losses evs = [] /\
    SensorValuesData.serial_number sv = Some serial.
Proof.
  intros Htag H2 H1 H0. enter_branch Htag.
  match goal with
  | |- context [for_each _ _ (_, ?self)] =>
      destruct (loop55_run data range serial base self o amp_a amp_g d2 d1 d0
                  Hacc Hgyro H2 H1 H0)
        as (evs & ts & self' & E & St & L & Sn)
  end.
  rewrite (bind_run _ _ _ _ _ _ E).
  unfold ret, emitted, final, outcome. cbn [fst snd].
  rewrite app_nil_r. exists evs, self'. auto.
Qed.

Lemma init56_run :
  getitem data 0 = Ok 56 ->
  exists evs sv,
    SensorValuesData.init now data range o = (evs, o, Ok sv) /\
    (let n := count_set callbacks56 (callbacks o) in
     stamps evs = repeat (0, base) n ++ repeat (1, base) n) /\
    losses evs = [] /\
    SensorValuesData.serial_number sv = Some serial.
Proof.
  intros Htag. enter_branch Htag.
  match goal with
  | |- context [for_each _ _ (_, ?self)] =>
      destruct (loop56_run data range serial base self o amp_a amp_g
                  Hacc Hgyro)
        as (evs & ts & self' & E & St & L & Sn)
  end.
  rewrite (bind_run _ _ _ _ _ _ E).
  unfold ret, emitted, final, outcome. cbn [fst snd].
  rewrite app_nil_r. exists evs, self'. auto.
Qed.

End DecoderRuns.

(** ** Timestamps of the sample slots *)

Lemma firstn_repeat_app {A} (v : A) (n : nat) (rest : list A) :
  firstn n (repeat v n ++ rest) = repeat v n.
Proof.
  rewrite firstn_app, repeat_length, Nat.sub_diag. simpl.
  rewrite app_nil_r. apply firstn_all2. rewrite repeat_length. lia.
Qed.

(** C3 (as amended): on a packet whose header decodes to the base timestamp
    [base], every event of the newest slot (packet position 0) carries
    [base].  For tag 50 the events of each older slot [i] carry the previous
    slot's timestamp plus the byte at [8 + 21*i + 20], the byte that follows
    the 20 bytes of the slot's fields.  For tag 56 the events of the older
    slot carry [base] as well: that branch adds no delta.  For tag 55 only
    the newest slot is described. *)
Theorem C3_slot_timestamps (now : datetime) (data : list byte)
    (range : Range.t) (o : Orphe) (type serial base : Z) :
  SensorValuesData.header now data o = ([], o, Ok (type, serial, base)) ->
  0 <= Range.acc range <= 3 ->
  0 <= Range.gyro range <= 3 ->
  (getitem data 0 = Ok 50 ->
   forall d2 d1 d0,
     getitem data (8 + 21 * 2 + 20) = Ok d2 ->
     getitem data (8 + 21 * 1 + 20) = Ok d1 ->
     getitem data (8 + 21 * 0 + 20) = Ok d0 ->
     exists evs sv,
       SensorValuesData.init now data range o = (evs, o, Ok sv) /\
       let n := count_set callbacks50 (callbacks o) in
       stamps evs
       = repeat (0, base) n ++ repeat (1, base + d2) n
         ++ repeat (2, base + d2 + d1) n
         ++ repeat (3, base + d2 + d1 + d0) n)
  /\
  (getitem data 0 = Ok 55 ->
   (77 <= length data)%nat ->
   exists evs sv,
     SensorValuesData.init now data range o = (evs, o, Ok sv) /\
     let n := count_set callbacks55 (callbacks o) in
     firstn n (stamps evs) = repeat (0, base) n /\
     length (stamps evs) = (4 * n)%nat)
  /\
  (getitem data 0 = Ok 56 ->
   exists evs sv,
     SensorValuesData.init now data range o = (evs, o, Ok sv) /\
     let n := count_set callbacks56 (callbacks o) in
     stamps evs = repeat (0, base) n ++ repeat (1, base) n).
Proof.
  intros Hheader Ha Hg.
  destruct (list_index_in_range [2; 4; 8; 16] (Range.acc range))
    as [amp_a Hacc]; [simpl; lia|].
  destruct (list_index_in_range [250; 500; 1000; 2000] (Range.gyro range))
    as [amp_g Hgyro]; [simpl; lia|].
  repeat split.
  - intros Htag d2 d1 d0 H2 H1 H0.
    destruct (init50_run now data range o type serial base amp_a amp_g
                Hheader Hacc Hgyro d2 d1 d0 Htag H2 H1 H0)
      as (evs & sv & E & St & _).
    exists evs, sv. auto.
  - intros Htag Hlen.
    destruct (getitem_lt data 76) as [d2 [H2 _]]; [lia|].
    destruct (getitem_lt data 52) as [d1 [H1 _]]; [lia|].
    destruct (getitem_lt data 28) as [d0 [H0 _]]; [lia|].
    destruct (init55_run now data range o type serial base amp_a amp_g
                Hheader Hacc Hgyro d2 d1 d0 Htag H2 H1 H0)
      as (evs & sv & E & St & _).
    exists evs, sv. split; [exact E|]. simpl in St. simpl.
    rewrite St. split; [apply firstn_repeat_app|].
    repeat rewrite length_app. repeat rewrite repeat_length. lia.
  - intros Htag.
    destruct (init56_run now data range o type serial base amp_a amp_g
                Hheader Hacc Hgyro Htag)
      as (evs & sv & E & St & _).
    exists evs, sv. auto.
Qed.

Lemma C3_slot_timestamps_witness :
  stamps (emitted (SensorValuesData.init epoch_day packet50 (Range.mk 0 3)
                                         connected_session))
  = repeat (0, 3723009) 5 ++ repeat (1, 3723016) 5
    ++ repeat (2, 3723022) 5 ++ repeat (3, 3723027) 5
  /\
  firstn 5 (stamps (emitted (SensorValuesData.init epoch_day packet55
                               (Range.mk 0 3) connected_session)))
  = repeat (0, 3723009) 5
  /\
  stamps (emitted (SensorValuesData.init epoch_day packet56 (Range.mk 0 3)
                                         connected_session))
  = repeat (0, 3723009) 6 ++ repeat (1, 3723009) 6.
Proof.
  split; [|split].
  - destruct (C3_slot_timestamps epoch_day packet50 (Range.mk 0 3)
                connected_session 50 7 3723009)
      as [H _]; [reflexivity | simpl; lia | simpl; lia |].
    destruct (H eq_refl 7 6 5 eq_refl eq_refl eq_refl) as (evs & sv & E & St).
    rewrite E. exact St.
  - destruct (C3_slot_timestamps epoch_day packet55 (Range.mk 0 3)
                connected_session 55 7 3723009)
      as [_ [H _]]; [reflexivity | simpl; lia | simpl; lia |].
    destruct H as (evs & sv & E & St & _); [reflexivity | simpl; lia |].
    rewrite E. exact St.
  - destruct (C3_slot_timestamps epoch_day packet56 (Range.mk 0 3)
                connected_session 56 7 3723009)
      as [_ [_ H]]; [reflexivity | simpl; lia | simpl; lia |].
    destruct (H eq_refl) as (evs & sv & E & St).
    rewrite E. exact St.
Defined.

(** C3 as stated fails for tags 56 and 55.  In the tag-56 packet the byte
    that follows the fields of slot 0 is 64, yet both slots carry the base
    timestamp.  In the tag-55 packet the bytes that follow the fields of
    slots 2, 1 and 0 are all 32, yet the timestamps advance by 1: the byte
    added is the one at [28 + 24*i], inside the pressure field. *)
Lemma C3_counterexample :
  (getitem packet56 0 = Ok 56 /\
   getitem packet56 (8 + 32 * 0 + 32) = Ok 64 /\
   acc_timestamps
     (emitted (SensorValuesData.init epoch_day packet56 (Range.mk 0 3)
                                     connected_session))
   = [3723009; 3723009] /\
   spec_timestamps packet56 32 32 [0%nat] 3723009 = [3723009; 3723073])
  /\
  (getitem packet55 0 = Ok 55 /\
   getitem packet55 (8 + 24 * 2 + 24) = Ok 32 /\
   acc_timestamps
     (emitted (SensorValuesData.init epoch_day packet55 (Range.mk 0 3)
                                     connected_session))
   = [3723009; 3723010; 3723011; 3723012] /\
   spec_timestamps packet55 24 24 [2%nat; 1%nat; 0%nat] 3723009
   = [3723009; 3723041; 3723073; 3723105]).
Proof. repeat split; vm_compute; reflexivity. Qed.

(** On the tag-50 packet the rule of the specification and the decoder
    agree. *)
Example spec_timestamps_packet50 :
  acc_timestamps
    (emitted (SensorValuesData.init epoch_day packet50 (Range.mk 0 3)
                                    connected_session))
  = spec_timestamps packet50 21 20 [2%nat; 1%nat; 0%nat] 3723009.
Proof. vm_compute. reflexivity. Qed.

(** ** The packet header *)

Lemma header_eq (now : datetime) (data : list byte) (o : Orphe) :
  SensorValuesData.header now data o
  = ([], o,
     base <~ base_timestamp now data ;;
     Ok (from_bytes_unsigned (slice data 0 1), serial_of data, base)).
Proof.
  unfold SensorValuesData.header, base_timestamp, bind, lift, ret, serial_of.
  destruct (getitem data 3); simpl; [|reflexivity].
  destruct (getitem data 4); simpl; [|reflexivity].
  destruct (getitem data 5); simpl; [|reflexivity].
  destruct (getitem data 6); simpl; [|reflexivity].
  destruct (getitem data 7); simpl; [|reflexivity].
  destruct (to_timestamp _ _ _ _ _ _); reflexivity.
Qed.

Lemma getitem_raises (data : list byte) (i : nat) (e : exn) :
  getitem data i = Raise e -> e = IndexError.
Proof.
  unfold getitem. destruct (nth_error data i); [discriminate|]. congruence.
Qed.

Lemma base_timestamp_short (now : datetime) (data : list byte) :
  (length data < 8)%nat -> base_timestamp now data = Raise IndexError.
Proof.
  intros H. unfold base_timestamp.
  rewrite (getitem_ge data 7) by lia.
  repeat match goal with
         | |- context [obind (getitem data ?i) _] =>
             let E := fresh "E" in
             destruct (getitem data i) eqn:E; simpl;
             [|apply getitem_raises in E; now subst]
         end.
  reflexivity.
Qed.

(** ** Packets shorter than their format *)

Lemma header_short (now : datetime) (data : list byte) (o : Orphe) :
  (length data < 8)%nat ->
  SensorValuesData.header now data o = ([], o, Raise IndexError).
Proof.
  intros H. rewrite header_eq, base_timestamp_short by exact H. reflexivity.
Qed.

Lemma device_information_range_run (o : Orphe) (di : DeviceInformation.t) :
  device_information o = Some di ->
  device_information_range o = ([], o, Ok (DeviceInformation.range di)).
Proof.
  intros H. unfold device_information_range, bind, owner. rewrite H.
  reflexivity.
Qed.

Lemma owner_run (o : Orphe) : owner o = ([], o, Ok o).
Proof. reflexivity. Qed.

Lemma base_timestamp_long (now : datetime) (data : list byte) (e : exn) :
  (8 <= length data)%nat ->
  base_timestamp now data = Raise e -> e = ValueError.
Proof.
  intros Hlen. unfold base_timestamp.
  destruct (getitem_lt data 3) as [h [-> _]]; [lia|].
  destruct (getitem_lt data 4) as [m [-> _]]; [lia|].
  destruct (getitem_lt data 5) as [s [-> _]]; [lia|].
  destruct (getitem_lt data 6) as [mh [-> _]]; [lia|].
  destruct (getitem_lt data 7) as [ml [-> _]]; [lia|].
  rewrite !obind_Ok. unfold to_timestamp.
  destruct (_ && _); [discriminate|]. congruence.
Qed.

(** An iteration of the tag-50 or tag-55 loop whose delta byte is missing
    raises before it calls any callback. *)
Lemma slot50_missing_delta (data : list byte) (range : Range.t) (serial : Z)
    (i : nat) (ts : Z) (self : SensorValuesData.t) (o : Orphe)
    (amp_a amp_g : Z) :
  list_index [2; 4; 8; 16] (Range.acc range) = Ok amp_a ->
  list_index [250; 500; 1000; 2000] (Range.gyro range) = Ok amp_g ->
  Nat.eqb i 3 = false ->
  (length data <= 28 + 21 * i)%nat ->
  SensorValuesData.slot50 data range serial i (ts, self) o
  = ([], o, Raise IndexError).
Proof.
  intros Ha Hg Hi Hlen. unfold SensorValuesData.slot50, bind, lift, call, ret.
  rewrite Ha, Hg, Hi, (getitem_ge _ _ Hlen). reflexivity.
Qed.

Lemma slot55_missing_delta (data : list byte) (range : Range.t) (serial : Z)
    (i : nat) (ts : Z) (self : SensorValuesData.t) (o : Orphe)
    (amp_a amp_g : Z) :
  list_index [2; 4; 8; 16] (Range.acc range) = Ok amp_a ->
  list_index [250; 500; 1000; 2000] (Range.gyro range) = Ok amp_g ->
  Nat.eqb i 3 = false ->
  (length data <= 28 + 24 * i)%nat ->
  SensorValuesData.slot55 data range serial i (ts, self) o
  = ([], o, Raise IndexError).
Proof.
  intros Ha Hg Hi Hlen. unfold SensorValuesData.slot55, bind, lift, call, ret.
  rewrite Ha, Hg, Hi, (getitem_ge _ _ Hlen). reflexivity.
Qed.

(** A tag-50 or tag-55 payload that has its header but not the first delta
    byte the loop reads: the newest slot is decoded and handed to the
    callbacks, and the second iteration raises. *)
Section TruncatedRuns.

Variables (now : datetime) (data : list byte) (range : Range.t) (o : Orphe).
Variables (type serial base amp_a amp_g : Z).
Hypothesis Hheader :
  SensorValuesData.header now data o = ([], o, Ok (type, serial, base)).
Hypothesis Hacc : list_index [2; 4; 8; 16] (Range.acc range) = Ok amp_a.
Hypothesis Hgyro : list_index [250; 500; 1000; 2000] (Range.gyro range) = Ok amp_g.

Lemma init50_truncated :
  getitem data 0 = Ok 50 ->
  (length data <= 70)%nat ->
  exists evs,
    SensorValuesData.init now data range o = (evs, o, Raise IndexError) /\
    stamps evs = repeat (0, base) (count_set callbacks50 (callbacks o)).
Proof.
  intros Htag Hlen. unfold SensorValuesData.init.
  rewrite (bind_run _ _ _ _ _ _ (lift_Ok _ _ o Htag)).
  cbv beta. decide_tags.
  rewrite (bind_run _ _ _ _ _ _ Hheader).
  unfold emitted, final, outcome. cbv beta iota. cbn [fst snd app].
  match goal with
  | |- context [for_each _ _ (_, ?self)] =>
      destruct (slot50_run data range serial 3 base self o amp_a amp_g base
                  Hacc Hgyro eq_refl)
        as (evs & self' & E & St & _);
      assert (Eloop :
                for_each [3; 2; 1; 0]%nat
                  (SensorValuesData.slot50 data range serial) (base, self) o
                = (evs, o, Raise IndexError))
  end.
  { rewrite for_each_cons, (bind_run _ _ _ _ _ _ E).
    unfold emitted, final, outcome. cbn [fst snd].
    rewrite for_each_cons,
      (bind_raise _ _ _ _ _ _
         (slot50_missing_delta data range serial 2 base self' o amp_a amp_g
            Hacc Hgyro eq_refl Hlen)).
    cbn [fst snd]. now rewrite app_nil_r. }
  rewrite (bind_raise _ _ _ _ _ _ Eloop).
  exists evs. split; [reflexivity | exact St].
Qed.

Lemma init55_truncated :
  getitem data 0 = Ok 55 ->
  (length data <= 76)%nat ->
  exists evs,
    SensorValuesData.init now data range o = (evs, o, Raise IndexError) /\
    stamps evs = repeat (0, base) (count_set callbacks55 (callbacks o)).
Proof.
  intros Htag Hlen. unfold SensorValuesData.init.
  rewrite (bind_run _ _ _ _ _ _ (lift_Ok _ _ o Htag)).
  cbv beta. decide_tags.
  rewrite (bind_run _ _ _ _ _ _ Hheader).
  unfold emitted, final, outcome. cbv beta iota. cbn [fst snd app].
  match goal with
  | |- context [for_each _ _ (_, ?self)] =>
      destruct (slot55_run data range serial 3 base self o amp_a amp_g base
                  Hacc Hgyro eq_refl)
        as (evs & self' & E & St & _);
      assert (Eloop :
                for_each [3; 2; 1; 0]%nat
                  (SensorValuesData.slot55 data range serial) (base, self) o
                = (evs, o, Raise IndexError))
  end.
  { rewrite for_each_cons, (bind_run _ _ _ _ _ _ E).
    unfold emitted, final, outcome. cbn [fst snd].
    rewrite for_each_cons,
      (bind_raise _ _ _ _ _ _
         (slot55_missing_delta data range serial 2 base self' o amp_a amp_g
            Hacc Hgyro eq_refl Hlen)).
    cbn [fst snd]. now rewrite app_nil_r. }
  rewrite (bind_raise _ _ _ _ _ _ Eloop).
  exists evs. split; [reflexivity | exact St].
Qed.

End TruncatedRuns.

(** What a payload of tag 50, 55 or 56 that is shorter than the documented
    length of its format does.  Shorter than the 8-byte header, it makes the
    decoder raise [IndexError] before any callback, and the handler passes
    the error on with the session unchanged.  With a complete header the
    only exception the header can raise is the [ValueError] of an invalid
    time of day; with a valid time of day and range indices 0..3, the
    payload is decoded without error as soon as it holds the last byte the
    branch reads by indexing (offset 7, 70 or 76 for tags 56, 50, 55), the
    missing fields being read from short slices; a tag-50 or tag-55 payload
    that does not hold that byte raises [IndexError] only after the
    callbacks of the newest slot have been called. *)
Theorem SensorValuesData_short_payload (now : datetime) (data : list byte)
    (range : Range.t) (o : Orphe) (tag : Z) :
  getitem data 0 = Ok tag ->
  tag = 50 \/ tag = 55 \/ tag = 56 ->
  (length data < documented_length tag)%nat ->
  let r := SensorValuesData.init now data range o in
  let n := count_set (callbacks_of tag) (callbacks o) in
  ((length data < 8)%nat ->
   r = ([], o, Raise IndexError) /\
   (forall di, is_connected o = true -> device_information o = Some di ->
      sensor_values_notification_handler now data o
      = ([], o, Raise IndexError))) /\
  ((8 <= length data)%nat ->
   (forall e, base_timestamp now data = Raise e ->
      e = ValueError /\ r = ([], o, Raise ValueError)) /\
   (forall base, base_timestamp now data = Ok base ->
      0 <= Range.acc range <= 3 ->
      0 <= Range.gyro range <= 3 ->
      ((last_byte_read tag < length data)%nat ->
       exists evs sv,
         r = (evs, o, Ok sv) /\
         length (stamps evs) = (slots_of tag * n)%nat /\
         firstn n (stamps evs) = repeat (0, base) n) /\
      ((length data <= last_byte_read tag)%nat ->
       exists evs,
         r = (evs, o, Raise IndexError) /\
         stamps evs = repeat (0, base) n))).
Proof.
  intros Htag Hcases Hshort r n. split.
  - intros Hlen.
    assert (Hinit : forall rg,
               SensorValuesData.init now data rg o
               = ([], o, Raise IndexError)).
    { intros rg. unfold SensorValuesData.init.
      rewrite (bind_run _ _ _ _ _ _ (lift_Ok _ _ o Htag)).
      unfold emitted, final, outcome.
      destruct Hcases as [-> | [-> | ->]]; cbv beta; decide_tags;
        rewrite (bind_raise _ _ _ _ _ _ (header_short now data o Hlen));
        reflexivity. }
    split; [apply Hinit|].
    intros di Hconn Hdi.
    unfold sensor_values_notification_handler,
      sensor_values_notification_handler_with.
    rewrite (bind_run _ _ _ _ _ _ (owner_run o)). cbv beta.
    rewrite Hconn. cbn [negb].
    rewrite (bind_run _ _ _ _ _ _ (lift_Ok _ _ o Htag)). cbv beta.
    unfold emitted, final, outcome.
    destruct Hcases as [-> | [-> | ->]]; decide_tags; cbn [orb];
      rewrite (bind_run _ _ _ _ _ _ (device_information_range_run o di Hdi));
      cbv beta;
      rewrite (bind_raise _ _ _ _ _ _ (Hinit (DeviceInformation.range di)));
      reflexivity.
  - intros Hlen. pose proof (header_eq now data o) as Hheader. split.
    + intros e He. pose proof (base_timestamp_long now data e Hlen He) as ->.
      split; [reflexivity|].
      rewrite He in Hheader. cbn [obind] in Hheader.
      unfold r, SensorValuesData.init.
      rewrite (bind_run _ _ _ _ _ _ (lift_Ok _ _ o Htag)).
      unfold emitted, final, outcome.
      destruct Hcases as [-> | [-> | ->]]; cbv beta; decide_tags;
        rewrite (bind_raise _ _ _ _ _ _ Hheader); reflexivity.
    + intros base Hbase Ha Hg.
      rewrite Hbase, obind_Ok in Hheader.
      destruct (list_index_in_range [2; 4; 8; 16] (Range.acc range))
        as [amp_a Hacc]; [simpl; lia|].
      destruct (list_index_in_range [250; 500; 1000; 2000] (Range.gyro range))
        as [amp_g Hgyro]; [simpl; lia|].
      unfold r, n. destruct Hcases as [-> | [-> | ->]].
      * change (last_byte_read 50) with 70%nat.
        change (callbacks_of 50) with callbacks50.
        change (slots_of 50) with 4%nat. split.
        -- intros Hl.
           destruct (getitem_lt data 70) as [d2 [H2 _]]; [lia|].
           destruct (getitem_lt data 49) as [d1 [H1 _]]; [lia|].
           destruct (getitem_lt data 28) as [d0 [H0 _]]; [lia|].
           destruct (init50_run now data range o _ _ base amp_a amp_g
                       Hheader Hacc Hgyro d2 d1 d0 Htag H2 H1 H0)
             as (evs & sv & E & St & _).
           exists evs, sv. split; [exact E|]. cbv zeta in St. rewrite St.
           split; [|apply firstn_repeat_app].
           rewrite !length_app, !repeat_length. lia.
        -- intros Hl.
           apply (init50_truncated now data range o _ _ base amp_a amp_g
                    Hheader Hacc Hgyro Htag Hl).
      * change (last_byte_read 55) with 76%nat.
        change (callbacks_of 55) with callbacks55.
        change (slots_of 55) with 4%nat. split.
        -- intros Hl.
           destruct (getitem_lt data 76) as [d2 [H2 _]]; [lia|].
           destruct (getitem_lt data 52) as [d1 [H1 _]]; [lia|].
           destruct (getitem_lt data 28) as [d0 [H0 _]]; [lia|].
           destruct (init55_run now data range o _ _ base amp_a amp_g
                       Hheader Hacc Hgyro d2 d1 d0 Htag H2 H1 H0)
             as (evs & sv & E & St & _).
           exists evs, sv. split; [exact E|]. cbv zeta in St. rewrite St.
           split; [|apply firstn_repeat_app].
           rewrite !length_app, !repeat_length. lia.
        -- intros Hl.
           apply (init55_truncated now data range o _ _ base amp_a amp_g
                    Hheader Hacc Hgyro Htag Hl).
      * change (last_byte_read 56) with 7%nat.
        change (callbacks_of 56) with callbacks56.
        change (slots_of 56) with 2%nat. split; [|lia].
        intros _.
        destruct (init56_run now data range o _ _ base amp_a amp_g
                    Hheader Hacc Hgyro Htag)
          as (evs & sv & E & St & _).
        exists evs, sv. split; [exact E|]. cbv zeta in St. rewrite St.
        split; [|apply firstn_repeat_app].
        rewrite !length_app, !repeat_length. lia.
Qed.

Lemma SensorValuesData_short_payload_witness :
  (SensorValuesData.init epoch_day packet56_short_header (Range.mk 0 3)
                         connected_session
   = ([], connected_session, Raise IndexError) /\
   sensor_values_notification_handler epoch_day packet56_short_header
                                      connected_session
   = ([], connected_session, Raise IndexError)) /\
  (exists evs sv,
     SensorValuesData.init epoch_day packet56_header_only (Range.mk 0 3)
                           connected_session
     = (evs, connected_session, Ok sv) /\
     length (stamps evs) = 12%nat) /\
  (exists evs,
     SensorValuesData.init epoch_day packet50_one_slot (Range.mk 0 3)
                           connected_session
     = (evs, connected_session, Raise IndexError) /\
     stamps evs = repeat (0, 3723009) 5) /\
  (exists evs sv,
     SensorValuesData.init epoch_day packet50_71_bytes (Range.mk 0 3)
                           connected_session
     = (evs, connected_session, Ok sv) /\
     length (stamps evs) = 20%nat).
Proof.
  split; [|split; [|split]].
  - destruct (SensorValuesData_short_payload epoch_day packet56_short_header (Range.mk 0 3)
                connected_session 56)
      as [Hshort _]; [reflexivity | auto | vm_compute; lia |].
    destruct Hshort as [Hinit Hhandler]; [vm_compute; lia|].
    split; [exact Hinit|].
    apply (Hhandler device_information_read); reflexivity.
  - destruct (SensorValuesData_short_payload epoch_day packet56_header_only (Range.mk 0 3)
                connected_session 56)
      as [_ Hlong]; [reflexivity | auto | vm_compute; lia |].
    destruct Hlong as [_ Hvalid]; [vm_compute; lia|].
    destruct (Hvalid 3723009) as [Hdecoded _];
      [reflexivity | simpl; lia | simpl; lia |].
    destruct Hdecoded as (evs & sv & E & Hn & _); [vm_compute; lia|].
    exists evs, sv. split; [exact E | exact Hn].
  - destruct (SensorValuesData_short_payload epoch_day packet50_one_slot (Range.mk 0 3)
                connected_session 50)
      as [_ Hlong]; [reflexivity | auto | vm_compute; lia |].
    destruct Hlong as [_ Hvalid]; [vm_compute; lia|].
    destruct (Hvalid 3723009) as [_ Hraised];
      [reflexivity | simpl; lia | simpl; lia |].
    apply Hraised. vm_compute. lia.
  - destruct (SensorValuesData_short_payload epoch_day packet50_71_bytes (Range.mk 0 3)
                connected_session 50)
      as [_ Hlong]; [reflexivity | auto | vm_compute; lia |].
    destruct Hlong as [_ Hvalid]; [vm_compute; lia|].
    destruct (Hvalid 3723009) as [Hdecoded _];
      [reflexivity | simpl; lia | simpl; lia |].
    destruct Hdecoded as (evs & sv & E & Hn & _); [vm_compute; lia|].
    exists evs, sv. split; [exact E | exact Hn].
Defined.

(** C6 (the code departs from the claim): nothing checks the length of a
    payload, although the handler announces a length check above its tag
    test.  A tag-56 payload that stops after the header (8 of the
    documented 72 bytes) raises nothing: both slots are decoded from empty
    slices and all twelve sample callbacks are called; the handler then
    calls the loss callback for the step from the stored 0 to 7 and stores
    the serial number.  A tag-50 payload that stops after the fields of slot 0
    (28 of the documented 92 bytes) does raise [IndexError], but only after
    the five callbacks of the newest slot have been called. *)
Theorem C6_short_payload_is_decoded :
  (getitem packet56_header_only 0 = Ok 56 /\
   length packet56_header_only = 8%nat /\
   (exists sv,
      outcome (SensorValuesData.init epoch_day packet56_header_only
                 (Range.mk 0 3) connected_session) = Ok sv) /\
   length (emitted (SensorValuesData.init epoch_day packet56_header_only
                      (Range.mk 0 3) connected_session)) = 12%nat /\
   outcome (sensor_values_notification_handler epoch_day
              packet56_header_only connected_session) = Ok tt /\
   length (emitted (sensor_values_notification_handler epoch_day
                      packet56_header_only connected_session)) = 13%nat /\
   serial_number_prev
     (final (sensor_values_notification_handler epoch_day
               packet56_header_only connected_session)) = 7)
  /\
  (getitem packet50_one_slot 0 = Ok 50 /\
   length packet50_one_slot = 28%nat /\
   outcome (SensorValuesData.init epoch_day packet50_one_slot
              (Range.mk 0 3) connected_session) = Raise IndexError /\
   length (emitted (SensorValuesData.init epoch_day packet50_one_slot
                      (Range.mk 0 3) connected_session)) = 5%nat).
Proof.
  repeat split; try (vm_compute; reflexivity).
  eexists. vm_compute. reflexivity.
Qed.

(** ** Serial-number gaps *)

Lemma init_well_formed (now : datetime) (data : list byte) (range : Range.t)
    (o : Orphe) :
  well_formed now data ->
  0 <= Range.acc range <= 3 ->
  0 <= Range.gyro range <= 3 ->
  exists evs sv,
    SensorValuesData.init now data range o = (evs, o, Ok sv) /\
    losses evs = [] /\
    SensorValuesData.serial_number sv = Some (serial_of data).
Proof.
  intros [[tag [Htag [Hcases Hlen]]] [base Hbase]] Ha Hg.
  destruct (list_index_in_range [2; 4; 8; 16] (Range.acc range))
    as [amp_a Hacc]; [simpl; lia|].
  destruct (list_index_in_range [250; 500; 1000; 2000] (Range.gyro range))
    as [amp_g Hgyro]; [simpl; lia|].
  pose proof (header_eq now data o) as Hheader.
  rewrite Hbase, obind_Ok in Hheader.
  destruct Hcases as [-> | [-> | ->]].
  - change (documented_length 50) with 92%nat in Hlen.
    destruct (getitem_lt data 70) as [d2 [H2 _]]; [lia|].
    destruct (getitem_lt data 49) as [d1 [H1 _]]; [lia|].
    destruct (getitem_lt data 28) as [d0 [H0 _]]; [lia|].
    destruct (init50_run now data range o _ _ base amp_a amp_g
                Hheader Hacc Hgyro d2 d1 d0 Htag H2 H1 H0)
      as (evs & sv & E & _ & L & Sn).
    exists evs, sv. auto.
  - change (documented_length 55) with 104%nat in Hlen.
    destruct (getitem_lt data 76) as [d2 [H2 _]]; [lia|].
    destruct (getitem_lt data 52) as [d1 [H1 _]]; [lia|].
    destruct (getitem_lt data 28) as [d0 [H0 _]]; [lia|].
    destruct (init55_run now data range o _ _ base amp_a amp_g
                Hheader Hacc Hgyro d2 d1 d0 Htag H2 H1 H0)
      as (evs & sv & E & _ & L & Sn).
    exists evs, sv. auto.
  - destruct (init56_run now data range o _ _ base amp_a amp_g
                Hheader Hacc Hgyro Htag)
      as (evs & sv & E & _ & L & Sn).
    exists evs, sv. auto.
Qed.

(** One well-formed packet through the handler of a connected session: the
    sample events come first, then the loss callback with the serial number
    still stored, and only then is the stored serial number replaced. *)
Lemma handler_well_formed (now : datetime) (data : list byte) (o : Orphe)
    (di : DeviceInformation.t) :
  is_connected o = true ->
  device_information o = Some di ->
  0 <= Range.acc (DeviceInformation.range di) <= 3 ->
  0 <= Range.gyro (DeviceInformation.range di) <= 3 ->
  well_formed now data ->
  exists evs,
    sensor_values_notification_handler now data o
    = (evs ++ (if (1 <? serial_of data - serial_number_prev o)
                  && lost_data_callback (callbacks o)
               then [lost_data (serial_number_prev o) (serial_of data)]
               else []),
       set_serial_number_prev (serial_of data) o,
       Ok tt) /\
    losses evs = [].
Proof.
  intros Hconn Hdi Ha Hg Hwf.
  destruct (init_well_formed now data (DeviceInformation.range di) o Hwf Ha Hg)
    as (evs & sv & E & L & Sn).
  destruct Hwf as [[tag [Htag [Hcases _]]] _].
  exists evs. split; [|exact L].
  unfold sensor_values_notification_handler,
    sensor_values_notification_handler_with.
  rewrite (bind_run _ _ _ _ _ _ (owner_run o)). cbv beta.
  rewrite Hconn. cbn [negb].
  rewrite (bind_run _ _ _ _ _ _ (lift_Ok _ _ o Htag)). cbv beta.
  assert (Htags : (tag =? 50) || (tag =? 55) || (tag =? 56) = true)
    by (destruct Hcases as [-> | [-> | ->]]; reflexivity).
  rewrite Htags.
  rewrite (bind_run _ _ _ _ _ _ (device_information_range_run o di Hdi)).
  cbv beta.
  rewrite (bind_run _ _ _ _ _ _ E). cbv beta.
  rewrite Sn. unfold attr.
  unfold bind, ret, owner, call_user, record, modify, emitted, final,
    outcome.
  cbn [fst snd app].
  destruct (1 <? serial_of data - serial_number_prev o);
    destruct (lost_data_callback (callbacks o)); cbn [andb app];
    rewrite ?app_nil_r; reflexivity.
Qed.

(** The same run when the loss callback is arbitrary code: the sample events
    do not depend on it; it is run, if at all, on the session the decoder
    left, in which the previous serial number is still stored, and the
    stored number is replaced on the session the callback leaves, and only
    when it returns. *)
Lemma handler_with_well_formed (now : datetime) (data : list byte) (o : Orphe)
    (di : DeviceInformation.t) :
  is_connected o = true ->
  device_information o = Some di ->
  0 <= Range.acc (DeviceInformation.range di) <= 3 ->
  0 <= Range.gyro (DeviceInformation.range di) <= 3 ->
  well_formed now data ->
  exists evs,
    losses evs = [] /\
    forall body : Z -> Z -> M unit,
      sensor_values_notification_handler_with body now data o
      = (if (1 <? serial_of data - serial_number_prev o)
            && lost_data_callback (callbacks o)
         then
           let called := body (serial_number_prev o) (serial_of data) o in
           (evs ++ emitted called,
            match outcome called with
            | Ok _ => set_serial_number_prev (serial_of data) (final called)
            | Raise _ => final called
            end,
            outcome called)
         else (evs, set_serial_number_prev (serial_of data) o, Ok tt)).
Proof.
  intros Hconn Hdi Ha Hg Hwf.
  destruct (init_well_formed now data (DeviceInformation.range di) o Hwf Ha Hg)
    as (evs & sv & E & L & Sn).
  destruct Hwf as [[tag [Htag [Hcases _]]] _].
  exists evs. split; [exact L|]. intros body.
  unfold sensor_values_notification_handler_with.
  rewrite (bind_run _ _ _ _ _ _ (owner_run o)). cbv beta.
  rewrite Hconn. cbn [negb].
  rewrite (bind_run _ _ _ _ _ _ (lift_Ok _ _ o Htag)). cbv beta.
  assert (Htags : (tag =? 50) || (tag =? 55) || (tag =? 56) = true)
    by (destruct Hcases as [-> | [-> | ->]]; reflexivity).
  rewrite Htags.
  rewrite (bind_run _ _ _ _ _ _ (device_information_range_run o di Hdi)).
  cbv beta.
  rewrite (bind_run _ _ _ _ _ _ E). cbv beta.
  rewrite Sn. unfold attr.
  unfold bind, ret, owner, call_user, modify, emitted, final, outcome.
  cbn [fst snd app].
  destruct (1 <? serial_of data - serial_number_prev o);
    destruct (lost_data_callback (callbacks o)); cbn [andb app];
    rewrite ?app_nil_r; try reflexivity.
  cbv zeta.
  destruct (body (serial_number_prev o) (serial_of data) o)
    as [[e3 o3] [[]|e]]; cbn [fst snd]; rewrite ?app_nil_r; reflexivity.
Qed.

(** C4: for two consecutive well-formed sensor-stream packets on a connected
    session, a serial-number step from 5 to 6 calls no loss callback; a step
    from 5 to 7 calls it exactly once (when it is set), with arguments
    (5, 7), after the sample events of the second packet and before the
    stored serial number is replaced; a step from 65535 to 0 calls no loss
    callback.  The order of the call and the update is stated for a loss
    callback that is arbitrary code: it is run on the session left by the
    first packet, in which 5 is still stored, and 7 is stored afterwards on
    the session the callback leaves, and only when the callback returns;
    without a gap the callback's code is not run at all. *)
Theorem C4_serial_gap (now1 now2 : datetime) (first second : list byte)
    (o : Orphe) (di : DeviceInformation.t) :
  is_connected o = true ->
  device_information o = Some di ->
  0 <= Range.acc (DeviceInformation.range di) <= 3 ->
  0 <= Range.gyro (DeviceInformation.range di) <= 3 ->
  well_formed now1 first ->
  well_formed now2 second ->
  let r1 := sensor_values_notification_handler now1 first o in
  let r2 := sensor_values_notification_handler now2 second (final r1) in
  outcome r1 = Ok tt /\ outcome r2 = Ok tt /\
  serial_number_prev (final r1) = serial_of first /\
  serial_number_prev (final r2) = serial_of second /\
  (serial_of first = 5 -> serial_of second = 6 ->
   losses (emitted r2) = [] /\
   forall body : Z -> Z -> M unit,
     sensor_values_notification_handler_with body now2 second (final r1)
     = r2) /\
  (serial_of first = 5 -> serial_of second = 7 ->
   exists samples,
     losses samples = [] /\
     emitted r2
     = samples ++ (if lost_data_callback (callbacks o)
                   then [lost_data 5 7] else []) /\
     losses (emitted r2)
     = (if lost_data_callback (callbacks o) then [(5, 7)] else []) /\
     (lost_data_callback (callbacks o) = true ->
      forall body : Z -> Z -> M unit,
        let called := body 5 7 (final r1) in
        sensor_values_notification_handler_with body now2 second (final r1)
        = (samples ++ emitted called,
           match outcome called with
           | Ok _ => set_serial_number_prev 7 (final called)
           | Raise _ => final called
           end,
           outcome called))) /\
  (serial_of first = 65535 -> serial_of second = 0 ->
   losses (emitted r2) = [] /\
   forall body : Z -> Z -> M unit,
     sensor_values_notification_handler_with body now2 second (final r1)
     = r2).
Proof.
  intros Hconn Hdi Ha Hg Hwf1 Hwf2 r1 r2.
  destruct (handler_well_formed now1 first o di Hconn Hdi Ha Hg Hwf1)
    as (e1 & E1 & L1).
  assert (Hr1 : r1 = (e1 ++ (if (1 <? serial_of first - serial_number_prev o)
                                && lost_data_callback (callbacks o)
                             then [lost_data (serial_number_prev o)
                                             (serial_of first)]
                             else []),
                      set_serial_number_prev (serial_of first) o, Ok tt))
    by exact E1.
  destruct (handler_with_well_formed now2 second
              (set_serial_number_prev (serial_of first) o) di
              Hconn Hdi Ha Hg Hwf2)
    as (e2 & L2 & E2).
  cbn [serial_number_prev set_serial_number_prev callbacks] in E2.
  assert (Hr2 : r2 = (e2 ++ (if (1 <? serial_of second - serial_of first)
                                && lost_data_callback (callbacks o)
                             then [lost_data (serial_of first)
                                             (serial_of second)]
                             else []),
                      set_serial_number_prev (serial_of second)
                        (set_serial_number_prev (serial_of first) o), Ok tt)).
  { unfold r2, sensor_values_notification_handler. rewrite Hr1.
    unfold final at 1. cbn [fst snd]. rewrite E2.
    destruct ((1 <? serial_of second - serial_of first)
              && lost_data_callback (callbacks o));
      [reflexivity | now rewrite app_nil_r]. }
  rewrite Hr1, Hr2. unfold outcome, final, emitted. cbn [fst snd].
  split; [reflexivity|]. split; [reflexivity|].
  split; [reflexivity|]. split; [reflexivity|].
  split; [|split].
  - intros H5 H6. rewrite H5, H6 in *. cbn [Z.ltb Z.sub andb] in *.
    split; [rewrite losses_app, L2; reflexivity|].
    intros body. rewrite (E2 body). now rewrite app_nil_r.
  - intros H5 H7. rewrite H5, H7 in *. exists e2. split; [exact L2|].
    change (1 <? 7 - 5) with true in *. cbn [andb] in *.
    split; [reflexivity|].
    split; [destruct (lost_data_callback (callbacks o));
            rewrite losses_app, L2; reflexivity|].
    intros Hset body. rewrite (E2 body), Hset. reflexivity.
  - intros H5 H0. rewrite H5, H0 in *.
    change (1 <? 0 - 65535) with false in *. cbn [andb] in *.
    split; [rewrite losses_app, L2; reflexivity|].
    intros body. rewrite (E2 body). now rewrite app_nil_r.
Qed.

Lemma C4_serial_gap_witness :
  losses (emitted (sensor_values_notification_handler epoch_day
                     (packet_with_serial 0 6)
                     (final (sensor_values_notification_handler epoch_day
                               (packet_with_serial 0 5) connected_session))))
  = [] /\
  losses (emitted (sensor_values_notification_handler epoch_day
                     (packet_with_serial 0 7)
                     (final (sensor_values_notification_handler epoch_day
                               (packet_with_serial 0 5) connected_session))))
  = [(5, 7)] /\
  losses (emitted (sensor_values_notification_handler epoch_day
                     (packet_with_serial 0 0)
                     (final (sensor_values_notification_handler epoch_day
                               (packet_with_serial 0xFF 0xFF)
                               connected_session))))
  = [] /\
  serial_number_prev
    (final (sensor_values_notification_handler_with
              (fun _ _ => raise ValueError) epoch_day
              (packet_with_serial 0 7)
              (final (sensor_values_notification_handler epoch_day
                        (packet_with_serial 0 5) connected_session))))
  = 5.
Proof.
  assert (Hwf : forall high low,
             getitem (packet_with_serial high low) 0 = Ok 56 ->
             length (packet_with_serial high low) = 72%nat ->
             base_timestamp epoch_day (packet_with_serial high low)
             = Ok 3723009 ->
             well_formed epoch_day (packet_with_serial high low)).
  { intros high low Htag Hlen Hbase. split.
    - exists 56. split; [exact Htag|]. split; [auto|].
      rewrite Hlen. apply Nat.leb_le. reflexivity.
    - exists 3723009. exact Hbase. }
  split; [|split; [|split]].
  - destruct (C4_serial_gap epoch_day epoch_day
                (packet_with_serial 0 5) (packet_with_serial 0 6)
                connected_session device_information_read)
      as (_ & _ & _ & _ & H & _);
      [reflexivity | reflexivity
      | vm_compute; split; discriminate | vm_compute; split; discriminate
      | apply Hwf; reflexivity | apply Hwf; reflexivity |].
    apply H; reflexivity.
  - destruct (C4_serial_gap epoch_day epoch_day
                (packet_with_serial 0 5) (packet_with_serial 0 7)
                connected_session device_information_read)
      as (_ & _ & _ & _ & _ & H & _);
      [reflexivity | reflexivity
      | vm_compute; split; discriminate | vm_compute; split; discriminate
      | apply Hwf; reflexivity | apply Hwf; reflexivity |].
    destruct H as (samples & _ & _ & H & _); [reflexivity | reflexivity |].
    exact H.
  - destruct (C4_serial_gap epoch_day epoch_day
                (packet_with_serial 0xFF 0xFF) (packet_with_serial 0 0)
                connected_session device_information_read)
      as (_ & _ & _ & _ & _ & _ & H);
      [reflexivity | reflexivity
      | vm_compute; split; discriminate | vm_compute; split; discriminate
      | apply Hwf; reflexivity | apply Hwf; reflexivity |].
    apply H; reflexivity.
  - destruct (C4_serial_gap epoch_day epoch_day
                (packet_with_serial 0 5) (packet_with_serial 0 7)
                connected_session device_information_read)
      as (_ & _ & _ & _ & _ & H & _);
      [reflexivity | reflexivity
      | vm_compute; split; discriminate | vm_compute; split; discriminate
      | apply Hwf; reflexivity | apply Hwf; reflexivity |].
    destruct H as (samples & _ & _ & _ & H); [reflexivity | reflexivity |].
    rewrite (H eq_refl (fun _ _ => raise ValueError)). reflexivity.
Defined.

(** ** Range scaling *)

(** Two bytes read big-endian and signed are a 16-bit two's-complement
    integer. *)
Lemma from_bytes_signed_int16 (high low : byte) :
  let u := b2z high * 256 + b2z low in
  from_bytes_signed [high; low] = (if u <? 32768 then u else u - 65536) /\
  -32768 <= from_bytes_signed [high; low] < 32768.
Proof.
  pose proof (b2z_range high) as Hh. pose proof (b2z_range low) as Hl.
  unfold from_bytes_signed, Py.from_bytes_unsigned. cbn [fold_left length].
  change (8 * Z.of_nat 2) with 16. change (0 <? 16) with true.
  change (2 ^ (16 - 1)) with 32768. change (2 ^ 16) with 65536.
  cbn [andb]. replace (0 * 256 + b2z high) with (b2z high) by lia.
  cbv zeta.
  destruct (Z.leb_spec 32768 (b2z high * 256 + b2z low));
    destruct (Z.ltb_spec (b2z high * 256 + b2z low) 32768); lia.
Qed.



(** ** Further properties of the step-analysis decoder *)

(** The three bit-fields of a quat-distance record share no bit and lose
    none: together they rebuild byte 4, with the phase in bit 0, the period
    in the four bits 4..1 and the event in the three bits 7..5. *)
Theorem QuatDistanceData_fields_partition_byte4
    (data : list byte) (q : QuatDistanceData.t) :
  QuatDistanceData.init data = Ok q ->
  exists b, getitem data 4 = Ok b /\
    b = QuatDistanceData.event q * 32 + QuatDistanceData.period q * 2
        + QuatDistanceData.phase q /\
    0 <= QuatDistanceData.phase q <= 1 /\
    0 <= QuatDistanceData.period q <= 15 /\
    0 <= QuatDistanceData.event q <= 7.
Proof.
  intros H. unfold QuatDistanceData.init in H.
  destruct (getitem data 4) as [b|] eqn:Eb; simpl in H; [|discriminate H].
  ok_inv H. subst q. cbn [QuatDistanceData.event QuatDistanceData.period
                          QuatDistanceData.phase].
  exists b. split; [reflexivity|].
  unfold getitem in Eb. destruct (nth_error data 4) as [x|]; [|discriminate Eb].
  injection Eb as <-.
  destruct x; (repeat split; try reflexivity; vm_compute; discriminate).
Qed.

Lemma QuatDistanceData_fields_partition_byte4_witness :
  exists b, getitem quat_distance_payload 4 = Ok b /\
    b = QuatDistanceData.event quat_distance_decoded * 32
        + QuatDistanceData.period quat_distance_decoded * 2
        + QuatDistanceData.phase quat_distance_decoded /\
    0 <= QuatDistanceData.phase quat_distance_decoded <= 1 /\
    0 <= QuatDistanceData.period quat_distance_decoded <= 15 /\
    0 <= QuatDistanceData.event quat_distance_decoded <= 7.
Proof.
  apply (QuatDistanceData_fields_partition_byte4 quat_distance_payload
           quat_distance_decoded).
  reflexivity.
Defined.

(** A payload whose sub-type byte is none of 0, 1, 2 and 4 is accepted and
    ignored: no callback, no change of the session, no exception, whatever
    its length beyond the two bytes that hold the sub-type. *)
Theorem StepAnalysisData_other_sub_types_ignored
    (data : list byte) (o : Orphe) (sub : Z) :
  getitem data 1 = Ok sub ->
  sub <> 0 -> sub <> 1 -> sub <> 2 -> sub <> 4 ->
  StepAnalysisData.init data o
  = ([], o, Ok (StepAnalysisData.mk data None None None None None)).
Proof.
  intros Hsub H0 H1 H2 H4.
  unfold StepAnalysisData.init.
  rewrite (bind_run _ _ _ _ _ _ (lift_Ok _ _ o Hsub)). cbv beta.
  apply Z.eqb_neq in H0, H1, H2, H4. rewrite H0, H1, H2, H4.
  reflexivity.
Qed.

Lemma StepAnalysisData_other_sub_types_ignored_witness :
  StepAnalysisData.init (bytes [0; 3]) connected_session
  = ([], connected_session,
     Ok (StepAnalysisData.mk (bytes [0; 3]) None None None None None)).
Proof.
  apply (StepAnalysisData_other_sub_types_ignored (bytes [0; 3])
           connected_session 3);
    [reflexivity | lia | lia | lia | lia].
Defined.

Lemma slice_length_min (data : list byte) (lo hi : nat) :
  length (slice data lo hi) = Nat.min (hi - lo) (length data - lo).
Proof. unfold slice. now rewrite length_firstn, length_skipn. Qed.

Lemma unpack_f_short (data : list byte) (lo : nat) :
  (length data < lo + 4)%nat ->
  unpack_f (slice data lo (lo + 4)) = Raise StructError.
Proof.
  intros H. unfold unpack_f.
  replace (Nat.eqb (length (slice data lo (lo + 4))) 4) with false;
    [reflexivity|].
  symmetry. apply Nat.eqb_neq. rewrite slice_length_min. lia.
Qed.

Lemma unpack_e_short (data : list byte) (lo : nat) :
  (length data < lo + 2)%nat ->
  unpack_e (slice data lo (lo + 2)) = Raise StructError.
Proof.
  intros H. unfold unpack_e.
  replace (Nat.eqb (length (slice data lo (lo + 2))) 2) with false;
    [reflexivity|].
  symmetry. apply Nat.eqb_neq. rewrite slice_length_min. lia.
Qed.

Lemma unpack_f_raises (bs : list byte) (e : exn) :
  unpack_f bs = Raise e -> e = StructError.
Proof. unfold unpack_f. destruct (Nat.eqb _ _); congruence. Qed.

Lemma unpack_e_raises (bs : list byte) (e : exn) :
  unpack_e bs = Raise e -> e = StructError.
Proof. unfold unpack_e. destruct (Nat.eqb _ _); congruence. Qed.

(** Walks down a chain of [unpack] calls of which the last one fails. *)
Ltac struct_error :=
  repeat match goal with
         | |- context [obind (unpack_f ?s) _] =>
             let E := fresh "E" in
             destruct (unpack_f s) eqn:E; cbn [obind];
             [|apply unpack_f_raises in E; now subst]
         | |- context [obind (unpack_e ?s) _] =>
             let E := fresh "E" in
             destruct (unpack_e s) eqn:E; cbn [obind];
             [|apply unpack_e_raises in E; now subst]
         end;
  try reflexivity.

Lemma GaitData_init_short (data : list byte) :
  (length data < 20)%nat ->
  GaitData.init data
  = Raise (if (length data <=? 4)%nat then IndexError else StructError).
Proof.
  intros H. unfold GaitData.init.
  destruct (Nat.leb_spec (length data) 4) as [Hle|Hgt].
  - now rewrite (getitem_ge data 4 Hle).
  - destruct (getitem_lt data 4 Hgt) as [b [Eb _]]. rewrite Eb. cbn [obind].
    change 20%nat with (16 + 4)%nat.
    rewrite (unpack_f_short data 16) by lia.
    struct_error.
Qed.

Lemma StrideData_init_short (data : list byte) :
  (length data < 20)%nat -> StrideData.init data = Raise StructError.
Proof.
  intros H. unfold StrideData.init. change 20%nat with (16 + 4)%nat.
  rewrite (unpack_f_short data 16) by lia.
  struct_error.
Qed.

Lemma PronationData_init_short (data : list byte) :
  (length data < 20)%nat -> PronationData.init data = Raise StructError.
Proof.
  intros H. unfold PronationData.init. change 20%nat with (16 + 4)%nat.
  rewrite (unpack_f_short data 16) by lia.
  struct_error.
Qed.

Lemma QuatDistanceData_init_short (data : list byte) :
  (length data < 20)%nat ->
  QuatDistanceData.init data
  = Raise (if (length data <=? 4)%nat then IndexError else StructError).
Proof.
  intros H. unfold QuatDistanceData.init.
  destruct (Nat.leb_spec (length data) 4) as [Hle|Hgt].
  - now rewrite (getitem_ge data 4 Hle).
  - destruct (getitem_lt data 4 Hgt) as [b [Eb _]]. rewrite Eb. cbn [obind].
    change 20%nat with (18 + 2)%nat.
    rewrite (unpack_e_short data 18) by lia.
    struct_error.
Qed.

(** A step-analysis payload of fewer than 20 bytes emits nothing.  When its
    record has to be decoded (sub-type 4, or sub-type 0, 1, 2 with a step
    count above the stored one) the constructor raises, [IndexError] where
    byte 4 is read and missing and [struct.error] otherwise, and the stored
    count is not updated, so the payload would raise again.  When the step
    count does not advance, the short payload is accepted without error and
    its step count is stored. *)
Theorem StepAnalysisData_short_payload
    (data : list byte) (o : Orphe) (sub : Z) :
  getitem data 1 = Ok sub ->
  sub = 0 \/ sub = 1 \/ sub = 2 \/ sub = 4 ->
  (length data < 20)%nat ->
  let count := from_bytes_unsigned (slice data 2 4) in
  let r := StepAnalysisData.init data o in
  emitted r = [] /\
  (sub = 4 \/ stored_count sub (step_count o) < count ->
   final r = o /\
   outcome r
   = Raise (if ((sub =? 0) || (sub =? 4)) && (length data <=? 4)%nat
            then IndexError else StructError)) /\
  (sub <> 4 -> count <= stored_count sub (step_count o) ->
   stored_count sub (step_count (final r)) = count /\
   exists sa, outcome r = Ok sa).
Proof.
  intros Hsub Hcases Hlen count r. unfold r, StepAnalysisData.init.
  rewrite (bind_run _ _ _ _ _ _ (lift_Ok _ _ o Hsub)). cbv beta.
  unfold emitted, final, outcome, bind, last_step_count, lift, call, ret,
    store_step_count, modify.
  fold count.
  destruct Hcases as [-> | [-> | [-> | ->]]]; decide_tags;
    cbn [stored_count orb andb fst snd app].
  - change (stored_count 0 (step_count o)) with (StepCount.gait (step_count o)).
    rewrite (GaitData_init_short data Hlen).
    destruct (Z.ltb_spec (StepCount.gait (step_count o)) count);
      cbn [fst snd app]; repeat split; try reflexivity; try lia; eauto;
      intros [?|?]; try discriminate; try lia; split; reflexivity.
  - change (stored_count 1 (step_count o))
      with (StepCount.stride (step_count o)).
    rewrite (StrideData_init_short data Hlen).
    destruct (Z.ltb_spec (StepCount.stride (step_count o)) count);
      cbn [fst snd app]; repeat split; try reflexivity; try lia; eauto;
      intros [?|?]; try discriminate; try lia; split; reflexivity.
  - change (stored_count 2 (step_count o))
      with (StepCount.pronation (step_count o)).
    rewrite (PronationData_init_short data Hlen).
    destruct (Z.ltb_spec (StepCount.pronation (step_count o)) count);
      cbn [fst snd app]; repeat split; try reflexivity; try lia; eauto;
      intros [?|?]; try discriminate; try lia; split; reflexivity.
  - rewrite (QuatDistanceData_init_short data Hlen).
    cbn [fst snd app]. repeat split; try reflexivity; congruence.
Qed.

Lemma StepAnalysisData_short_payload_witness :
  (final (StepAnalysisData.init gait_payload_5_bytes connected_session)
   = connected_session /\
   outcome (StepAnalysisData.init gait_payload_5_bytes connected_session)
   = Raise StructError) /\
  (StepCount.gait
     (step_count (final (StepAnalysisData.init gait_payload_5_bytes
                           session_after_first_step))) = 1 /\
   exists sa,
     outcome (StepAnalysisData.init gait_payload_5_bytes
                session_after_first_step) = Ok sa).
Proof.
  split.
  - destruct (StepAnalysisData_short_payload gait_payload_5_bytes
                connected_session 0)
      as (_ & H & _); [reflexivity | auto | simpl; lia |].
    apply H. right. reflexivity.
  - destruct (StepAnalysisData_short_payload gait_payload_5_bytes
                session_after_first_step 0)
      as (_ & _ & H); [reflexivity | auto | simpl; lia |].
    apply H; [lia | vm_compute; discriminate].
Defined.

(** The stored step count of a category is the step count of the last
    payload of that category, not the largest seen: for two payloads of at
    least 20 bytes and the same sub-type 0, 1 or 2 processed one after the
    other, the second one's event is emitted exactly when its step count is
    above the first one's (and the callback is set), whatever was stored
    before the first. *)
Theorem StepAnalysisData_dedup_against_last_payload
    (first second : list byte) (o : Orphe) :
  (20 <= length first)%nat -> (20 <= length second)%nat ->
  let c1 := from_bytes_unsigned (slice first 2 4) in
  let c2 := from_bytes_unsigned (slice second 2 4) in
  let after_first := final (StepAnalysisData.init first o) in
  (getitem first 1 = Ok 0 -> getitem second 1 = Ok 0 ->
   exists g, GaitData.init second = Ok g /\
     emitted (StepAnalysisData.init second after_first)
     = (if (c1 <? c2) && got_gait_callback (callbacks o)
        then [got_gait g] else []))
  /\
  (getitem first 1 = Ok 1 -> getitem second 1 = Ok 1 ->
   exists s, StrideData.init second = Ok s /\
     emitted (StepAnalysisData.init second after_first)
     = (if (c1 <? c2) && got_stride_callback (callbacks o)
        then [got_stride s] else []))
  /\
  (getitem first 1 = Ok 2 -> getitem second 1 = Ok 2 ->
   exists p, PronationData.init second = Ok p /\
     emitted (StepAnalysisData.init second after_first)
     = (if (c1 <? c2) && got_pronation_callback (callbacks o)
        then [got_pronation p] else [])).
Proof.
  intros Hlen1 Hlen2 c1 c2 after_first. unfold after_first. repeat split.
  - intros H1 H2.
    destruct (GaitData_init_total first Hlen1) as [g1 Hg1].
    destruct (GaitData_init_total second Hlen2) as [g2 Hg2].
    exists g2. split; [exact Hg2|].
    rewrite (init_gait first o g1 H1 Hg1). unfold final. cbn [fst snd].
    rewrite (init_gait second _ g2 H2 Hg2). reflexivity.
  - intros H1 H2.
    destruct (StrideData_init_total first Hlen1) as [s1 Hs1].
    destruct (StrideData_init_total second Hlen2) as [s2 Hs2].
    exists s2. split; [exact Hs2|].
    rewrite (init_stride first o s1 H1 Hs1). unfold final. cbn [fst snd].
    rewrite (init_stride second _ s2 H2 Hs2). reflexivity.
  - intros H1 H2.
    destruct (PronationData_init_total first Hlen1) as [p1 Hp1].
    destruct (PronationData_init_total second Hlen2) as [p2 Hp2].
    exists p2. split; [exact Hp2|].
    rewrite (init_pronation first o p1 H1 Hp1). unfold final. cbn [fst snd].
    rewrite (init_pronation second _ p2 H2 Hp2). reflexivity.
Qed.

Lemma StepAnalysisData_dedup_against_last_payload_witness :
  StepCount.gait (step_count session_after_first_step) = 1 /\
  emitted (StepAnalysisData.init gait_walk_payload
             (final (StepAnalysisData.init gait_payload_count0
                       session_after_first_step)))
  = [got_gait gait_walk_decoded].
Proof.
  split; [reflexivity|].
  destruct (StepAnalysisData_dedup_against_last_payload
              gait_payload_count0 gait_walk_payload session_after_first_step)
    as [H _]; [simpl; lia | simpl; lia |].
  destruct (H eq_refl eq_refl) as [g [Hg He]].
  rewrite He. vm_compute in Hg. injection Hg as <-. reflexivity.
Defined.

Ltac finish_frame :=
  split; [reflexivity|];
  split; [repeat split|];
  split; [intros ? He; discriminate He|];
  intros ? [= <-];
  repeat split; try reflexivity; try congruence; repeat constructor.

(** Whatever the payload, the step-analysis decoder touches nothing of the
    session but the stored step count of the category that byte 1 selects,
    and every event it emits belongs to that category. *)
Theorem StepAnalysisData_changes_one_count (data : list byte) (o : Orphe) :
  let r := StepAnalysisData.init data o in
  serial_number_prev (final r) = serial_number_prev o /\
  same_connection o (final r) /\
  (forall e, getitem data 1 = Raise e ->
     r = ([], o, Raise IndexError)) /\
  (forall sub, getitem data 1 = Ok sub ->
     (sub <> 0 ->
      StepCount.gait (step_count (final r)) = StepCount.gait (step_count o)) /\
     (sub <> 1 ->
      StepCount.stride (step_count (final r))
      = StepCount.stride (step_count o)) /\
     (sub <> 2 ->
      StepCount.pronation (step_count (final r))
      = StepCount.pronation (step_count o)) /\
     (sub <> 4 ->
      StepCount.quat (step_count (final r)) = StepCount.quat (step_count o)) /\
     Forall (fun ev => event_category ev = Some sub) (emitted r)).
Proof.
  intros r. unfold r, StepAnalysisData.init, same_connection.
  destruct (getitem data 1) as [sub|e] eqn:Hsub.
  - rewrite (bind_run _ _ _ _ _ _ (lift_Ok _ _ o eq_refl)). cbv beta.
    unfold emitted, final, outcome, bind, last_step_count, lift, call, ret,
      store_step_count, modify.
    destruct (Z.eqb_spec sub 0) as [->|N0];
      [|destruct (Z.eqb_spec sub 1) as [->|N1];
        [|destruct (Z.eqb_spec sub 2) as [->|N2];
          [|destruct (Z.eqb_spec sub 4) as [->|N4]]]].
    + destruct (_ <? _); [destruct (GaitData.init data)|];
        [destruct (got_gait_callback (callbacks o))| |];
        cbn [fst snd app];
        finish_frame.
    + destruct (_ <? _); [destruct (StrideData.init data)|];
        [destruct (got_stride_callback (callbacks o))| |];
        cbn [fst snd app];
        finish_frame.
    + destruct (_ <? _); [destruct (PronationData.init data)|];
        [destruct (got_pronation_callback (callbacks o))| |];
        cbn [fst snd app];
        finish_frame.
    + destruct (QuatDistanceData.init data);
        [destruct (got_quat_distance_callback (callbacks o))|];
        cbn [fst snd app];
        finish_frame.
    + cbn [fst snd]. finish_frame.
  - apply getitem_raises in Hsub. subst e.
    unfold bind, lift. cbn [fst snd final].
    split; [reflexivity|]. split; [repeat split|].
    split; [reflexivity|]. intros s Hs. discriminate Hs.
Qed.

(** ** What the sensor-stream decoder emits, for every input *)

Section EmitsOnly.

Variable P : Event -> Prop.

Lemma emits_only_ret {A} (a : A) : emits_only P (ret a).
Proof. intros o. split; [reflexivity | constructor]. Qed.

Lemma emits_only_call (slot : Callbacks -> bool) (ev : Event) :
  P ev -> emits_only P (call slot ev).
Proof.
  intros H o. unfold call, final, emitted. cbn [fst snd].
  split; [reflexivity|]. destruct (slot (callbacks o)); repeat constructor.
  exact H.
Qed.

Lemma emits_only_bind {A B} (m : M A) (f : A -> M B) :
  emits_only P m -> (forall a, emits_only P (f a)) ->
  emits_only P (bind m f).
Proof.
  intros Hm Hf o. specialize (Hm o). unfold bind.
  destruct (m o) as [[e1 o1] [a|e]]; unfold final, emitted in *;
    cbn [fst snd] in *; destruct Hm as [-> H1].
  - specialize (Hf a o). destruct (f a o) as [[e2 o2] r].
    unfold final, emitted in Hf. cbn [fst snd] in Hf |- *.
    destruct Hf as [-> H2].
    split; [reflexivity|]. apply Forall_app. auto.
  - auto.
Qed.

Lemma emits_only_bind_lift {A B} (r : Outcome A) (f : A -> M B) :
  (forall a, r = Ok a -> emits_only P (f a)) ->
  emits_only P (bind (lift r) f).
Proof.
  intros Hf o. unfold bind, lift. destruct r as [a|e].
  - specialize (Hf a eq_refl o). destruct (f a o) as [[e2 o2] r2].
    exact Hf.
  - split; [reflexivity | constructor].
Qed.

Lemma emits_only_for_each {A S} (idxs : list A) (body : A -> S -> M S) :
  (forall i s, emits_only P (body i s)) ->
  forall s, emits_only P (for_each idxs body s).
Proof.
  intros Hbody. induction idxs as [|i idxs IH]; intros s.
  - apply emits_only_ret.
  - cbn [for_each]. apply emits_only_bind; [apply Hbody | exact IH].
Qed.

End EmitsOnly.

Lemma from_bytes_unsigned_16 (bs : list byte) :
  (length bs <= 2)%nat -> 0 <= from_bytes_unsigned bs <= 65535.
Proof.
  intros H. destruct bs as [|h [|l [|x bs]]]; unfold Py.from_bytes_unsigned;
    cbn [fold_left]; cbn [length] in H; try lia.
  - pose proof (b2z_range h). lia.
  - pose proof (b2z_range h). pose proof (b2z_range l). lia.
Qed.

Lemma from_bytes_unsigned_8 (bs : list byte) :
  (length bs <= 1)%nat -> 0 <= from_bytes_unsigned bs <= 255.
Proof.
  intros H. destruct bs as [|h [|l bs]]; unfold Py.from_bytes_unsigned;
    cbn [fold_left]; cbn [length] in H; try lia.
  pose proof (b2z_range h). lia.
Qed.

Lemma from_bytes_signed_16 (bs : list byte) :
  (length bs <= 2)%nat -> -32768 <= from_bytes_signed bs < 32768.
Proof.
  intros H. destruct bs as [|h [|l [|x bs]]]; cbn [length] in H; try lia.
  - vm_compute. split; [discriminate | reflexivity].
  - pose proof (b2z_range h) as Hh.
    unfold from_bytes_signed, Py.from_bytes_unsigned. cbn [fold_left length].
    change (8 * Z.of_nat 1) with 8. change (0 <? 8) with true.
    change (2 ^ (8 - 1)) with 128. change (2 ^ 8) with 256.
    cbn [andb]. cbv zeta.
    destruct (Z.leb_spec 128 (0 * 256 + b2z h)); lia.
  - apply from_bytes_signed_int16.
Qed.

Lemma normalized_within (data : list byte) (lo hi : nat) :
  (hi - lo <= 2)%nat -> within 1 (normalized data lo hi).
Proof.
  intros H. unfold normalized, truediv, within.
  pose proof (from_bytes_signed_16 (slice data lo hi)) as Hk.
  rewrite slice_length_min in Hk. specialize (Hk ltac:(lia)).
  rewrite Qred_correct. unfold Qle, Qlt. cbn [Qnum Qden inject_Z Qopp].
  lia.
Qed.

Lemma fmul_within (q : Q) (amp bound : Z) :
  within 1 q -> 0 < amp <= bound -> within bound (fmul q amp).
Proof.
  destruct q as [n d]. unfold within, fmul. intros [Hlo Hhi] Hamp.
  rewrite Qred_correct.
  unfold Qle, Qlt, Qmult in *. cbn [Qnum Qden inject_Z Qopp] in *.
  rewrite Pos.mul_1_r. nia.
Qed.

Lemma list_index_In (l : list Z) (i v : Z) :
  list_index l i = Ok v -> In v l.
Proof.
  unfold list_index.
  destruct ((0 <=? _) && _); [|discriminate].
  destruct (nth_error l _) as [x|] eqn:E; [|discriminate].
  intros [= <-]. eapply nth_error_In, E.
Qed.

Lemma pressure_values_in_range (data : list byte) (lo : nat) :
  length (pressure_values data lo) = 6%nat /\
  Forall (fun v => 0 <= v <= 65535) (pressure_values data lo).
Proof.
  unfold pressure_values. split; [reflexivity|].
  apply Forall_map, Forall_forall. intros j _.
  apply from_bytes_unsigned_16. rewrite slice_length_min. lia.
Qed.

Lemma amp_acc_range (idx amp : Z) :
  list_index [2; 4; 8; 16] idx = Ok amp -> 0 < amp <= 16.
Proof.
  intros H. apply list_index_In in H. cbn [In] in H.
  destruct H as [<- | [<- | [<- | [<- | []]]]]; lia.
Qed.

Lemma amp_gyro_range (idx amp : Z) :
  list_index [250; 500; 1000; 2000] idx = Ok amp -> 0 < amp <= 2000.
Proof.
  intros H. apply list_index_In in H. cbn [In] in H.
  destruct H as [<- | [<- | [<- | [<- | []]]]]; lia.
Qed.

Ltac sound_event :=
  split; [reflexivity|];
  cbn [sample_in_range AccData.x AccData.y AccData.z
       GyroData.x GyroData.y GyroData.z
       QuatData.w QuatData.x QuatData.y QuatData.z PressureData.values];
  first
    [ apply pressure_values_in_range
    | repeat split;
      first [ apply normalized_within; lia
            | apply fmul_within; [apply normalized_within; lia | assumption] ] ].

Ltac sound_calls :=
  repeat (apply emits_only_bind;
          [apply emits_only_call; sound_event | intros _]);
  apply emits_only_ret.

Lemma next_step_emits_nothing (P : Event -> Prop) (data : list byte)
    (i k : nat) (ts : Z) :
  emits_only P (if Nat.eqb i 3 then ret ts
                else delta <- lift (getitem data k) ;; ret (ts + delta)).
Proof.
  destruct (Nat.eqb i 3); [apply emits_only_ret|].
  apply emits_only_bind_lift. intros delta _. apply emits_only_ret.
Qed.

Lemma slot50_sound (data : list byte) (range : Range.t) (serial : Z)
    (i : nat) (st : Z * SensorValuesData.t) :
  emits_only (sound_sample serial)
             (SensorValuesData.slot50 data range serial i st).
Proof.
  destruct st as [ts self]. unfold SensorValuesData.slot50. cbv zeta.
  apply emits_only_bind_lift. intros amp_a Ha%amp_acc_range.
  apply emits_only_bind_lift. intros amp_g Hg%amp_gyro_range.
  apply emits_only_bind; [apply next_step_emits_nothing|]. intros ts'.
  sound_calls.
Qed.

Lemma slot55_sound (data : list byte) (range : Range.t) (serial : Z)
    (i : nat) (st : Z * SensorValuesData.t) :
  emits_only (sound_sample serial)
             (SensorValuesData.slot55 data range serial i st).
Proof.
  destruct st as [ts self]. unfold SensorValuesData.slot55. cbv zeta.
  apply emits_only_bind_lift. intros amp_a Ha%amp_acc_range.
  apply emits_only_bind_lift. intros amp_g Hg%amp_gyro_range.
  apply emits_only_bind; [apply next_step_emits_nothing|]. intros ts'.
  sound_calls.
Qed.

Lemma slot56_sound (data : list byte) (range : Range.t) (serial : Z)
    (i : nat) (st : Z * SensorValuesData.t) :
  emits_only (sound_sample serial)
             (SensorValuesData.slot56 data range serial i st).
Proof.
  destruct st as [ts self]. unfold SensorValuesData.slot56. cbv zeta.
  apply emits_only_bind_lift. intros amp_a Ha%amp_acc_range.
  apply emits_only_bind_lift. intros amp_g Hg%amp_gyro_range.
  sound_calls.
Qed.

Lemma header_then (P : Event -> Prop) {B} (now : datetime) (data : list byte)
    (f : Z * Z * Z -> M B) :
  (forall type base, emits_only P (f (type, serial_of data, base))) ->
  emits_only P (bind (SensorValuesData.header now data) f).
Proof.
  intros Hf o. unfold bind. rewrite header_eq.
  destruct (base_timestamp now data) as [base|e]; cbn [obind].
  - specialize (Hf (from_bytes_unsigned (slice data 0 1)) base o).
    destruct (f _ o) as [[e2 o2] r]. exact Hf.
  - split; [reflexivity | constructor].
Qed.

Lemma SensorValuesData_init_sound
    (now : datetime) (data : list byte) (range : Range.t) :
  emits_only (sound_sample (serial_of data))
             (SensorValuesData.init now data range).
Proof.
  unfold SensorValuesData.init.
  apply emits_only_bind_lift. intros tag _.
  destruct (tag =? 50); [|destruct (tag =? 55); [|destruct (tag =? 56)]].
  - apply header_then. intros type base.
    apply emits_only_bind; [|intros st; apply emits_only_ret].
    apply emits_only_for_each. intros i s. apply slot50_sound.
  - apply header_then. intros type base.
    apply emits_only_bind; [|intros st; apply emits_only_ret].
    apply emits_only_for_each. intros i s. apply slot55_sound.
  - apply header_then. intros type base.
    apply emits_only_bind; [|intros st; apply emits_only_ret].
    apply emits_only_for_each. intros i s. apply slot56_sound.
  - apply emits_only_ret.
Qed.

(** For every payload, sensor range and session, the decoder leaves the
    session as it found it, and every event it emits (also before an
    exception) is a sample event that carries the serial number of bytes
    1..2 and values in range: raw components in [-1, 1), converted
    accelerations within 16 g and angular rates within 2000 deg/s in
    magnitude, six pressure values of 16 bits. *)
Theorem SensorValuesData_emits_sound_samples
    (now : datetime) (data : list byte) (range : Range.t) (o : Orphe) :
  final (SensorValuesData.init now data range o) = o /\
  Forall (sound_sample (serial_of data))
         (emitted (SensorValuesData.init now data range o)).
Proof. apply SensorValuesData_init_sound. Qed.

Section Returns.

Context {A B : Type}.

Lemma returns_bind (Q : B -> Prop) (m : M A) (f : A -> M B) :
  (forall a, returns Q (f a)) -> returns Q (bind m f).
Proof.
  intros Hf o b. unfold bind, outcome.
  destruct (m o) as [[e1 o1] [a|e]]; cbn [snd]; [|discriminate].
  specialize (Hf a o1 b). unfold outcome in Hf.
  destruct (f a o1) as [[e2 o2] r]. exact Hf.
Qed.

Lemma returns_ret (Q : A -> Prop) (a : A) : Q a -> returns Q (ret a).
Proof. intros H o b [= <-]. exact H. Qed.

End Returns.

Lemma returns_for_each {I S} (Q : S -> Prop) (idxs : list I)
    (body : I -> S -> M S) :
  (forall i s, Q s -> returns Q (body i s)) ->
  forall s, Q s -> returns Q (for_each idxs body s).
Proof.
  intros Hbody. induction idxs as [|i idxs IH]; intros s Hs.
  - now apply returns_ret.
  - cbn [for_each]. intros o b. unfold bind, outcome.
    specialize (Hbody i s Hs o). unfold outcome in Hbody.
    destruct (body i s o) as [[e1 o1] [s1|e]]; cbn [snd] in *;
      [|discriminate].
    specialize (IH s1 (Hbody s1 eq_refl) o1 b). unfold outcome in IH.
    destruct (for_each idxs body s1 o1) as [[e2 o2] r]. exact IH.
Qed.

Ltac keeps_header :=
  repeat (apply returns_bind; intros ?);
  apply returns_ret; assumption.

Lemma slot50_keeps_header (data data' : list byte) (range : Range.t)
    (serial : Z) (i : nat) (st : Z * SensorValuesData.t) :
  header_attributes data' (snd st) ->
  returns (fun st' => header_attributes data' (snd st'))
          (SensorValuesData.slot50 data range serial i st).
Proof.
  destruct st as [ts self]. intros H. unfold SensorValuesData.slot50.
  cbv zeta. keeps_header.
Qed.

Lemma slot55_keeps_header (data data' : list byte) (range : Range.t)
    (serial : Z) (i : nat) (st : Z * SensorValuesData.t) :
  header_attributes data' (snd st) ->
  returns (fun st' => header_attributes data' (snd st'))
          (SensorValuesData.slot55 data range serial i st).
Proof.
  destruct st as [ts self]. intros H. unfold SensorValuesData.slot55.
  cbv zeta. keeps_header.
Qed.

Lemma slot56_keeps_header (data data' : list byte) (range : Range.t)
    (serial : Z) (i : nat) (st : Z * SensorValuesData.t) :
  header_attributes data' (snd st) ->
  returns (fun st' => header_attributes data' (snd st'))
          (SensorValuesData.slot56 data range serial i st).
Proof.
  destruct st as [ts self]. intros H. unfold SensorValuesData.slot56.
  cbv zeta. keeps_header.
Qed.

Lemma loop_returns_header {I} (data : list byte) (idxs : list I)
    (body : I -> Z * SensorValuesData.t -> M (Z * SensorValuesData.t))
    (st : Z * SensorValuesData.t) :
  (forall i s, header_attributes data (snd s) ->
               returns (fun s' => header_attributes data (snd s')) (body i s)) ->
  header_attributes data (snd st) ->
  returns (header_attributes data)
          (s <- for_each idxs body st ;; ret (snd s)).
Proof.
  intros Hbody Hst o sv. unfold bind, outcome.
  pose proof (returns_for_each
                (fun s' => header_attributes data (snd s')) idxs body
                Hbody st Hst o) as H.
  unfold outcome in H.
  destruct (for_each idxs body st o) as [[e1 o1] [s1|e]]; cbn [snd] in *;
    [|discriminate].
  intros [= <-]. now apply H.
Qed.

(** When the decoder returns on a payload of tag 50, 55 or 56, the object
    holds the payload, its tag and the serial number of bytes 1..2. *)
Lemma SensorValuesData_init_header (now : datetime) (data : list byte)
    (range : Range.t) (o : Orphe) (tag : Z) (sv : SensorValuesData.t) :
  getitem data 0 = Ok tag ->
  tag = 50 \/ tag = 55 \/ tag = 56 ->
  outcome (SensorValuesData.init now data range o) = Ok sv ->
  header_attributes data sv.
Proof.
  intros Htag Hcases. unfold SensorValuesData.init.
  rewrite (bind_run _ _ _ _ _ _ (lift_Ok _ _ o Htag)). cbv beta.
  unfold outcome at 1. cbn [snd].
  destruct Hcases as [-> | [-> | ->]]; decide_tags;
    unfold bind at 1; rewrite header_eq;
    (destruct (base_timestamp now data) as [base|e]; cbn [obind];
     [|discriminate]).
  - match goal with
    | |- context [for_each ?idxs ?body ?st] =>
        pose proof (loop_returns_header data idxs body st
                      (fun i s => slot50_keeps_header data data range
                                    (serial_of data) i s)
                      (conj eq_refl (conj eq_refl eq_refl)) o sv) as H
    end.
    unfold outcome in H |- *.
    match type of H with
    | snd (?m o) = _ -> _ => destruct (m o) as [[e2 o2] r]
    end.
    exact H.
  - match goal with
    | |- context [for_each ?idxs ?body ?st] =>
        pose proof (loop_returns_header data idxs body st
                      (fun i s => slot55_keeps_header data data range
                                    (serial_of data) i s)
                      (conj eq_refl (conj eq_refl eq_refl)) o sv) as H
    end.
    unfold outcome in H |- *.
    match type of H with
    | snd (?m o) = _ -> _ => destruct (m o) as [[e2 o2] r]
    end.
    exact H.
  - match goal with
    | |- context [for_each ?idxs ?body ?st] =>
        pose proof (loop_returns_header data idxs body st
                      (fun i s => slot56_keeps_header data data range
                                    (serial_of data) i s)
                      (conj eq_refl (conj eq_refl eq_refl)) o sv) as H
    end.
    unfold outcome in H |- *.
    match type of H with
    | snd (?m o) = _ -> _ => destruct (m o) as [[e2 o2] r]
    end.
    exact H.
Qed.

Lemma run_eta {A} (r : list Event * Orphe * Outcome A) :
  (emitted r, final r, outcome r) = r.
Proof. now destruct r as [[e o] x]. Qed.

Lemma losses_sound (serial : Z) (evs : list Event) :
  Forall (sound_sample serial) evs -> losses evs = [].
Proof.
  induction 1 as [|e evs [He _] _ IH]; [reflexivity|].
  destruct e; cbn [losses]; try exact IH. discriminate He.
Qed.

Lemma device_information_range_missing (o : Orphe) :
  device_information o = None ->
  device_information_range o = ([], o, Raise AttributeError).
Proof.
  intros H. unfold device_information_range, bind, owner. rewrite H.
  reflexivity.
Qed.

(** The effects of one sensor-values notification, for every payload and
    session.  The handler changes nothing of the session except the stored
    serial number, which it replaces by the packet's only in a run that
    returns normally.  Every event is a sound sample
    of the packet or the loss event; the loss callback is called at most
    once, with the stored serial number and the packet's, and only when the
    packet's exceeds the stored one by more than 1. *)
Theorem sensor_values_handler_effects
    (now : datetime) (data : list byte) (o : Orphe) :
  let r := sensor_values_notification_handler now data o in
  same_connection o (final r) /\
  step_count (final r) = step_count o /\
  (final r = o \/
   (outcome r = Ok tt /\
    final r = set_serial_number_prev (serial_of data) o)) /\
  Forall (fun e => sound_sample (serial_of data) e \/
                   e = lost_data (serial_number_prev o) (serial_of data))
         (emitted r) /\
  (losses (emitted r) = [] \/
   (losses (emitted r) = [(serial_number_prev o, serial_of data)] /\
    1 < serial_of data - serial_number_prev o /\
    outcome r = Ok tt)).
Proof.
  assert (Hquiet : forall (x : Outcome unit),
             let r : list Event * Orphe * Outcome unit := ([], o, x) in
             same_connection o (final r) /\
             step_count (final r) = step_count o /\
             (final r = o \/
              (outcome r = Ok tt /\
               final r = set_serial_number_prev (serial_of data) o)) /\
             Forall (fun e => sound_sample (serial_of data) e \/
                              e = lost_data (serial_number_prev o)
                                            (serial_of data))
                    (emitted r) /\
             (losses (emitted r) = [] \/
              (losses (emitted r) = [(serial_number_prev o, serial_of data)] /\
               1 < serial_of data - serial_number_prev o /\
               outcome r = Ok tt))).
  { intros x. cbn. repeat split; auto. }
  assert (Hsamples : forall evs (x : Outcome unit),
             Forall (sound_sample (serial_of data)) evs ->
             let r : list Event * Orphe * Outcome unit := (evs, o, x) in
             same_connection o (final r) /\
             step_count (final r) = step_count o /\
             (final r = o \/
              (outcome r = Ok tt /\
               final r = set_serial_number_prev (serial_of data) o)) /\
             Forall (fun e => sound_sample (serial_of data) e \/
                              e = lost_data (serial_number_prev o)
                                            (serial_of data))
                    (emitted r) /\
             (losses (emitted r) = [] \/
              (losses (emitted r) = [(serial_number_prev o, serial_of data)] /\
               1 < serial_of data - serial_number_prev o /\
               outcome r = Ok tt))).
  { intros evs x Hevs. cbn. repeat split; auto.
    - eapply Forall_impl; [|exact Hevs]. auto.
    - left. eapply losses_sound, Hevs. }
  cbv zeta. unfold sensor_values_notification_handler,
    sensor_values_notification_handler_with.
  rewrite (bind_run _ _ _ _ _ _ (owner_run o)). cbn [app]. rewrite run_eta.
  destruct (is_connected o); cbn [negb]; [|apply Hquiet].
  destruct (getitem data 0) as [tag|e] eqn:Htag;
    [|rewrite (bind_raise _ _ _ _ _ _ (eq_refl : lift (Raise e) o = _));
      apply Hquiet].
  rewrite (bind_run _ _ _ _ _ _ (lift_Ok _ _ o eq_refl)). cbn [app].
  rewrite run_eta.
  assert (Hinit : forall range,
             exists evs x,
               SensorValuesData.init now data range o = (evs, o, x) /\
               Forall (sound_sample (serial_of data)) evs).
  { intros range.
    destruct (SensorValuesData_init_sound now data range o) as [Hf He].
    destruct (SensorValuesData.init now data range o) as [[evs o1] x].
    unfold final, emitted in Hf, He. cbn [fst snd] in Hf, He. subst o1.
    eauto. }
  destruct ((tag =? 50) || (tag =? 55) || (tag =? 56)) eqn:Hset.
  - assert (Hcases : tag = 50 \/ tag = 55 \/ tag = 56).
    { apply orb_true_iff in Hset. destruct Hset as [Hset|Hset];
        [apply orb_true_iff in Hset; destruct Hset as [Hset|Hset]|];
        apply Z.eqb_eq in Hset; auto. }
    destruct (device_information o) as [di|] eqn:Hdi;
      [|rewrite (bind_raise _ _ _ _ _ _
                   (device_information_range_missing o Hdi));
        apply Hquiet].
    rewrite (bind_run _ _ _ _ _ _ (device_information_range_run o di Hdi)).
    cbn [app]. rewrite run_eta.
    destruct (Hinit (DeviceInformation.range di)) as (evs & x & Einit & Hevs).
    destruct x as [sv|e];
      [|rewrite (bind_raise _ _ _ _ _ _ Einit); now apply Hsamples].
    pose proof (SensorValuesData_init_header now data
                  (DeviceInformation.range di) o tag sv Htag Hcases) as Hh.
    rewrite Einit in Hh. destruct (Hh eq_refl) as (_ & _ & Hserial).
    rewrite (bind_run _ _ _ _ _ _ Einit). rewrite Hserial.
    unfold attr, bind, ret, owner, call_user, record, modify, emitted, final,
        outcome.
    cbn [fst snd app].
    destruct (Z.ltb_spec 1 (serial_of data - serial_number_prev o)) as [Hgap|Hgap];
      [destruct (lost_data_callback (callbacks o))|];
      cbn [fst snd app]; rewrite ?app_nil_r;
      (split; [repeat split|]); (split; [reflexivity|]);
      (split; [right; split; reflexivity|]).
    + split.
      * apply Forall_app. split;
          [|constructor; [right; reflexivity | constructor]].
        eapply Forall_impl; [|exact Hevs]. auto.
      * right. rewrite losses_app, (losses_sound _ _ Hevs). auto.
    + split; [eapply Forall_impl; [|exact Hevs]; auto|].
      left. eapply losses_sound, Hevs.
    + split; [eapply Forall_impl; [|exact Hevs]; auto|].
      left. eapply losses_sound, Hevs.
  - destruct (tag =? 40); [|apply Hquiet].
    destruct (device_information o) as [di|] eqn:Hdi;
      [|rewrite (bind_raise _ _ _ _ _ _
                   (device_information_range_missing o Hdi));
        apply Hquiet].
    rewrite (bind_run _ _ _ _ _ _ (device_information_range_run o di Hdi)).
    cbn [app]. rewrite run_eta.
    destruct (Hinit (DeviceInformation.range di)) as (evs & x & Einit & Hevs).
    destruct x as [sv|e];
      [rewrite (bind_run _ _ _ _ _ _ Einit)
      |rewrite (bind_raise _ _ _ _ _ _ Einit)];
      unfold ret, emitted, final, outcome; cbn [fst snd];
      rewrite ?app_nil_r; now apply Hsamples.
Qed.

(** ** Sensor notifications on sessions and packets out of the ordinary *)

(** On a connected session that has not read the device information, a
    notification of tag 40, 50, 55 or 56 raises [AttributeError] before the
    decoder runs (no callback, session unchanged), while a payload of any
    other tag is still ignored without error. *)
Theorem sensor_values_before_configuration
    (now : datetime) (data : list byte) (o : Orphe) (tag : Z) :
  is_connected o = true ->
  device_information o = None ->
  getitem data 0 = Ok tag ->
  sensor_values_notification_handler now data o
  = ([], o,
     if (tag =? 40) || (tag =? 50) || (tag =? 55) || (tag =? 56)
     then Raise AttributeError else Ok tt).
Proof.
  intros Hconn Hdi Htag. unfold sensor_values_notification_handler,
    sensor_values_notification_handler_with.
  rewrite (bind_run _ _ _ _ _ _ (owner_run o)). cbn [app]. rewrite run_eta.
  rewrite Hconn. cbn [negb].
  rewrite (bind_run _ _ _ _ _ _ (lift_Ok _ _ o Htag)). cbn [app].
  rewrite run_eta.
  destruct (tag =? 50), (tag =? 55), (tag =? 56), (tag =? 40); cbn [orb];
    try (rewrite (bind_raise _ _ _ _ _ _
                    (device_information_range_missing o Hdi)));
    reflexivity.
Qed.

Lemma sensor_values_before_configuration_witness :
  sensor_values_notification_handler epoch_day packet56 unconfigured_session
  = ([], unconfigured_session, Raise AttributeError).
Proof.
  apply (sensor_values_before_configuration epoch_day packet56
           unconfigured_session 56); reflexivity.
Defined.

Lemma list_index_raises (l : list Z) (i : Z) (e : exn) :
  list_index l i = Raise e -> e = IndexError.
Proof.
  unfold list_index. destruct ((0 <=? _) && _); [|congruence].
  destruct (nth_error l _); congruence.
Qed.

Lemma list_index_out_of_range (l : list Z) (i : Z) :
  i < - Z.of_nat (length l) \/ Z.of_nat (length l) <= i ->
  list_index l i = Raise IndexError.
Proof.
  intros H. unfold list_index.
  destruct (Z.ltb_spec i 0);
    (replace ((0 <=? _) && (_ <? Z.of_nat (length l))) with false;
     [reflexivity|]);
    symmetry; apply andb_false_iff;
    rewrite Z.leb_gt, Z.ltb_ge; lia.
Qed.

Section BadRange.

Variables (data : list byte) (range : Range.t) (serial : Z) (i : nat).
Variables (st : Z * SensorValuesData.t) (o : Orphe).
Hypothesis Hrange :
  list_index [2; 4; 8; 16] (Range.acc range) = Raise IndexError \/
  list_index [250; 500; 1000; 2000] (Range.gyro range) = Raise IndexError.

Ltac bad_range :=
  destruct st as [ts self]; unfold bind, lift;
  destruct (list_index [2; 4; 8; 16] (Range.acc range)) as [amp|e] eqn:Ea;
    [destruct Hrange as [H|H]; [discriminate H | now rewrite H]
    |apply list_index_raises in Ea; now subst].

Lemma slot50_bad_range :
  SensorValuesData.slot50 data range serial i st o = ([], o, Raise IndexError).
Proof. unfold SensorValuesData.slot50. bad_range. Qed.

Lemma slot55_bad_range :
  SensorValuesData.slot55 data range serial i st o = ([], o, Raise IndexError).
Proof. unfold SensorValuesData.slot55. bad_range. Qed.

Lemma slot56_bad_range :
  SensorValuesData.slot56 data range serial i st o = ([], o, Raise IndexError).
Proof. unfold SensorValuesData.slot56. bad_range. Qed.

End BadRange.

Lemma header_Ok (now : datetime) (data : list byte) (o : Orphe) (base : Z) :
  base_timestamp now data = Ok base ->
  SensorValuesData.header now data o
  = ([], o, Ok (from_bytes_unsigned (slice data 0 1), serial_of data, base)).
Proof. intros H. now rewrite header_eq, H. Qed.

(** A range index outside the four-entry tables (as read from the device it
    is a byte, so 4 to 255) makes the decoder raise [IndexError] in the first
    loop iteration of a packet of tag 50, 55 or 56 whose header is valid: no
    callback is called. *)
Theorem SensorValuesData_range_index_out_of_table
    (now : datetime) (data : list byte) (range : Range.t) (o : Orphe)
    (tag base : Z) :
  getitem data 0 = Ok tag ->
  tag = 50 \/ tag = 55 \/ tag = 56 ->
  base_timestamp now data = Ok base ->
  4 <= Range.acc range \/ 4 <= Range.gyro range ->
  SensorValuesData.init now data range o = ([], o, Raise IndexError).
Proof.
  intros Htag Hcases Hbase Hidx.
  assert (Hrange :
            list_index [2; 4; 8; 16] (Range.acc range) = Raise IndexError \/
            list_index [250; 500; 1000; 2000] (Range.gyro range)
            = Raise IndexError).
  { destruct Hidx; [left | right]; apply list_index_out_of_range;
      cbn [length]; lia. }
  unfold SensorValuesData.init.
  rewrite (bind_run _ _ _ _ _ _ (lift_Ok _ _ o Htag)). cbn [app].
  rewrite run_eta.
  destruct Hcases as [-> | [-> | ->]]; cbv beta; decide_tags;
    rewrite (bind_run _ _ _ _ _ _ (header_Ok now data o base Hbase));
    cbn [app]; rewrite run_eta; cbv beta iota; rewrite for_each_cons.
  - rewrite (bind_raise _ _ _ _ _ _
               (bind_raise _ _ _ _ _ _
                  (slot50_bad_range data range _ _ _ o Hrange))).
    reflexivity.
  - rewrite (bind_raise _ _ _ _ _ _
               (bind_raise _ _ _ _ _ _
                  (slot55_bad_range data range _ _ _ o Hrange))).
    reflexivity.
  - rewrite (bind_raise _ _ _ _ _ _
               (bind_raise _ _ _ _ _ _
                  (slot56_bad_range data range _ _ _ o Hrange))).
    reflexivity.
Qed.

Lemma SensorValuesData_range_index_out_of_table_witness :
  SensorValuesData.init epoch_day packet56 (Range.mk 4 0) connected_session
  = ([], connected_session, Raise IndexError).
Proof.
  apply (SensorValuesData_range_index_out_of_table epoch_day packet56
           (Range.mk 4 0) connected_session 56 3723009);
    [reflexivity | auto | reflexivity | left; simpl; lia].
Defined.

Lemma lor_shiftl_8 (high low : Z) :
  0 <= low < 256 -> Z.lor (Z.shiftl high 8) low = high * 256 + low.
Proof.
  intros H.
  assert (Hdisjoint : Z.land (Z.shiftl high 8) low = 0).
  { apply Z.bits_inj'. intros n Hn.
    rewrite Z.land_spec, Z.bits_0.
    destruct (Z.ltb_spec n 8) as [Hlt|Hge].
    - rewrite Z.shiftl_spec_low by exact Hlt. reflexivity.
    - assert (Hlow : Z.testbit low n = false).
      { destruct (Z.eq_dec low 0) as [->|Hnz]; [apply Z.bits_0|].
        apply Z.bits_above_log2; [lia|].
        assert (Z.log2 low < 8) by (apply Z.log2_lt_pow2; lia). lia. }
      rewrite Hlow. apply andb_false_r. }
  rewrite <- Z.lxor_lor by exact Hdisjoint.
  rewrite <- Z.add_nocarry_lxor by exact Hdisjoint.
  rewrite Z.shiftl_mul_pow2 by lia. reflexivity.
Qed.

(** The header's time of day decides whether a packet of tag 50, 55 or 56 is
    decoded at all: with hour < 24, minute < 60, second < 60 and the 16-bit
    millisecond field below 1000 the base timestamp is the host's epoch
    value for that time of day; otherwise [to_timestamp] raises [ValueError]
    and the decoder stops before any callback. *)
Theorem SensorValuesData_time_of_day
    (now : datetime) (data : list byte) (range : Range.t) (o : Orphe)
    (tag h m s ms_high ms_low : Z) :
  getitem data 0 = Ok tag ->
  tag = 50 \/ tag = 55 \/ tag = 56 ->
  getitem data 3 = Ok h -> getitem data 4 = Ok m ->
  getitem data 5 = Ok s -> getitem data 6 = Ok ms_high ->
  getitem data 7 = Ok ms_low ->
  let ms := ms_high * 256 + ms_low in
  (h < 24 /\ m < 60 /\ s < 60 /\ ms < 1000 ->
   base_timestamp now data = Ok (epoch_ms now h m s (ms * 1000))) /\
  (~ (h < 24 /\ m < 60 /\ s < 60 /\ ms < 1000) ->
   SensorValuesData.init now data range o = ([], o, Raise ValueError)).
Proof.
  intros Htag Hcases H3 H4 H5 H6 H7 ms.
  destruct (getitem_Ok_lt _ _ _ H3) as [_ Bh].
  destruct (getitem_Ok_lt _ _ _ H4) as [_ Bm].
  destruct (getitem_Ok_lt _ _ _ H5) as [_ Bs].
  destruct (getitem_Ok_lt _ _ _ H6) as [_ Bhi].
  destruct (getitem_Ok_lt _ _ _ H7) as [_ Blo].
  assert (Hbase : base_timestamp now data
                  = to_timestamp now h m s ms_high ms_low).
  { unfold base_timestamp. now rewrite H3, H4, H5, H6, H7. }
  assert (Hto : to_timestamp now h m s ms_high ms_low
                = if (h <? 24) && (m <? 60) && (s <? 60) && (ms <? 1000)
                  then Ok (epoch_ms now h m s (ms * 1000))
                  else Raise ValueError).
  { unfold to_timestamp. rewrite (lor_shiftl_8 ms_high ms_low Blo).
    fold ms.
    replace (0 <=? h) with true by (symmetry; apply Z.leb_le; lia).
    replace (0 <=? m) with true by (symmetry; apply Z.leb_le; lia).
    replace (0 <=? s) with true by (symmetry; apply Z.leb_le; lia).
    replace (0 <=? ms * 1000) with true
      by (symmetry; apply Z.leb_le; unfold ms; lia).
    replace (ms * 1000 <? 1000000) with (ms <? 1000)
      by (destruct (Z.ltb_spec ms 1000), (Z.ltb_spec (ms * 1000) 1000000);
          try reflexivity; lia).
    cbn [andb]. rewrite !andb_true_r. reflexivity. }
  split.
  - intros (Hh & Hm & Hs & Hms). rewrite Hbase, Hto.
    apply Z.ltb_lt in Hh, Hm, Hs, Hms. now rewrite Hh, Hm, Hs, Hms.
  - intros Hbad.
    assert (Hraise : base_timestamp now data = Raise ValueError).
    { rewrite Hbase, Hto.
      destruct (Z.ltb_spec h 24), (Z.ltb_spec m 60), (Z.ltb_spec s 60),
        (Z.ltb_spec ms 1000); try reflexivity.
      exfalso. apply Hbad. auto. }
    assert (Hheader : SensorValuesData.header now data o
                      = ([], o, Raise ValueError))
      by (now rewrite header_eq, Hraise).
    unfold SensorValuesData.init.
    rewrite (bind_run _ _ _ _ _ _ (lift_Ok _ _ o Htag)). cbn [app].
    rewrite run_eta.
    destruct Hcases as [-> | [-> | ->]]; cbv beta; decide_tags;
      rewrite (bind_raise _ _ _ _ _ _ Hheader); reflexivity.
Qed.

Lemma SensorValuesData_time_of_day_witness :
  base_timestamp epoch_day packet50 = Ok 3723009 /\
  SensorValuesData.init epoch_day packet50_bad_milliseconds (Range.mk 0 3)
                        connected_session
  = ([], connected_session, Raise ValueError).
Proof.
  split.
  - destruct (SensorValuesData_time_of_day epoch_day packet50 (Range.mk 0 3)
                connected_session 50 1 2 3 0 9)
      as [H _];
      [reflexivity | auto | reflexivity | reflexivity | reflexivity
      | reflexivity | reflexivity |].
    rewrite H; [reflexivity | lia].
  - destruct (SensorValuesData_time_of_day epoch_day
                packet50_bad_milliseconds (Range.mk 0 3)
                connected_session 50 1 2 3 3 232)
      as [_ H];
      [reflexivity | auto | reflexivity | reflexivity | reflexivity
      | reflexivity | reflexivity |].
    apply H. lia.
Defined.

(** ** Well-formed packets *)

Lemma stamps_length_sound (serial : Z) (evs : list Event) :
  Forall (sound_sample serial) evs -> length (stamps evs) = length evs.
Proof.
  induction 1 as [|e evs [He _] _ IH]; [reflexivity|].
  destruct e; cbn [stamps stamp length]; try (now rewrite IH);
    discriminate He.
Qed.

Lemma sorted_repeat_app (a : Z) (n : nat) (l : list Z) :
  StronglySorted Z.le l -> Forall (Z.le a) l ->
  StronglySorted Z.le (repeat a n ++ l).
Proof.
  intros Hl Ha. induction n as [|n IH]; [exact Hl|].
  cbn [repeat app]. constructor; [exact IH|].
  apply Forall_app. split; [|exact Ha].
  apply Forall_forall. intros x Hx. apply repeat_spec in Hx. subst. lia.
Qed.

Lemma sorted_repeat (a : Z) (n : nat) : StronglySorted Z.le (repeat a n).
Proof.
  rewrite <- (app_nil_r (repeat a n)).
  apply sorted_repeat_app; constructor.
Qed.

Lemma Forall_repeat {A} (P : A -> Prop) (a : A) (n : nat) :
  P a -> Forall P (repeat a n).
Proof.
  intros H. apply Forall_forall. intros x Hx.
  apply repeat_spec in Hx. now subst.
Qed.

(** The trace of a well-formed packet, slot by slot. *)
Lemma well_formed_stamps (now : datetime) (data : list byte)
    (range : Range.t) (o : Orphe) (tag : Z) :
  well_formed now data ->
  0 <= Range.acc range <= 3 ->
  0 <= Range.gyro range <= 3 ->
  getitem data 0 = Ok tag ->
  exists evs sv base t1 t2 t3,
    base_timestamp now data = Ok base /\
    SensorValuesData.init now data range o = (evs, o, Ok sv) /\
    base <= t1 <= t2 /\ t2 <= t3 /\
    let n := count_set (callbacks_of tag) (callbacks o) in
    stamps evs
    = repeat (0, base) n ++ repeat (1, t1) n
      ++ (if tag =? 56 then []
          else repeat (2, t2) n ++ repeat (3, t3) n).
Proof.
  intros [[tag' [Htag' [Hcases Hlen]]] [base Hbase]] Ha Hg Htag.
  assert (tag' = tag) by congruence. subst tag'.
  destruct (list_index_in_range [2; 4; 8; 16] (Range.acc range))
    as [amp_a Hacc]; [simpl; lia|].
  destruct (list_index_in_range [250; 500; 1000; 2000] (Range.gyro range))
    as [amp_g Hgyro]; [simpl; lia|].
  pose proof (header_Ok now data o base Hbase) as Hheader.
  destruct Hcases as [-> | [-> | ->]].
  - change (documented_length 50) with 92%nat in Hlen.
    destruct (getitem_lt data 70) as [d2 [H2 B2]]; [lia|].
    destruct (getitem_lt data 49) as [d1 [H1 B1]]; [lia|].
    destruct (getitem_lt data 28) as [d0 [H0 B0]]; [lia|].
    destruct (init50_run now data range o _ _ base amp_a amp_g
                Hheader Hacc Hgyro d2 d1 d0 Htag H2 H1 H0)
      as (evs & sv & E & St & _).
    exists evs, sv, base, (base + d2), (base + d2 + d1),
      (base + d2 + d1 + d0).
    repeat split; try assumption; lia.
  - change (documented_length 55) with 104%nat in Hlen.
    destruct (getitem_lt data 76) as [d2 [H2 B2]]; [lia|].
    destruct (getitem_lt data 52) as [d1 [H1 B1]]; [lia|].
    destruct (getitem_lt data 28) as [d0 [H0 B0]]; [lia|].
    destruct (init55_run now data range o _ _ base amp_a amp_g
                Hheader Hacc Hgyro d2 d1 d0 Htag H2 H1 H0)
      as (evs & sv & E & St & _).
    exists evs, sv, base, (base + d2), (base + d2 + d1),
      (base + d2 + d1 + d0).
    repeat split; try assumption; lia.
  - destruct (init56_run now data range o _ _ base amp_a amp_g
                Hheader Hacc Hgyro Htag)
      as (evs & sv & E & St & _).
    exists evs, sv, base, base, base, base.
    repeat split; try assumption; try lia.
    cbn [callbacks_of]. change (56 =? 56) with true. cbv iota.
    rewrite app_nil_r. exact St.
Qed.

Lemma bind_Ok_inv {A B} (m : M A) (f : A -> M B) (o o' : Orphe)
    (evs : list Event) (b : B) :
  bind m f o = (evs, o', Ok b) ->
  exists e1 o1 a e2,
    m o = (e1, o1, Ok a) /\ f a o1 = (e2, o', Ok b) /\ evs = e1 ++ e2.
Proof.
  unfold bind. destruct (m o) as [[e1 o1] [a|e]]; [|discriminate].
  destruct (f a o1) as [[e2 o2] r] eqn:E. intros [= <- <- ->].
  exists e1, o1, a, e2. auto.
Qed.

(** A loop whose iterations leave the session alone calls what its
    iterations call, in turn. *)
Lemma for_each_calls {S} (calls : nat -> list (option (sample_callback * Z)))
    (body : nat -> S -> M S) (o : Orphe) :
  (forall i s evs o' s',
     body i s o = (evs, o', Ok s') -> o' = o /\ map call_of evs = calls i) ->
  forall idxs s evs o' s',
    for_each idxs body s o = (evs, o', Ok s') ->
    o' = o /\ map call_of evs = flat_map calls idxs.
Proof.
  intros Hbody. induction idxs as [|i idxs IH]; intros s evs o' s' H;
    cbn [for_each] in H.
  - unfold ret in H. injection H as <- <- <-. auto.
  - apply bind_Ok_inv in H. destruct H as (e1 & o1 & a & e2 & E1 & E2 & ->).
    apply Hbody in E1. destruct E1 as [-> C1].
    apply IH in E2. destruct E2 as [-> C2].
    split; [reflexivity|]. rewrite map_app, C1, C2. reflexivity.
Qed.

Ltac slot_calls o :=
  destruct (callbacks o) as [c1 c2 c3 c4 c5 c6 c7 c8 c9 c10 c11];
  simpl; destruct c1, c2, c3, c4, c5, c6; reflexivity.

Lemma slot50_calls (data : list byte) (range : Range.t) (serial : Z)
    (o : Orphe) (i : nat) (st : Z * SensorValuesData.t) (evs : list Event)
    (o' : Orphe) (st' : Z * SensorValuesData.t) :
  SensorValuesData.slot50 data range serial i st o = (evs, o', Ok st') ->
  o' = o /\
  map call_of evs
  = map (fun c => Some (c, 3 - Z.of_nat i))
        (filter (fun c => is_set c (callbacks o)) (call_order 50)).
Proof.
  destruct st as [ts self]. intros H.
  unfold SensorValuesData.slot50, bind, lift, call, ret in H.
  destruct (list_index [2; 4; 8; 16] (Range.acc range)); [|discriminate H].
  destruct (list_index [250; 500; 1000; 2000] (Range.gyro range));
    [|discriminate H].
  destruct (Nat.eqb i 3);
    [|destruct (getitem data (28 + 21 * i)); [|discriminate H]];
    cbn [fst snd app] in H; injection H as <- <- <-;
    (split; [reflexivity|]); slot_calls o.
Qed.

Lemma slot55_calls (data : list byte) (range : Range.t) (serial : Z)
    (o : Orphe) (i : nat) (st : Z * SensorValuesData.t) (evs : list Event)
    (o' : Orphe) (st' : Z * SensorValuesData.t) :
  SensorValuesData.slot55 data range serial i st o = (evs, o', Ok st') ->
  o' = o /\
  map call_of evs
  = map (fun c => Some (c, 3 - Z.of_nat i))
        (filter (fun c => is_set c (callbacks o)) (call_order 55)).
Proof.
  destruct st as [ts self]. intros H.
  unfold SensorValuesData.slot55, bind, lift, call, ret in H.
  destruct (list_index [2; 4; 8; 16] (Range.acc range)); [|discriminate H].
  destruct (list_index [250; 500; 1000; 2000] (Range.gyro range));
    [|discriminate H].
  destruct (Nat.eqb i 3);
    [|destruct (getitem data (28 + 24 * i)); [|discriminate H]];
    cbn [fst snd app] in H; injection H as <- <- <-;
    (split; [reflexivity|]); slot_calls o.
Qed.

Lemma slot56_calls (data : list byte) (range : Range.t) (serial : Z)
    (o : Orphe) (i : nat) (st : Z * SensorValuesData.t) (evs : list Event)
    (o' : Orphe) (st' : Z * SensorValuesData.t) :
  SensorValuesData.slot56 data range serial i st o = (evs, o', Ok st') ->
  o' = o /\
  map call_of evs
  = map (fun c => Some (c, 1 - Z.of_nat i))
        (filter (fun c => is_set c (callbacks o)) (call_order 56)).
Proof.
  destruct st as [ts self]. intros H.
  unfold SensorValuesData.slot56, bind, lift, call, ret in H.
  destruct (list_index [2; 4; 8; 16] (Range.acc range)); [|discriminate H].
  destruct (list_index [250; 500; 1000; 2000] (Range.gyro range));
    [|discriminate H].
  cbn [fst snd app] in H; injection H as <- <- <-.
  split; [reflexivity|]. slot_calls o.
Qed.

(** Whenever the decoder returns on a packet of tag 50, 55 or 56, its trace
    is the calls of a completely decoded packet. *)
Lemma SensorValuesData_init_calls (now : datetime) (data : list byte)
    (range : Range.t) (o o' : Orphe) (tag : Z) (evs : list Event)
    (sv : SensorValuesData.t) :
  getitem data 0 = Ok tag ->
  tag = 50 \/ tag = 55 \/ tag = 56 ->
  SensorValuesData.init now data range o = (evs, o', Ok sv) ->
  map call_of evs = calls_of_packet tag (callbacks o).
Proof.
  intros Htag Hcases H. unfold SensorValuesData.init in H.
  apply bind_Ok_inv in H. destruct H as (e1 & o1 & tag' & e2 & E1 & E2 & ->).
  unfold lift in E1. rewrite Htag in E1. injection E1 as <- <- <-.
  destruct Hcases as [-> | [-> | ->]]; revert E2; decide_tags; intros E2;
    apply bind_Ok_inv in E2;
    destruct E2 as (eh & oh & [[type serial] base] & e3 & Eh & E3 & ->);
    rewrite header_eq in Eh; injection Eh as <- <- _;
    cbv beta iota in E3; apply bind_Ok_inv in E3;
    destruct E3 as (el & ol & st & er & El & Er & ->);
    unfold ret in Er; injection Er as <- _ _;
    cbn [app]; rewrite app_nil_r.
  - apply (for_each_calls
             (fun i => map (fun c => Some (c, 3 - Z.of_nat i))
                           (filter (fun c => is_set c (callbacks o))
                                   (call_order 50)))) in El;
      [destruct El as [_ ->]; reflexivity|].
    intros i s evs o2 s'. apply slot50_calls.
  - apply (for_each_calls
             (fun i => map (fun c => Some (c, 3 - Z.of_nat i))
                           (filter (fun c => is_set c (callbacks o))
                                   (call_order 55)))) in El;
      [destruct El as [_ ->]; reflexivity|].
    intros i s evs o2 s'. apply slot55_calls.
  - apply (for_each_calls
             (fun i => map (fun c => Some (c, 1 - Z.of_nat i))
                           (filter (fun c => is_set c (callbacks o))
                                   (call_order 56)))) in El;
      [destruct El as [_ ->]; reflexivity|].
    intros i s evs o2 s'. apply slot56_calls.
Qed.

(** A well-formed packet is decoded completely: the decoder returns, every
    slot reaches every callback that is set exactly once, and the events
    come slot by slot in packet-position order 0, 1, ... (two slots for tag
    56, four for tags 50 and 55): the trace, read as the list of the
    callback called and the packet position handed to it, is, for each
    position in turn, the callbacks of the branch that are set, in the
    call order of the branch. *)
Theorem SensorValuesData_well_formed_packet_events
    (now : datetime) (data : list byte) (range : Range.t) (o : Orphe)
    (tag : Z) :
  well_formed now data ->
  0 <= Range.acc range <= 3 ->
  0 <= Range.gyro range <= 3 ->
  getitem data 0 = Ok tag ->
  exists evs sv,
    SensorValuesData.init now data range o = (evs, o, Ok sv) /\
    let n := count_set (callbacks_of tag) (callbacks o) in
    length evs = (slots_of tag * n)%nat /\
    map fst (stamps evs)
    = flat_map (fun k => repeat (Z.of_nat k) n) (seq 0 (slots_of tag)) /\
    map call_of evs = calls_of_packet tag (callbacks o).
Proof.
  intros Hwf Ha Hg Htag.
  destruct (well_formed_stamps now data range o tag Hwf Ha Hg Htag)
    as (evs & sv & base & t1 & t2 & t3 & _ & E & _ & _ & St).
  assert (Hcases : tag = 50 \/ tag = 55 \/ tag = 56).
  { destruct Hwf as [[tag' [Htag' [Hcases _]]] _]. congruence. }
  exists evs, sv. split; [exact E|]. cbv zeta in St |- *.
  destruct (SensorValuesData_init_sound now data range o) as [_ Hs].
  rewrite E in Hs. unfold emitted in Hs. cbn [fst] in Hs.
  rewrite <- (stamps_length_sound _ _ Hs), St.
  split; [|split;
           [|exact (SensorValuesData_init_calls now data range o o tag evs sv
                      Htag Hcases E)]];
  unfold slots_of;
  destruct (tag =? 56); cbn [seq flat_map];
    repeat rewrite ?map_app, ?length_app, ?repeat_length, ?map_repeat;
    cbn [fst Z.of_nat length app]; rewrite ?app_nil_r;
    first [lia | reflexivity].
Qed.

(** In the trace of a well-formed packet the timestamps never decrease in
    call order and none is below the base timestamp of the header: packet
    position 0 carries the smallest timestamp. *)
Theorem SensorValuesData_timestamps_in_call_order
    (now : datetime) (data : list byte) (range : Range.t) (o : Orphe)
    (tag : Z) :
  well_formed now data ->
  0 <= Range.acc range <= 3 ->
  0 <= Range.gyro range <= 3 ->
  getitem data 0 = Ok tag ->
  exists evs sv base,
    base_timestamp now data = Ok base /\
    SensorValuesData.init now data range o = (evs, o, Ok sv) /\
    StronglySorted Z.le (map snd (stamps evs)) /\
    Forall (fun t => base <= t) (map snd (stamps evs)).
Proof.
  intros Hwf Ha Hg Htag.
  destruct (well_formed_stamps now data range o tag Hwf Ha Hg Htag)
    as (evs & sv & base & t1 & t2 & t3 & Hbase & E & H1 & H2 & St).
  exists evs, sv, base. split; [exact Hbase|]. split; [exact E|].
  cbv zeta in St. rewrite St.
  destruct (tag =? 56);
    repeat rewrite ?map_app, ?map_repeat; cbn [snd map]; rewrite ?app_nil_r;
    split;
    repeat first
      [ apply Forall_app; split
      | apply Forall_repeat; lia
      | apply sorted_repeat_app
      | apply sorted_repeat
      | apply Forall_nil
      | apply SSorted_nil ].
Qed.

Lemma packet56_well_formed : well_formed epoch_day packet56.
Proof.
  split.
  - exists 56. split; [reflexivity|]. split; [auto|].
    apply Nat.leb_le. reflexivity.
  - exists 3723009. reflexivity.
Qed.

Lemma packet50_well_formed : well_formed epoch_day packet50.
Proof.
  split.
  - exists 50. split; [reflexivity|]. split; [auto|].
    apply Nat.leb_le. reflexivity.
  - exists 3723009. reflexivity.
Qed.

Lemma SensorValuesData_well_formed_packet_events_witness :
  length (emitted (SensorValuesData.init epoch_day packet56 (Range.mk 0 3)
                     connected_session)) = 12%nat /\
  map fst (stamps (emitted (SensorValuesData.init epoch_day packet56
                              (Range.mk 0 3) connected_session)))
  = repeat 0 6 ++ repeat 1 6 /\
  map call_of (emitted (SensorValuesData.init epoch_day packet56
                          (Range.mk 0 3) connected_session))
  = flat_map (fun k => map (fun c => Some (c, k))
                           [to_acc; to_converted_acc; to_gyro;
                            to_converted_gyro; to_pressure; to_quat])
             [0; 1].
Proof.
  destruct (SensorValuesData_well_formed_packet_events epoch_day packet56
              (Range.mk 0 3) connected_session 56)
    as (evs & sv & E & Hlen & Hpos & Hcalls);
    [exact packet56_well_formed | simpl; lia | simpl; lia | reflexivity |].
  rewrite E. split; [exact Hlen|]. split; [exact Hpos | exact Hcalls].
Defined.

Lemma SensorValuesData_timestamps_in_call_order_witness :
  StronglySorted Z.le
    (map snd (stamps (emitted (SensorValuesData.init epoch_day packet50
                                 (Range.mk 0 3) connected_session)))) /\
  Forall (fun t => 3723009 <= t)
    (map snd (stamps (emitted (SensorValuesData.init epoch_day packet50
                                 (Range.mk 0 3) connected_session)))).
Proof.
  destruct (SensorValuesData_timestamps_in_call_order epoch_day packet50
              (Range.mk 0 3) connected_session 50)
    as (evs & sv & base & Hb & E & Hs & Hf);
    [exact packet50_well_formed | simpl; lia | simpl; lia | reflexivity |].
  rewrite E. vm_compute in Hb. injection Hb as <-.
  split; [exact Hs | exact Hf].
Defined.

(** ** The device-information codec *)

Lemma slice_one (data : list byte) (i : nat) :
  slice data i (i + 1)
  = match nth_error data i with
    | Some b => [b]
    | None => []
    end.
Proof.
  unfold slice. replace (i + 1 - i)%nat with 1%nat by lia.
  revert data. induction i as [|i IH]; intros [|b data]; try reflexivity.
  - cbn [skipn nth_error]. apply IH.
Qed.

Lemma from_bytes_unsigned_one (data : list byte) (i : nat) :
  from_bytes_unsigned (slice data i (i + 1)) = byte_at data i.
Proof.
  rewrite slice_one. unfold byte_at, Py.from_bytes_unsigned.
  destruct (nth_error data i); cbn [fold_left]; lia.
Qed.

Lemma byte_at_range (data : list byte) (i : nat) : 0 <= byte_at data i < 256.
Proof.
  unfold byte_at. destruct (nth_error data i); [apply b2z_range | lia].
Qed.

(** The device-information decoder never fails: each field is the byte at
    its offset (battery 0, mount position 1, accelerometer range 8,
    gyroscope range 9, version 18), and 0 when the payload is too short to
    hold that offset; every field is therefore between 0 and 255. *)
Theorem DeviceInformation_fields (data : list byte) :
  let di := DeviceInformation.init data in
  DeviceInformation.data di = data /\
  DeviceInformation.battery di = byte_at data 0 /\
  DeviceInformation.mount_position di = byte_at data 1 /\
  Range.acc (DeviceInformation.range di) = byte_at data 8 /\
  Range.gyro (DeviceInformation.range di) = byte_at data 9 /\
  DeviceInformation.version di = byte_at data 18 /\
  (forall i, (length data <= i)%nat -> byte_at data i = 0) /\
  (forall i, 0 <= byte_at data i < 256).
Proof.
  cbv zeta. unfold DeviceInformation.init.
  cbn [DeviceInformation.data DeviceInformation.battery
       DeviceInformation.mount_position DeviceInformation.range
       DeviceInformation.version Range.acc Range.gyro].
  repeat split; try (apply (from_bytes_unsigned_one data)).
  - intros i Hi. unfold byte_at. apply nth_error_None in Hi. now rewrite Hi.
  - apply byte_at_range.
  - apply byte_at_range.
Qed.

Lemma checksum_loop_raise (data : list byte) (idxs : list nat) (e : exn) :
  fold_left (fun acc i => checksum <~ acc ;; b <~ getitem data i ;;
                          Ok (checksum + b))
            idxs (Raise e) = Raise e.
Proof. induction idxs as [|i idxs IH]; [reflexivity | exact IH]. Qed.

Lemma checksum_loop_prefix (data : list byte) (n : nat) (start : Z) :
  (n <= length data)%nat ->
  fold_left (fun acc i => checksum <~ acc ;; b <~ getitem data i ;;
                          Ok (checksum + b))
            (seq 0 n) (Ok start)
  = Ok (start + byte_sum (firstn n data)).
Proof.
  revert start. induction n as [|n IH]; intros start H.
  - cbn. f_equal. lia.
  - rewrite seq_S, fold_left_app, IH by lia. cbn [fold_left Nat.add obind].
    destruct (nth_error data n) as [b|] eqn:Eb;
      [|apply nth_error_None in Eb; lia].
    unfold getitem. rewrite Eb. cbn [obind]. f_equal.
    assert (Hsplit : firstn (S n) data = firstn n data ++ [b]).
    { clear IH H. revert data Eb.
      induction n as [|n IH]; intros [|x data] Eb; try discriminate.
      - cbn in Eb. injection Eb as ->. reflexivity.
      - cbn [firstn app]. f_equal. apply IH, Eb. }
    rewrite Hsplit. unfold byte_sum. rewrite map_app, fold_right_app.
    cbn [map fold_right].
    assert (Hshift : forall (l : list Z) (z : Z),
               fold_right Z.add z l = fold_right Z.add 0 l + z).
    { induction l as [|y l IHl]; intros z; cbn [fold_right]; [lia|].
      rewrite IHl. lia. }
    rewrite (Hshift _ (b2z b + 0)). lia.
Qed.

Lemma getChecksum_short (data : list byte) :
  (length data < 19)%nat -> getChecksum data = Raise IndexError.
Proof.
  intros H. unfold getChecksum.
  replace 19%nat with (length data + (19 - length data))%nat by lia.
  rewrite seq_app, fold_left_app, checksum_loop_prefix by lia.
  destruct (19 - length data)%nat as [|k] eqn:Ek; [lia|].
  cbn [seq fold_left obind Nat.add].
  rewrite (getitem_ge data (length data)) by lia. cbn [obind].
  now rewrite checksum_loop_raise.
Qed.

Lemma getChecksum_sum (data : list byte) :
  (19 <= length data)%nat ->
  getChecksum data = Ok (byte_sum (firstn 19 data) mod 256).
Proof.
  intros H. unfold getChecksum.
  rewrite checksum_loop_prefix by lia. cbn [obind]. f_equal.
  change 0xFF with (Z.ones 8). rewrite Z.land_ones by lia.
  reflexivity.
Qed.

(** [getChecksum] reads exactly the first 19 bytes: on a shorter buffer it
    raises [IndexError]; otherwise it returns their sum modulo 256, whatever
    follows them. *)
Theorem getChecksum_first_19_bytes (data : list byte) :
  ((length data < 19)%nat -> getChecksum data = Raise IndexError) /\
  ((19 <= length data)%nat ->
   getChecksum data = Ok (byte_sum (firstn 19 data) mod 256)).
Proof. split; [apply getChecksum_short | apply getChecksum_sum]. Qed.

Lemma getChecksum_first_19_bytes_witness :
  getChecksum (bytes [1; 2]) = Raise IndexError /\
  getChecksum ba_write_sample = Ok 0x50.
Proof.
  split.
  - apply (getChecksum_first_19_bytes (bytes [1; 2])). simpl. lia.
  - destruct (getChecksum_first_19_bytes ba_write_sample) as [_ H].
    rewrite H; [reflexivity | simpl; lia].
Defined.

Lemma bytearray_Ok_inv (vs : list Z) (bs : list byte) :
  bytearray vs = Ok bs -> vs = map b2z bs.
Proof.
  revert bs. induction vs as [|v vs IH]; intros bs H.
  - cbn in H. now injection H as <-.
  - cbn [bytearray] in H.
    destruct ((0 <=? v) && (v <? 256)) eqn:Hv; [|discriminate H].
    destruct (Byte.of_N (Z.to_N v)) as [b|] eqn:Eb; [|discriminate H].
    destruct (bytearray vs) as [bs'|e]; [|discriminate H].
    injection H as <-. cbn [map]. f_equal; [|now apply IH].
    apply andb_true_iff in Hv. destruct Hv as [Hlo%Z.leb_le _].
    unfold b2z. apply Byte.to_of_N in Eb. rewrite Eb. lia.
Qed.

Lemma bytearray_invalid (vs : list Z) :
  Exists (fun v => ~ 0 <= v < 256) vs -> bytearray vs = Raise ValueError.
Proof.
  induction vs as [|v vs IH]; intros H; [inversion H|].
  cbn [bytearray].
  destruct ((0 <=? v) && (v <? 256)) eqn:Hv; [|reflexivity].
  apply andb_true_iff in Hv. destruct Hv as [Hlo%Z.leb_le Hhi%Z.ltb_lt].
  inversion H as [? ? Hbad|? ? Hrest]; subst; [lia|].
  rewrite (IH Hrest). destruct (Byte.of_N (Z.to_N v)); reflexivity.
Qed.

Lemma ba_write_bytes (di : DeviceInformation.t) :
  let mm := DeviceInformation.mount_position di in
  let aa := Range.acc (DeviceInformation.range di) in
  let gg := Range.gyro (DeviceInformation.range di) in
  let vv := DeviceInformation.version di in
  let cc := (325 + mm + aa + gg + vv) mod 256 in
  0 <= mm < 256 /\ 0 <= aa < 256 /\ 0 <= gg < 256 /\ 0 <= vv < 256 ->
  exists frame,
    ba_write di = Ok frame /\
    map b2z frame
    = [0x09; mm; 0; 0; 0x01; 0; 0x3C; aa; gg; 0; 0; 0; 0xFF; 0; 0; 0; 0; 0;
       vv; cc] /\
    getChecksum frame = Ok cc.
Proof.
  destruct di as [raw battery mount [acc gyro] version].
  cbn [DeviceInformation.mount_position DeviceInformation.range
       DeviceInformation.version Range.acc Range.gyro].
  cbv zeta. unfold ba_write.
  cbn [DeviceInformation.mount_position DeviceInformation.range
       DeviceInformation.version Range.acc Range.gyro].
  intros (Hm & Ha & Hg & Hv).
  destruct (byte_of_range mount Hm) as [bm <-].
  destruct (byte_of_range acc Ha) as [ba <-].
  destruct (byte_of_range gyro Hg) as [bg <-].
  destruct (byte_of_range version Hv) as [bv <-].
  change [9; b2z bm; 0; 0; 1; 0; 60; b2z ba; b2z bg; 0; 0; 0; 255;
          0; 0; 0; 0; 0; b2z bv]
    with (map b2z [x09; bm; x00; x00; x01; x00; x3c; ba; bg; x00; x00; x00;
                   xff; x00; x00; x00; x00; x00; bv]).
  rewrite bytearray_b2z, obind_Ok.
  rewrite getChecksum_sum by (cbn [length]; lia). rewrite obind_Ok.
  set (c := _ mod 256).
  assert (Hc : c = (325 + b2z bm + b2z ba + b2z bg + b2z bv) mod 256).
  { unfold c, byte_sum. cbn [firstn map fold_right].
    change (b2z x09) with 9. change (b2z x00) with 0.
    change (b2z x01) with 1. change (b2z x3c) with 60.
    change (b2z xff) with 255. f_equal. lia. }
  destruct (byte_of_range c) as [bc Hbc];
    [unfold c; apply Z.mod_pos_bound; lia|].
  replace [c] with (map b2z [bc]) by (cbn [map]; now rewrite Hbc).
  rewrite bytearray_b2z, obind_Ok.
  eexists. split; [reflexivity|]. split.
  - cbn [map app]. rewrite Hbc, Hc. reflexivity.
  - rewrite getChecksum_sum by (cbn [length app]; lia).
    cbn [app firstn]. rewrite <- Hc. reflexivity.
Qed.

Lemma ba_write_not_bytes (di : DeviceInformation.t) :
  ~ (0 <= DeviceInformation.mount_position di < 256 /\
     0 <= Range.acc (DeviceInformation.range di) < 256 /\
     0 <= Range.gyro (DeviceInformation.range di) < 256 /\
     0 <= DeviceInformation.version di < 256) ->
  ba_write di = Raise ValueError.
Proof.
  destruct di as [raw battery mount [acc gyro] version].
  cbn [DeviceInformation.mount_position DeviceInformation.range
       DeviceInformation.version Range.acc Range.gyro].
  unfold ba_write.
  cbn [DeviceInformation.mount_position DeviceInformation.range
       DeviceInformation.version Range.acc Range.gyro].
  intros Hbad.
  rewrite bytearray_invalid; [reflexivity|].
  destruct (Z.leb_spec 0 mount), (Z.ltb_spec mount 256),
    (Z.leb_spec 0 acc), (Z.ltb_spec acc 256),
    (Z.leb_spec 0 gyro), (Z.ltb_spec gyro 256),
    (Z.leb_spec 0 version), (Z.ltb_spec version 256);
    try (exfalso; apply Hbad; lia);
    repeat first [ apply Exists_cons_hd; lia | apply Exists_cons_tl ].
Qed.

(** The frame [write_device_information] builds.  When mount position,
    range indices and version are bytes, it is the 20-byte frame
    09 mm 00 00 01 00 3C aa gg 00 00 00 FF 00 00 00 00 00 vv cc, where the
    last byte is (325 + mm + aa + gg + vv) mod 256, which is also what
    [getChecksum] returns on the finished frame.  When one of the four is
    not a byte, [bytearray] raises [ValueError] and no frame is built. *)
Theorem ba_write_frame (di : DeviceInformation.t) :
  let mm := DeviceInformation.mount_position di in
  let aa := Range.acc (DeviceInformation.range di) in
  let gg := Range.gyro (DeviceInformation.range di) in
  let vv := DeviceInformation.version di in
  let cc := (325 + mm + aa + gg + vv) mod 256 in
  (0 <= mm < 256 /\ 0 <= aa < 256 /\ 0 <= gg < 256 /\ 0 <= vv < 256 ->
   exists frame,
     ba_write di = Ok frame /\
     map b2z frame
     = [0x09; mm; 0; 0; 0x01; 0; 0x3C; aa; gg; 0; 0; 0; 0xFF; 0; 0; 0; 0; 0;
        vv; cc] /\
     getChecksum frame = Ok cc) /\
  (~ (0 <= mm < 256 /\ 0 <= aa < 256 /\ 0 <= gg < 256 /\ 0 <= vv < 256) ->
   ba_write di = Raise ValueError).
Proof.
  split; [apply ba_write_bytes | apply ba_write_not_bytes].
Qed.

Lemma ba_write_frame_witness :
  (exists frame,
     ba_write device_information_sample = Ok frame /\
     map b2z frame
     = [0x09; 1; 0; 0; 0x01; 0; 0x3C; 1; 2; 0; 0; 0; 0xFF; 0; 0; 0; 0; 0;
        7; 0x50] /\
     getChecksum frame = Ok 0x50) /\
  ba_write device_information_out_of_range = Raise ValueError.
Proof.
  split.
  - apply (ba_write_frame device_information_sample). simpl. lia.
  - apply (ba_write_frame device_information_out_of_range). simpl. lia.
Defined.

(** Reading then writing: the frame built from a device information that was
    decoded from any payload always exists, and it carries the payload's
    mount position (byte 1), accelerometer range (byte 8), gyroscope range
    (byte 9) and version (byte 18) at the write offsets 1, 7, 8 and 18; the
    battery level is not written. *)
Theorem read_then_write_echoes_configuration (data : list byte) :
  exists frame,
    ba_write (DeviceInformation.init data) = Ok frame /\
    length frame = 20%nat /\
    getitem frame 1 = Ok (byte_at data 1) /\
    getitem frame 7 = Ok (byte_at data 8) /\
    getitem frame 8 = Ok (byte_at data 9) /\
    getitem frame 18 = Ok (byte_at data 18) /\
    getitem frame 19
    = Ok ((325 + byte_at data 1 + byte_at data 8 + byte_at data 9
           + byte_at data 18) mod 256).
Proof.
  pose proof (from_bytes_unsigned_one data 1) as H1.
  pose proof (from_bytes_unsigned_one data 8) as H8.
  pose proof (from_bytes_unsigned_one data 9) as H9.
  pose proof (from_bytes_unsigned_one data 18) as H18.
  cbn [Nat.add] in H1, H8, H9, H18.
  destruct (ba_write_bytes (DeviceInformation.init data))
    as (frame & E & Hmap & _).
  { unfold DeviceInformation.init.
    cbn [DeviceInformation.mount_position DeviceInformation.range
         DeviceInformation.version Range.acc Range.gyro].
    rewrite H1, H8, H9, H18.
    repeat split; apply byte_at_range. }
  exists frame. split; [exact E|].
  unfold DeviceInformation.init in Hmap.
  cbn [DeviceInformation.mount_position DeviceInformation.range
       DeviceInformation.version Range.acc Range.gyro] in Hmap.
  rewrite H1, H8, H9, H18 in Hmap.
  assert (Hget : forall i v, nth_error (map b2z frame) i = Some v ->
                             getitem frame i = Ok v).
  { intros i v H. unfold getitem. rewrite nth_error_map in H.
    destruct (nth_error frame i); [|discriminate H].
    cbn in H. now injection H as <-. }
  split; [rewrite <- (length_map b2z), Hmap; reflexivity|].
  repeat split; apply Hget; rewrite Hmap; reflexivity.
Qed.

(** ** Configuration commands *)

Lemma read_modify_write_eq (b : Bleak)
    (assign : DeviceInformation.t -> DeviceInformation.t) (o : Orphe) :
  read_modify_write b assign o = read_modify_write_run b assign o.
Proof.
  unfold read_modify_write, read_modify_write_run, read_device_information,
    write_device_information, cbind, perform, cmodify, cret, clift, sleep.
  destruct (client o) as [c|] eqn:Hc; [|reflexivity].
  destruct (refuses b (read_gatt_char DEVICE_INFORMATION)); [reflexivity|].
  cbn [set_device_information device_information client app].
  rewrite Hc.
  destruct (ba_write (assign (DeviceInformation.init (answer b))))
    as [ba|e]; [|reflexivity].
  destruct (refuses b (write_gatt_char DEVICE_INFORMATION ba)); reflexivity.
Qed.

(** The argument checks come first: a mount position outside 0..3, an
    accelerometer range other than 2, 4, 8, 16, a gyroscope range other than
    250, 500, 1000, 2000 and a streaming mode other than 1, 3, 4 make the
    command return without any call on the client and without any change of
    the session, also when there is no client yet. *)
Theorem commands_reject_invalid_arguments (b : Bleak) (o : Orphe) :
  (forall v, v < 0 \/ 3 < v -> set_mount_position b v o = ([], o, Done tt)) /\
  (forall v, v <> 2 -> v <> 4 -> v <> 8 -> v <> 16 ->
             set_acc_range b v o = ([], o, Done tt)) /\
  (forall v, v <> 250 -> v <> 500 -> v <> 1000 -> v <> 2000 ->
             set_gyro_range b v o = ([], o, Done tt)) /\
  (forall v, v <> 1 -> v <> 3 -> v <> 4 ->
             set_data_streaming_mode b v o = ([], o, Done tt)).
Proof.
  repeat split.
  - intros v Hv. unfold set_mount_position.
    replace ((v <? 0) || (3 <? v)) with true; [reflexivity|].
    symmetry. apply orb_true_iff. rewrite !Z.ltb_lt. exact Hv.
  - intros v H2 H4 H8 H16. unfold set_acc_range.
    apply Z.eqb_neq in H2, H4, H8, H16. now rewrite H2, H4, H8, H16.
  - intros v H1 H2 H3 H4. unfold set_gyro_range.
    apply Z.eqb_neq in H1, H2, H3, H4. now rewrite H1, H2, H3, H4.
  - intros v H1 H3 H4. unfold set_data_streaming_mode.
    apply Z.eqb_neq in H1, H3, H4. now rewrite H1, H3, H4.
Qed.

Lemma commands_reject_invalid_arguments_witness :
  set_mount_position willing_device 4 Orphe_init = ([], Orphe_init, Done tt) /\
  set_acc_range willing_device 3 Orphe_init = ([], Orphe_init, Done tt) /\
  set_gyro_range willing_device 0 Orphe_init = ([], Orphe_init, Done tt) /\
  set_data_streaming_mode willing_device 2 Orphe_init
  = ([], Orphe_init, Done tt).
Proof.
  destruct (commands_reject_invalid_arguments willing_device Orphe_init)
    as (Hm & Ha & Hg & Hs).
  split; [apply Hm; lia|].
  split; [apply Ha; lia|].
  split; [apply Hg; lia | apply Hs; lia].
Defined.

Lemma cbind_clift_Ok {A B} (a : A) (f : A -> Cmd B) (o : Orphe) :
  cbind (clift (Ok a)) f o = f a o.
Proof.
  unfold cbind, clift. destruct (f a o) as [[t o'] r]. reflexivity.
Qed.

Lemma set_mount_position_eq (b : Bleak) (v : Z) (o : Orphe) :
  0 <= v <= 3 ->
  set_mount_position b v o
  = read_modify_write_run b (assign_mount_position v) o.
Proof.
  intros H. unfold set_mount_position.
  replace ((v <? 0) || (3 <? v)) with false
    by (symmetry; apply orb_false_iff; rewrite !Z.ltb_ge; lia).
  apply read_modify_write_eq.
Qed.

Lemma set_acc_range_eq (b : Bleak) (v idx : Z) (o : Orphe) :
  index_of [2; 4; 8; 16] v = Ok idx ->
  set_acc_range b v o = read_modify_write_run b (assign_range_acc idx) o.
Proof.
  intros H. unfold set_acc_range.
  destruct (negb (v =? 2) && negb (v =? 4) && negb (v =? 8) && negb (v =? 16))
    eqn:Hcheck.
  - exfalso. cbn [index_of] in H.
    repeat (apply andb_true_iff in Hcheck; destruct Hcheck as [Hcheck ?]).
    repeat match goal with
           | Hn : negb (v =? _) = true |- _ =>
               apply negb_true_iff in Hn; rewrite Z.eqb_sym in Hn;
               rewrite Hn in H
           end.
    discriminate H.
  - rewrite H, cbind_clift_Ok. apply read_modify_write_eq.
Qed.

Lemma set_gyro_range_eq (b : Bleak) (v idx : Z) (o : Orphe) :
  index_of [250; 500; 1000; 2000] v = Ok idx ->
  set_gyro_range b v o = read_modify_write_run b (assign_range_gyro idx) o.
Proof.
  intros H. unfold set_gyro_range.
  destruct (negb (v =? 250) && negb (v =? 500) && negb (v =? 1000)
            && negb (v =? 2000)) eqn:Hcheck.
  - exfalso. cbn [index_of] in H.
    repeat (apply andb_true_iff in Hcheck; destruct Hcheck as [Hcheck ?]).
    repeat match goal with
           | Hn : negb (v =? _) = true |- _ =>
               apply negb_true_iff in Hn; rewrite Z.eqb_sym in Hn;
               rewrite Hn in H
           end.
    discriminate H.
  - rewrite H, cbind_clift_Ok. apply read_modify_write_eq.
Qed.

Lemma follows_protocol_idle (o : Orphe) (x : Result unit) :
  follows_protocol o ([], o, x).
Proof. unfold follows_protocol. cbn. repeat split; auto. Qed.

Lemma follows_protocol_run (b : Bleak)
    (assign : DeviceInformation.t -> DeviceInformation.t) (o : Orphe) :
  follows_protocol o (read_modify_write_run b assign o).
Proof.
  unfold read_modify_write_run. cbv zeta.
  destruct (client o) as [c|]; [|apply follows_protocol_idle].
  destruct (refuses b (read_gatt_char DEVICE_INFORMATION)).
  { unfold follows_protocol. cbn.
    repeat split; auto; try discriminate. }
  destruct (ba_write _) as [ba|e].
  - destruct (refuses b (write_gatt_char DEVICE_INFORMATION ba));
      unfold follows_protocol; cbn;
      (split; [right; right; exists ba; auto|]);
      (split; [try discriminate; intros _; right; exists ba; reflexivity|]);
      repeat split; auto; discriminate.
  - unfold follows_protocol. cbn.
    repeat split; auto; try discriminate.
Qed.

(** Whatever the arguments, the session and the behaviour of the BLE
    library, the three configuration setters keep the protocol: a frame is
    written only after the device information has been read in the same
    command, the settle sleep follows the write, a command that completes
    either made no call at all or made all three, and nothing of the session
    except the stored device information changes. *)
Theorem configuration_setters_follow_protocol (b : Bleak) (v : Z) (o : Orphe) :
  follows_protocol o (set_mount_position b v o) /\
  follows_protocol o (set_acc_range b v o) /\
  follows_protocol o (set_gyro_range b v o).
Proof.
  split; [|split].
  - destruct (Z.ltb_spec v 0) as [Hlo|Hlo];
      [|destruct (Z.ltb_spec 3 v) as [Hhi|Hhi]].
    + unfold set_mount_position.
      replace (v <? 0) with true by (symmetry; now apply Z.ltb_lt).
      apply follows_protocol_idle.
    + unfold set_mount_position.
      replace (3 <? v) with true by (symmetry; now apply Z.ltb_lt).
      rewrite orb_true_r. apply follows_protocol_idle.
    + rewrite set_mount_position_eq by lia. apply follows_protocol_run.
  - destruct (index_of [2; 4; 8; 16] v) as [idx|e] eqn:Hidx.
    + rewrite (set_acc_range_eq b v idx o Hidx). apply follows_protocol_run.
    + unfold set_acc_range. cbn [index_of] in Hidx.
      destruct (Z.eqb_spec 2 v) as [<-|N2]; [discriminate Hidx|].
      destruct (Z.eqb_spec 4 v) as [<-|N4]; [discriminate Hidx|].
      destruct (Z.eqb_spec 8 v) as [<-|N8]; [discriminate Hidx|].
      destruct (Z.eqb_spec 16 v) as [<-|N16]; [discriminate Hidx|].
      replace (v =? 2) with false by (symmetry; apply Z.eqb_neq; congruence).
      replace (v =? 4) with false by (symmetry; apply Z.eqb_neq; congruence).
      replace (v =? 8) with false by (symmetry; apply Z.eqb_neq; congruence).
      replace (v =? 16) with false by (symmetry; apply Z.eqb_neq; congruence).
      apply follows_protocol_idle.
  - destruct (index_of [250; 500; 1000; 2000] v) as [idx|e] eqn:Hidx.
    + rewrite (set_gyro_range_eq b v idx o Hidx). apply follows_protocol_run.
    + unfold set_gyro_range. cbn [index_of] in Hidx.
      destruct (Z.eqb_spec 250 v) as [<-|N2]; [discriminate Hidx|].
      destruct (Z.eqb_spec 500 v) as [<-|N4]; [discriminate Hidx|].
      destruct (Z.eqb_spec 1000 v) as [<-|N8]; [discriminate Hidx|].
      destruct (Z.eqb_spec 2000 v) as [<-|N16]; [discriminate Hidx|].
      replace (v =? 250) with false by (symmetry; apply Z.eqb_neq; congruence).
      replace (v =? 500) with false by (symmetry; apply Z.eqb_neq; congruence).
      replace (v =? 1000) with false
        by (symmetry; apply Z.eqb_neq; congruence).
      replace (v =? 2000) with false
        by (symmetry; apply Z.eqb_neq; congruence).
      apply follows_protocol_idle.
Qed.

Lemma willing_run (b : Bleak)
    (assign : DeviceInformation.t -> DeviceInformation.t) (o : Orphe)
    (c : bool) (frame : list byte) :
  client o = Some c ->
  (forall a, refuses b a = false) ->
  ba_write (assign (DeviceInformation.init (answer b))) = Ok frame ->
  read_modify_write_run b assign o
  = ([read_gatt_char DEVICE_INFORMATION;
      write_gatt_char DEVICE_INFORMATION frame; sleep_write_wait],
     set_device_information (assign (DeviceInformation.init (answer b))) o,
     Done tt).
Proof.
  intros Hc Hb Hframe. unfold read_modify_write_run. cbv zeta.
  now rewrite Hc, Hb, Hframe, Hb.
Qed.

(** On a session with a client and a library that accepts the calls,
    [set_mount_position] with a value 0..3 reads the device information,
    writes one frame and sleeps.  The frame carries the new mount position
    at offset 1 and echoes what was just read for the ranges and the
    version; the stored device information is the one read, with the mount
    position replaced. *)
Theorem set_mount_position_writes_one_field
    (b : Bleak) (v : Z) (o : Orphe) (c : bool) :
  client o = Some c ->
  (forall a, refuses b a = false) ->
  0 <= v <= 3 ->
  exists frame,
    set_mount_position b v o
    = ([read_gatt_char DEVICE_INFORMATION;
        write_gatt_char DEVICE_INFORMATION frame; sleep_write_wait],
       set_device_information
         (assign_mount_position v (DeviceInformation.init (answer b))) o,
       Done tt) /\
    map b2z frame
    = [0x09; v; 0; 0; 0x01; 0; 0x3C;
       byte_at (answer b) 8; byte_at (answer b) 9;
       0; 0; 0; 0xFF; 0; 0; 0; 0; 0; byte_at (answer b) 18;
       (325 + v + byte_at (answer b) 8 + byte_at (answer b) 9
        + byte_at (answer b) 18) mod 256].
Proof.
  intros Hc Hb Hv.
  pose proof (from_bytes_unsigned_one (answer b) 8) as H8.
  pose proof (from_bytes_unsigned_one (answer b) 9) as H9.
  pose proof (from_bytes_unsigned_one (answer b) 18) as H18.
  cbn [Nat.add] in H8, H9, H18.
  destruct (ba_write_bytes
              (assign_mount_position v (DeviceInformation.init (answer b))))
    as (frame & E & Hmap & _).
  { unfold assign_mount_position, DeviceInformation.init.
    cbn [DeviceInformation.mount_position DeviceInformation.range
         DeviceInformation.version Range.acc Range.gyro].
    rewrite H8, H9, H18.
    repeat split; try apply byte_at_range; lia. }
  exists frame. split.
  - rewrite set_mount_position_eq by exact Hv.
    now apply (willing_run b _ o c frame).
  - unfold assign_mount_position, DeviceInformation.init in Hmap.
    cbn [DeviceInformation.mount_position DeviceInformation.range
         DeviceInformation.version Range.acc Range.gyro] in Hmap.
    rewrite H8, H9, H18 in Hmap. exact Hmap.
Qed.

Lemma set_mount_position_writes_one_field_witness :
  exists frame,
    set_mount_position willing_device 3 connected_session
    = ([read_gatt_char DEVICE_INFORMATION;
        write_gatt_char DEVICE_INFORMATION frame; sleep_write_wait],
       set_device_information
         (assign_mount_position 3 device_information_read) connected_session,
       Done tt) /\
    map b2z frame
    = [0x09; 3; 0; 0; 0x01; 0; 0x3C; 0; 3; 0; 0; 0; 0xFF; 0; 0; 0; 0; 0; 2;
       0x4D].
Proof.
  destruct (set_mount_position_writes_one_field willing_device 3
              connected_session true)
    as (frame & E & Hmap); [reflexivity | reflexivity | lia |].
  exists frame. split; [exact E | exact Hmap].
Defined.

Lemma getitem_of_map (frame : list byte) (l : list Z) (i : nat) (v : Z) :
  map b2z frame = l -> nth_error l i = Some v -> getitem frame i = Ok v.
Proof.
  intros <- H. unfold getitem. rewrite nth_error_map in H.
  destruct (nth_error frame i); [|discriminate H].
  cbn in H. now injection H as <-.
Qed.

Lemma set_acc_range_run (b : Bleak) (o : Orphe) (c : bool) (v idx : Z) :
  client o = Some c ->
  (forall a, refuses b a = false) ->
  index_of [2; 4; 8; 16] v = Ok idx -> 0 <= idx <= 3 ->
  exists frame,
    set_acc_range b v o
    = ([read_gatt_char DEVICE_INFORMATION;
        write_gatt_char DEVICE_INFORMATION frame; sleep_write_wait],
       set_device_information
         (assign_range_acc idx (DeviceInformation.init (answer b))) o,
       Done tt) /\
    getitem frame 1 = Ok (byte_at (answer b) 1) /\
    getitem frame 7 = Ok idx /\
    getitem frame 8 = Ok (byte_at (answer b) 9) /\
    getitem frame 18 = Ok (byte_at (answer b) 18).
Proof.
  intros Hc Hb Hidx Hrange.
  pose proof (from_bytes_unsigned_one (answer b) 1) as H1.
  pose proof (from_bytes_unsigned_one (answer b) 9) as H9.
  pose proof (from_bytes_unsigned_one (answer b) 18) as H18.
  cbn [Nat.add] in H1, H9, H18.
  destruct (ba_write_bytes
              (assign_range_acc idx (DeviceInformation.init (answer b))))
    as (frame & E & Hmap & _).
  { unfold assign_range_acc, DeviceInformation.init.
    cbn [DeviceInformation.mount_position DeviceInformation.range
         DeviceInformation.version Range.acc Range.gyro].
    rewrite H1, H9, H18.
    repeat split; try apply byte_at_range; lia. }
  unfold assign_range_acc, DeviceInformation.init in Hmap.
  cbn [DeviceInformation.mount_position DeviceInformation.range
       DeviceInformation.version Range.acc Range.gyro] in Hmap.
  rewrite H1, H9, H18 in Hmap.
  exists frame. split.
  - rewrite (set_acc_range_eq b v idx o Hidx).
    now apply (willing_run b _ o c frame).
  - repeat split; eapply getitem_of_map; try exact Hmap; reflexivity.
Qed.

Lemma set_gyro_range_run (b : Bleak) (o : Orphe) (c : bool) (v idx : Z) :
  client o = Some c ->
  (forall a, refuses b a = false) ->
  index_of [250; 500; 1000; 2000] v = Ok idx -> 0 <= idx <= 3 ->
  exists frame,
    set_gyro_range b v o
    = ([read_gatt_char DEVICE_INFORMATION;
        write_gatt_char DEVICE_INFORMATION frame; sleep_write_wait],
       set_device_information
         (assign_range_gyro idx (DeviceInformation.init (answer b))) o,
       Done tt) /\
    getitem frame 1 = Ok (byte_at (answer b) 1) /\
    getitem frame 7 = Ok (byte_at (answer b) 8) /\
    getitem frame 8 = Ok idx /\
    getitem frame 18 = Ok (byte_at (answer b) 18).
Proof.
  intros Hc Hb Hidx Hrange.
  pose proof (from_bytes_unsigned_one (answer b) 1) as H1.
  pose proof (from_bytes_unsigned_one (answer b) 8) as H8.
  pose proof (from_bytes_unsigned_one (answer b) 18) as H18.
  cbn [Nat.add] in H1, H8, H18.
  destruct (ba_write_bytes
              (assign_range_gyro idx (DeviceInformation.init (answer b))))
    as (frame & E & Hmap & _).
  { unfold assign_range_gyro, DeviceInformation.init.
    cbn [DeviceInformation.mount_position DeviceInformation.range
         DeviceInformation.version Range.acc Range.gyro].
    rewrite H1, H8, H18.
    repeat split; try apply byte_at_range; lia. }
  unfold assign_range_gyro, DeviceInformation.init in Hmap.
  cbn [DeviceInformation.mount_position DeviceInformation.range
       DeviceInformation.version Range.acc Range.gyro] in Hmap.
  rewrite H1, H8, H18 in Hmap.
  exists frame. split.
  - rewrite (set_gyro_range_eq b v idx o Hidx).
    now apply (willing_run b _ o c frame).
  - repeat split; eapply getitem_of_map; try exact Hmap; reflexivity.
Qed.

(** On a session with a client and a library that accepts the calls,
    [set_acc_range] with 2, 4, 8 or 16 and [set_gyro_range] with 250, 500,
    1000 or 2000 read, write one frame and sleep.  What is stored and
    written (offset 7 for the accelerometer, 8 for the gyroscope) is the
    index at which the decoder's table holds the requested value, so the
    decoder will scale by exactly that value; the other range, the mount
    position and the version are echoed from the read. *)
Theorem set_range_stores_table_index (b : Bleak) (o : Orphe) (c : bool) (v : Z) :
  client o = Some c ->
  (forall a, refuses b a = false) ->
  (In v [2; 4; 8; 16] ->
   exists idx frame,
     list_index [2; 4; 8; 16] idx = Ok v /\
     set_acc_range b v o
     = ([read_gatt_char DEVICE_INFORMATION;
         write_gatt_char DEVICE_INFORMATION frame; sleep_write_wait],
        set_device_information
          (assign_range_acc idx (DeviceInformation.init (answer b))) o,
        Done tt) /\
     getitem frame 1 = Ok (byte_at (answer b) 1) /\
     getitem frame 7 = Ok idx /\
     getitem frame 8 = Ok (byte_at (answer b) 9) /\
     getitem frame 18 = Ok (byte_at (answer b) 18)) /\
  (In v [250; 500; 1000; 2000] ->
   exists idx frame,
     list_index [250; 500; 1000; 2000] idx = Ok v /\
     set_gyro_range b v o
     = ([read_gatt_char DEVICE_INFORMATION;
         write_gatt_char DEVICE_INFORMATION frame; sleep_write_wait],
        set_device_information
          (assign_range_gyro idx (DeviceInformation.init (answer b))) o,
        Done tt) /\
     getitem frame 1 = Ok (byte_at (answer b) 1) /\
     getitem frame 7 = Ok (byte_at (answer b) 8) /\
     getitem frame 8 = Ok idx /\
     getitem frame 18 = Ok (byte_at (answer b) 18)).
Proof.
  intros Hc Hb. split; intros Hv; cbn [In] in Hv.
  - destruct Hv as [<- | [<- | [<- | [<- | []]]]];
      [exists 0 | exists 1 | exists 2 | exists 3];
      match goal with
      | |- exists frame, list_index _ ?i = Ok ?g /\ _ =>
          destruct (set_acc_range_run b o c g i Hc Hb) as (frame & H);
          [reflexivity | lia |]
      end;
      exists frame; (split; [reflexivity | exact H]).
  - destruct Hv as [<- | [<- | [<- | [<- | []]]]];
      [exists 0 | exists 1 | exists 2 | exists 3];
      match goal with
      | |- exists frame, list_index _ ?i = Ok ?g /\ _ =>
          destruct (set_gyro_range_run b o c g i Hc Hb) as (frame & H);
          [reflexivity | lia |]
      end;
      exists frame; (split; [reflexivity | exact H]).
Qed.

Lemma set_range_stores_table_index_witness :
  (exists idx frame,
     list_index [2; 4; 8; 16] idx = Ok 8 /\
     set_acc_range willing_device 8 connected_session
     = ([read_gatt_char DEVICE_INFORMATION;
         write_gatt_char DEVICE_INFORMATION frame; sleep_write_wait],
        set_device_information
          (assign_range_acc idx
             (DeviceInformation.init (answer willing_device)))
          connected_session,
        Done tt) /\
     getitem frame 1 = Ok (byte_at (answer willing_device) 1) /\
     getitem frame 7 = Ok idx /\
     getitem frame 8 = Ok (byte_at (answer willing_device) 9) /\
     getitem frame 18 = Ok (byte_at (answer willing_device) 18)).
Proof.
  apply (set_range_stores_table_index willing_device connected_session true 8);
    [reflexivity | reflexivity | cbn [In]; auto].
Defined.

(** When the BLE library raises, [set_mount_position] stops where it is.  A
    refused read leaves the session untouched and no frame is written.  A
    refused write comes after the stored device information has already
    taken the new mount position, which is not undone; no settle sleep
    follows. *)
Theorem set_mount_position_when_library_raises
    (b : Bleak) (v : Z) (o : Orphe) (c : bool) :
  client o = Some c ->
  0 <= v <= 3 ->
  (refuses b (read_gatt_char DEVICE_INFORMATION) = true ->
   set_mount_position b v o
   = ([read_gatt_char DEVICE_INFORMATION], o, Failed bleak_error)) /\
  (refuses b (read_gatt_char DEVICE_INFORMATION) = false ->
   (forall frame,
      refuses b (write_gatt_char DEVICE_INFORMATION frame) = true) ->
   exists frame,
     set_mount_position b v o
     = ([read_gatt_char DEVICE_INFORMATION;
         write_gatt_char DEVICE_INFORMATION frame],
        set_device_information
          (assign_mount_position v (DeviceInformation.init (answer b))) o,
        Failed bleak_error) /\
     getitem frame 1 = Ok v).
Proof.
  intros Hc Hv. rewrite set_mount_position_eq by exact Hv.
  unfold read_modify_write_run. cbv zeta. rewrite Hc. split.
  - intros Hr. now rewrite Hr.
  - intros Hr Hw. rewrite Hr.
    pose proof (from_bytes_unsigned_one (answer b) 8) as H8.
    pose proof (from_bytes_unsigned_one (answer b) 9) as H9.
    pose proof (from_bytes_unsigned_one (answer b) 18) as H18.
    cbn [Nat.add] in H8, H9, H18.
    destruct (ba_write_bytes
                (assign_mount_position v (DeviceInformation.init (answer b))))
      as (frame & E & Hmap & _).
    { unfold assign_mount_position, DeviceInformation.init.
      cbn [DeviceInformation.mount_position DeviceInformation.range
           DeviceInformation.version Range.acc Range.gyro].
      rewrite H8, H9, H18.
      repeat split; try apply byte_at_range; lia. }
    exists frame. rewrite E, Hw. split; [reflexivity|].
    eapply getitem_of_map; [exact Hmap | reflexivity].
Qed.

Lemma set_mount_position_when_library_raises_witness :
  exists frame,
    set_mount_position read_only_device 3 connected_session
    = ([read_gatt_char DEVICE_INFORMATION;
        write_gatt_char DEVICE_INFORMATION frame],
       set_device_information
         (assign_mount_position 3 device_information_read) connected_session,
       Failed bleak_error) /\
    getitem frame 1 = Ok 3.
Proof.
  destruct (set_mount_position_when_library_raises read_only_device 3
              connected_session true)
    as [_ H]; [reflexivity | lia |].
  apply H; reflexivity.
Defined.

(** [set_data_streaming_mode] with mode 1, 3 or 4 never reads and never
    changes the session: it writes the two-byte command 0D mm to the
    device-information characteristic and then sleeps; without a client it
    raises [AttributeError] before any call, and when the library raises on
    the write there is no sleep. *)
Theorem set_data_streaming_mode_command (b : Bleak) (mode : Z) (o : Orphe) :
  mode = 1 \/ mode = 3 \/ mode = 4 ->
  exists frame,
    map b2z frame = [0x0D; mode] /\
    set_data_streaming_mode b mode o
    = match client o with
      | None => ([], o, Failed (python AttributeError))
      | Some _ =>
          if refuses b (write_gatt_char DEVICE_INFORMATION frame)
          then ([write_gatt_char DEVICE_INFORMATION frame], o,
                Failed bleak_error)
          else ([write_gatt_char DEVICE_INFORMATION frame; sleep_write_wait],
                o, Done tt)
      end.
Proof.
  intros Hmode.
  assert (Hframe : exists frame, bytearray [0x0D; mode] = Ok frame /\
                                 map b2z frame = [0x0D; mode]).
  { destruct Hmode as [-> | [-> | ->]]; eexists; split; reflexivity. }
  destruct Hframe as (frame & Hba & Hmap). exists frame.
  split; [exact Hmap|]. unfold set_data_streaming_mode.
  replace (negb (mode =? 1) && negb (mode =? 3) && negb (mode =? 4))
    with false by (destruct Hmode as [-> | [-> | ->]]; reflexivity).
  rewrite Hba, cbind_clift_Ok. unfold cbind, perform, sleep.
  destruct (client o); [|reflexivity].
  destruct (refuses b _); reflexivity.
Qed.

Lemma set_data_streaming_mode_command_witness :
  exists frame,
    map b2z frame = [0x0D; 4] /\
    set_data_streaming_mode willing_device 4 connected_session
    = ([write_gatt_char DEVICE_INFORMATION frame; sleep_write_wait],
       connected_session, Done tt).
Proof.
  destruct (set_data_streaming_mode_command willing_device 4
              connected_session) as (frame & Hmap & E); [auto|].
  exists frame. split; [exact Hmap | exact E].
Defined.

(** ** The exceptions of the sensor-stream decoder *)

Section RaisesOnly.

Variable E : exn -> Prop.

Lemma raises_only_ret {A} (a : A) : raises_only E (ret a).
Proof. intros o e H. discriminate H. Qed.

Lemma raises_only_call (slot : Callbacks -> bool) (ev : Event) :
  raises_only E (call slot ev).
Proof. intros o e H. discriminate H. Qed.

Lemma raises_only_lift {A} (r : Outcome A) :
  (forall e, r = Raise e -> E e) -> raises_only E (lift r).
Proof. intros H o e He. apply H. exact He. Qed.

Lemma raises_only_bind {A B} (m : M A) (f : A -> M B) :
  raises_only E m -> (forall a, raises_only E (f a)) ->
  raises_only E (bind m f).
Proof.
  intros Hm Hf o e. unfold bind, outcome.
  specialize (Hm o). unfold outcome in Hm.
  destruct (m o) as [[e1 o1] [a|e']]; cbn [snd] in *.
  - specialize (Hf a o1 e). unfold outcome in Hf.
    destruct (f a o1) as [[e2 o2] r]. exact Hf.
  - intros [= <-]. now apply Hm.
Qed.

Lemma raises_only_for_each {I S} (idxs : list I) (body : I -> S -> M S) :
  (forall i s, raises_only E (body i s)) ->
  forall s, raises_only E (for_each idxs body s).
Proof.
  intros Hbody. induction idxs as [|i idxs IH]; intros s.
  - apply raises_only_ret.
  - cbn [for_each]. apply raises_only_bind; [apply Hbody | exact IH].
Qed.

End RaisesOnly.

Lemma getitem_decode_error (data : list byte) (i : nat) (e : exn) :
  getitem data i = Raise e -> decode_error e.
Proof. intros H. left. eapply getitem_raises, H. Qed.

Lemma list_index_decode_error (l : list Z) (i : Z) (e : exn) :
  list_index l i = Raise e -> decode_error e.
Proof. intros H. left. eapply list_index_raises, H. Qed.

Lemma to_timestamp_decode_error (now : datetime) (h m s hi lo : Z) (e : exn) :
  to_timestamp now h m s hi lo = Raise e -> decode_error e.
Proof.
  unfold to_timestamp. destruct (_ && _); [discriminate|].
  intros [= <-]. now right.
Qed.

Ltac decoder_raises :=
  repeat first
    [ apply raises_only_ret
    | apply raises_only_call
    | apply raises_only_lift;
      first [ apply getitem_decode_error
            | apply list_index_decode_error
            | apply to_timestamp_decode_error ]
    | apply raises_only_bind; [|intros ?]
    | match goal with
      | |- raises_only _ (if ?c then _ else _) => destruct c
      end ].

Lemma header_raises (now : datetime) (data : list byte) :
  raises_only decode_error (SensorValuesData.header now data).
Proof. unfold SensorValuesData.header. cbv zeta. decoder_raises. Qed.

Lemma slot50_raises (data : list byte) (range : Range.t) (serial : Z)
    (i : nat) (st : Z * SensorValuesData.t) :
  raises_only decode_error (SensorValuesData.slot50 data range serial i st).
Proof.
  destruct st as [ts self]. unfold SensorValuesData.slot50. cbv zeta.
  decoder_raises.
Qed.

Lemma slot55_raises (data : list byte) (range : Range.t) (serial : Z)
    (i : nat) (st : Z * SensorValuesData.t) :
  raises_only decode_error (SensorValuesData.slot55 data range serial i st).
Proof.
  destruct st as [ts self]. unfold SensorValuesData.slot55. cbv zeta.
  decoder_raises.
Qed.

Lemma slot56_raises (data : list byte) (range : Range.t) (serial : Z)
    (i : nat) (st : Z * SensorValuesData.t) :
  raises_only decode_error (SensorValuesData.slot56 data range serial i st).
Proof.
  destruct st as [ts self]. unfold SensorValuesData.slot56. cbv zeta.
  decoder_raises.
Qed.

Lemma SensorValuesData_init_raises (now : datetime) (data : list byte)
    (range : Range.t) :
  raises_only decode_error (SensorValuesData.init now data range).
Proof.
  unfold SensorValuesData.init.
  apply raises_only_bind;
    [apply raises_only_lift, getitem_decode_error|].
  intros tag.
  destruct (tag =? 50); [|destruct (tag =? 55); [|destruct (tag =? 56)]].
  - apply raises_only_bind; [apply header_raises|]. intros [[type serial] ts].
    apply raises_only_bind; [|intros st; apply raises_only_ret].
    apply raises_only_for_each. intros i s. apply slot50_raises.
  - apply raises_only_bind; [apply header_raises|]. intros [[type serial] ts].
    apply raises_only_bind; [|intros st; apply raises_only_ret].
    apply raises_only_for_each. intros i s. apply slot55_raises.
  - apply raises_only_bind; [apply header_raises|]. intros [[type serial] ts].
    apply raises_only_bind; [|intros st; apply raises_only_ret].
    apply raises_only_for_each. intros i s. apply slot56_raises.
  - apply raises_only_ret.
Qed.

Lemma handler_raises (now : datetime) (data : list byte) (o : Orphe) (e : exn) :
  outcome (sensor_values_notification_handler now data o) = Raise e ->
  (e = AttributeError /\ device_information o = None) \/ decode_error e.
Proof.
  unfold sensor_values_notification_handler,
    sensor_values_notification_handler_with.
  rewrite (bind_run _ _ _ _ _ _ (owner_run o)). cbn [app]. rewrite run_eta.
  destruct (is_connected o); cbn [negb]; [|discriminate].
  destruct (getitem data 0) as [tag|e0] eqn:Htag.
  2:{ rewrite (bind_raise _ _ _ _ _ _ (eq_refl : lift (Raise e0) o = _)).
      intros [= <-]. right. eapply getitem_decode_error, Htag. }
  rewrite (bind_run _ _ _ _ _ _ (lift_Ok _ _ o eq_refl)). cbn [app].
  rewrite run_eta.
  destruct ((tag =? 50) || (tag =? 55) || (tag =? 56)) eqn:Hset.
  - assert (Hcases : tag = 50 \/ tag = 55 \/ tag = 56).
    { apply orb_true_iff in Hset. destruct Hset as [Hset|Hset];
        [apply orb_true_iff in Hset; destruct Hset as [Hset|Hset]|];
        apply Z.eqb_eq in Hset; auto. }
    destruct (device_information o) as [di|] eqn:Hdi.
    2:{ rewrite (bind_raise _ _ _ _ _ _
                   (device_information_range_missing o Hdi)).
        intros [= <-]. left. split; reflexivity. }
    rewrite (bind_run _ _ _ _ _ _ (device_information_range_run o di Hdi)).
    cbn [app]. rewrite run_eta.
    pose proof (SensorValuesData_init_raises now data
                  (DeviceInformation.range di) o) as Hraise.
    pose proof (SensorValuesData_init_header now data
                  (DeviceInformation.range di) o tag) as Hheader.
    destruct (SensorValuesData.init now data (DeviceInformation.range di) o)
      as [[evs o1] [sv|e1]] eqn:Einit.
    + destruct (Hheader sv Htag Hcases eq_refl) as (_ & _ & Hserial).
      rewrite (bind_run _ _ _ _ _ _ Einit). rewrite Hserial.
      unfold attr, bind, ret, owner, call_user, record, modify, emitted, final,
        outcome.
      cbn [fst snd].
      destruct (1 <? _); [destruct (lost_data_callback (callbacks o1))|];
        discriminate.
    + rewrite (bind_raise _ _ _ _ _ _ Einit). intros [= <-].
      right. apply (Hraise e1). reflexivity.
  - destruct (tag =? 40); [|discriminate].
    destruct (device_information o) as [di|] eqn:Hdi.
    2:{ rewrite (bind_raise _ _ _ _ _ _
                   (device_information_range_missing o Hdi)).
        intros [= <-]. left. split; reflexivity. }
    rewrite (bind_run _ _ _ _ _ _ (device_information_range_run o di Hdi)).
    cbn [app]. rewrite run_eta.
    pose proof (SensorValuesData_init_raises now data
                  (DeviceInformation.range di) o) as Hraise.
    destruct (SensorValuesData.init now data (DeviceInformation.range di) o)
      as [[evs o1] [sv|e1]] eqn:Einit.
    + rewrite (bind_run _ _ _ _ _ _ Einit). discriminate.
    + rewrite (bind_raise _ _ _ _ _ _ Einit). intros [= <-].
      right. apply (Hraise e1). reflexivity.
Qed.

(** The exceptions a sensor-values notification can end with: the
    [AttributeError] of a session that has not stored the device
    information, the [IndexError] of a missing byte or of a range index
    outside the tables, and the [ValueError] of an invalid time of day.
    There is no other, and a stored device information excludes the
    first. *)
Theorem sensor_values_handler_exceptions
    (now : datetime) (data : list byte) (o : Orphe) (e : exn) :
  outcome (sensor_values_notification_handler now data o) = Raise e ->
  (e = AttributeError /\ device_information o = None) \/
  e = IndexError \/ e = ValueError.
Proof. apply handler_raises. Qed.

Lemma sensor_values_handler_exceptions_witness :
  (IndexError = AttributeError /\ device_information connected_session = None)
  \/ IndexError = IndexError \/ IndexError = ValueError.
Proof.
  apply (sensor_values_handler_exceptions epoch_day packet56_short_header
           connected_session IndexError).
  reflexivity.
Defined.

(** [start_sensor_values_notification] reads the device information before
    it subscribes.  When it completes, the calls were the read and then
    [start_notify] on the sensor-values characteristic, the stored device
    information is the decoded answer of the device, and from then on no
    sensor-values notification can end with [AttributeError], whatever
    payload arrives. *)
Theorem start_sensor_values_notification_prepares_handler
    (b : Bleak) (o : Orphe) (now : datetime) (data : list byte) :
  let r := start_sensor_values_notification b o in
  result r = Done tt ->
  trace r = [read_gatt_char DEVICE_INFORMATION; start_notify SENSOR_VALUES] /\
  session r = set_device_information (DeviceInformation.init (answer b)) o /\
  outcome (sensor_values_notification_handler now data (session r))
  <> Raise AttributeError.
Proof.
  cbv zeta. unfold start_sensor_values_notification, read_device_information,
    cbind, perform, cmodify, cret, trace, session, result.
  destruct (client o) as [c|] eqn:Hc; [|discriminate].
  destruct (refuses b (read_gatt_char DEVICE_INFORMATION)); [discriminate|].
  cbn [fst snd app set_device_information client]. rewrite Hc.
  destruct (refuses b (start_notify SENSOR_VALUES)); [discriminate|].
  cbn [fst snd app]. intros _.
  split; [reflexivity|]. split; [reflexivity|].
  intros H. apply handler_raises in H.
  destruct H as [[_ H] | [H | H]]; discriminate H.
Qed.

Lemma start_sensor_values_notification_prepares_handler_witness :
  trace (start_sensor_values_notification willing_device unconfigured_session)
  = [read_gatt_char DEVICE_INFORMATION; start_notify SENSOR_VALUES] /\
  session (start_sensor_values_notification willing_device
             unconfigured_session)
  = connected_session /\
  outcome (sensor_values_notification_handler epoch_day packet56
             (session (start_sensor_values_notification willing_device
                         unconfigured_session)))
  <> Raise AttributeError.
Proof.
  apply (start_sensor_values_notification_prepares_handler willing_device
           unconfigured_session epoch_day packet56).
  reflexivity.
Defined.

(** ** The plot buffers *)

Lemma keep_last_length {A} (n : nat) (l : list A) :
  length (keep_last n l) = Nat.min n (length l).
Proof. unfold keep_last. rewrite length_skipn. lia. Qed.

Lemma keep_last_short {A} (n : nat) (l : list A) :
  (length l <= n)%nat -> keep_last n l = l.
Proof.
  intros H. unfold keep_last.
  replace (length l - n)%nat with 0%nat by lia. reflexivity.
Qed.

Lemma keep_last_app {A} (n : nat) (a b : list A) :
  keep_last n (keep_last n a ++ b) = keep_last n (a ++ b).
Proof.
  destruct (Nat.le_gt_cases (length a) n) as [Hle|Hgt].
  - now rewrite (keep_last_short n a Hle).
  - unfold keep_last at 1 3. rewrite !length_app, keep_last_length.
    unfold keep_last. rewrite !skipn_app, skipn_skipn, length_skipn.
    f_equal; f_equal; lia.
Qed.

Lemma length_set_nth {A} (i : nat) (x : A) (l : list A) :
  length (set_nth i x l) = length l.
Proof.
  revert i. induction l as [|y l IH]; intros [|i]; cbn; try reflexivity.
  now rewrite IH.
Qed.

Lemma nth_error_set_nth {A} (i j : nat) (x : A) (l : list A) :
  nth_error (set_nth i x l) j
  = if Nat.eqb i j
    then match nth_error l j with Some _ => Some x | None => None end
    else nth_error l j.
Proof.
  revert i j. induction l as [|y l IH]; intros [|i] [|j]; cbn;
    try reflexivity; try apply IH.
  now destruct (Nat.eqb i j).
Qed.

Lemma got_pressure_from_spec (values : list Z) :
  forall (i : nat) (sensors : list (list Z)),
    (i + length values <= length sensors)%nat ->
    exists sensors',
      got_pressure_from i values sensors = (sensors', Ok tt) /\
      length sensors' = length sensors /\
      forall j,
        nth_error sensors' j
        = match nth_error sensors j with
          | Some d =>
              Some (if (i <=? j)%nat && (j <? i + length values)%nat
                    then deque_append plot_buffer_size d (nth (j - i) values 0)
                    else d)
          | None => None
          end.
Proof.
  induction values as [|p rest IH]; intros i sensors H.
  - exists sensors. split; [reflexivity|]. split; [reflexivity|].
    intros j. destruct (nth_error sensors j); [|reflexivity].
    destruct (Nat.leb_spec i j), (Nat.ltb_spec j (i + length (@nil Z)));
      cbn [andb length] in *; try reflexivity; lia.
  - cbn [length] in H. cbn [got_pressure_from].
    destruct (nth_error sensors i) as [d|] eqn:Ed;
      [|apply nth_error_None in Ed; lia].
    destruct (IH (S i) (set_nth i (deque_append plot_buffer_size d p) sensors))
      as (sensors' & E & Hlen & Hnth);
      [rewrite length_set_nth; lia|].
    exists sensors'. split; [exact E|].
    split; [now rewrite Hlen, length_set_nth|].
    intros j. rewrite Hnth, nth_error_set_nth. cbn [length].
    destruct (Nat.eqb_spec i j) as [<-|Hij].
    + rewrite Ed.
      replace (S i <=? i)%nat with false by (symmetry; apply Nat.leb_gt; lia).
      replace (i <=? i)%nat with true by (symmetry; apply Nat.leb_le; lia).
      replace (i <? i + S (length rest))%nat with true
        by (symmetry; apply Nat.ltb_lt; lia).
      cbn [andb]. now rewrite Nat.sub_diag.
    + destruct (nth_error sensors j) as [dj|]; [|reflexivity].
      destruct (Nat.leb_spec (S i) j), (Nat.leb_spec i j),
        (Nat.ltb_spec j (S i + length rest)),
        (Nat.ltb_spec j (i + S (length rest)));
        cbn [andb]; try reflexivity; try lia.
      replace (j - i)%nat with (S (j - S i)) by lia. reflexivity.
Qed.

Lemma plot_trace_window (evs : list Event) :
  Forall six_channels evs ->
  forall sensors,
    length sensors = 6%nat ->
    Forall (fun d => (length d <= plot_buffer_size)%nat) sensors ->
    exists sensors',
      plot_trace evs sensors = (sensors', Ok tt) /\
      length sensors' = 6%nat /\
      Forall (fun d => (length d <= plot_buffer_size)%nat) sensors' /\
      forall j, (j < 6)%nat ->
        nth j sensors' []
        = keep_last plot_buffer_size (nth j sensors [] ++ channel j evs).
Proof.
  induction 1 as [|e evs He _ IH]; intros sensors Hlen Hbound.
  - exists sensors. repeat split; auto.
    intros j Hj. cbn [channel flat_map]. rewrite app_nil_r.
    symmetry. apply keep_last_short.
    rewrite Forall_forall in Hbound. apply Hbound, nth_In. lia.
  - assert (Hskip : forall sensors',
               plot_trace evs sensors = (sensors', Ok tt) /\
               length sensors' = 6%nat /\
               Forall (fun d => (length d <= plot_buffer_size)%nat) sensors' /\
               (forall j, (j < 6)%nat ->
                  nth j sensors' []
                  = keep_last plot_buffer_size
                      (nth j sensors [] ++ channel j evs)) ->
               channel 0 [e] = [] -> (forall j, channel j [e] = []) ->
               plot_trace (e :: evs) sensors = plot_trace evs sensors ->
               exists sensors'',
                 plot_trace (e :: evs) sensors = (sensors'', Ok tt) /\
                 length sensors'' = 6%nat /\
                 Forall (fun d => (length d <= plot_buffer_size)%nat)
                        sensors'' /\
                 forall j, (j < 6)%nat ->
                   nth j sensors'' []
                   = keep_last plot_buffer_size
                       (nth j sensors [] ++ channel j (e :: evs))).
    { intros sensors' (E & Hl & Hb & Hn) _ Hch Hsame.
      exists sensors'. rewrite Hsame. repeat split; auto.
      intros j Hj. rewrite (Hn j Hj).
      replace (channel j (e :: evs)) with (channel j [e] ++ channel j evs)
        by (unfold channel; cbn [flat_map]; now rewrite app_nil_r).
      now rewrite Hch. }
    destruct e;
      try (destruct (IH sensors Hlen Hbound) as (sensors' & Hs);
           apply (Hskip sensors' Hs); reflexivity).
    cbn [six_channels] in He.
    destruct (got_pressure_from_spec (PressureData.values p) 0 sensors)
      as (sensors1 & E1 & Hlen1 & Hnth1); [lia|].
    assert (Hval : forall j, (j < 6)%nat ->
               nth j sensors1 []
               = keep_last plot_buffer_size
                   (nth j sensors [] ++ [nth j (PressureData.values p) 0])).
    { intros j Hj. specialize (Hnth1 j).
      destruct (nth_error sensors j) as [d|] eqn:Ed;
        [|apply nth_error_None in Ed; lia].
      rewrite (nth_error_nth _ _ [] Ed).
      rewrite (nth_error_nth _ _ [] Hnth1).
      replace (0 <=? j)%nat with true by (symmetry; apply Nat.leb_le; lia).
      replace (j <? 0 + length (PressureData.values p))%nat with true
        by (symmetry; apply Nat.ltb_lt; lia).
      cbn [andb]. now rewrite Nat.sub_0_r. }
    assert (Hbound1 : Forall (fun d => (length d <= plot_buffer_size)%nat)
                             sensors1).
    { apply Forall_forall. intros d Hd.
      apply (In_nth _ _ []) in Hd. destruct Hd as (j & Hj & <-).
      rewrite Hval by lia. rewrite keep_last_length. lia. }
    destruct (IH sensors1 ltac:(lia) Hbound1) as (sensors' & E & Hl & Hb & Hn).
    exists sensors'. cbn [plot_trace]. unfold plot_got_pressure.
    rewrite E1. split; [exact E|]. repeat split; auto.
    intros j Hj. rewrite (Hn j Hj), (Hval j Hj), keep_last_app.
    rewrite <- app_assoc. reflexivity.
Qed.

Lemma sound_six_channels (serial : Z) (e : Event) :
  sound_sample serial e -> six_channels e.
Proof.
  intros [_ H]. destruct e; cbn in *; try exact I. apply H.
Qed.

(** The pressure plot on the decoder's output.  Whatever payload is decoded,
    feeding the emitted events to the script's callbacks never raises, keeps
    six buffers of at most 512 values, and leaves in buffer [j] the most
    recent 512 of its previous content followed by the channel-[j] values of
    the decoded slots in call order. *)
Theorem plot_buffers_hold_most_recent_values
    (now : datetime) (data : list byte) (range : Range.t) (o : Orphe)
    (sensors : list (list Z)) :
  length sensors = 6%nat ->
  Forall (fun d => (length d <= plot_buffer_size)%nat) sensors ->
  let evs := emitted (SensorValuesData.init now data range o) in
  exists sensors',
    plot_trace evs sensors = (sensors', Ok tt) /\
    length sensors' = 6%nat /\
    Forall (fun d => (length d <= plot_buffer_size)%nat) sensors' /\
    forall j, (j < 6)%nat ->
      nth j sensors' []
      = keep_last plot_buffer_size (nth j sensors [] ++ channel j evs).
Proof.
  intros Hlen Hbound evs. apply plot_trace_window; try assumption.
  destruct (SensorValuesData_init_sound now data range o) as [_ Hs].
  eapply Forall_impl; [|exact Hs].
  intros e. apply sound_six_channels.
Qed.

Lemma plot_buffers_hold_most_recent_values_witness :
  exists sensors',
    plot_trace (emitted (SensorValuesData.init epoch_day packet56
                           (Range.mk 0 3) connected_session)) sensors_init
    = (sensors', Ok tt) /\
    nth 0 sensors' [] = [272; 272] /\
    nth 5 sensors' [] = [352; 352].
Proof.
  destruct (plot_buffers_hold_most_recent_values epoch_day packet56
              (Range.mk 0 3) connected_session sensors_init)
    as (sensors' & E & _ & _ & Hn);
    [reflexivity | repeat constructor |].
  exists sensors'. split; [exact E|].
  split; [rewrite (Hn 0%nat) by lia | rewrite (Hn 5%nat) by lia];
    reflexivity.
Defined.

(** ** Range scaling, in every slot of every format *)















